(** * nibabies: BOLD registration helpers and workflow wiring

    A shallow embedding of the numeric helpers and of the workflow
    construction found in

    - [nibabies/workflows/bold/registration.py]
      ([compare_xforms], [_conditional_downsampling], [init_bbreg_wf],
      [init_fsl_bbr_wf]);
    - [nibabies/workflows/bold/alignment.py] ([format_agg_rois]).

    Conventions.  numpy's floating-point values (float64, and the float32
    voxel sizes of a NIfTI header) are idealised as the real numbers [R]:
    rounding, infinities and NaN are outside the model.  Python
    exceptions are the [Err] results of a small error monad.  Functions of
    third-party packages (nipype, niworkflows, nibabel, nitransforms, scipy)
    are not part of the repository; they enter either as [Variable]s of a
    section or as clearly marked modelled definitions. *)

From Stdlib Require Import Reals Lra Psatz List String Ascii ZArith Bool Lia.
Import ListNotations.

Set Implicit Arguments.

(* ================================================================== *)
(** * Python layer: exceptions, results, indexing *)
(* ================================================================== *)

Module Py.

(** The exception classes that the embedded code can raise.
    [InvalidTransformError] is the error kind named by the
    specification; [External] stands for whatever a third-party callee
    raises. *)
Inductive exn : Type :=
| IndexError
| AttributeError
| TypeError
| ValueError
| KeyError
| NotImplementedError
| FileNotFoundError
| InvalidTransformError
| External (msg : string).

Inductive result (A : Type) : Type :=
| Ok (a : A)
| Err (e : exn).
Arguments Ok {A} a.
Arguments Err {A} e.

Definition bind {A B : Type} (m : result A) (k : A -> result B) : result B :=
  match m with
  | Ok a => k a
  | Err e => Err e
  end.

(** [seq[i]] for a literal, non-negative index. *)
Definition getitem {A : Type} (l : list A) (i : nat) : result A :=
  match nth_error l i with
  | Some a => Ok a
  | None => Err IndexError
  end.

(** [seq[i:]]; slicing never raises. *)
Definition slice_from {A : Type} (i : nat) (l : list A) : list A := skipn i l.

End Py.
Import Py.

Declare Scope py_scope.
Delimit Scope py_scope with py.
Notation "x <- m ;; k" := (bind m (fun x => k))
  (at level 61, m at next level, right associativity) : py_scope.
Notation "' pat <- m ;; k" := (bind m (fun x => match x with pat => k end))
  (at level 61, pat pattern, m at next level, right associativity) : py_scope.

(* ================================================================== *)
(** * 4x4 affines over the reals *)
(* ================================================================== *)

Module Affine.
Local Open Scope R_scope.

Record vec3 : Type := V3 { vx : R; vy : R; vz : R }.
Record vec4 : Type := V4 { c0 : R; c1 : R; c2 : R; c3 : R }.
(** A 4x4 array, row by row, as [numpy] stores it. *)
Record mat4 : Type := M4 { row0 : vec4; row1 : vec4; row2 : vec4; row3 : vec4 }.

Definition dot4 (r p : vec4) : R :=
  c0 r * c0 p + c1 r * c1 p + c2 r * c2 p + c3 r * c3 p.

(** Homogeneous column of a point: the row of ones stacked below the
    coordinates. *)
Definition homog (p : vec3) : vec4 := V4 (vx p) (vy p) (vz p) 1.

(** [np.dot(affine, pts)[0:3, :]] at one column. *)
Definition apply_affine (M : mat4) (p : vec3) : vec3 :=
  V3 (dot4 (row0 M) (homog p)) (dot4 (row1 M) (homog p)) (dot4 (row2 M) (homog p)).

Definition sub3 (u v : vec3) : vec3 := V3 (vx u - vx v) (vy u - vy v) (vz u - vz v).
Definition zero3 : vec3 := V3 0 0 0.

(** Euclidean norm, [sqrt(sum(power(abs(v), 2)))]. *)
Definition norm3 (v : vec3) : R := sqrt (vx v * vx v + vy v * vy v + vz v * vz v).

Definition dist3 (u v : vec3) : R := norm3 (sub3 u v).

Definition col (j : vec4 -> R) (M : mat4) : vec4 :=
  V4 (j (row0 M)) (j (row1 M)) (j (row2 M)) (j (row3 M)).

Definition row_mul (r : vec4) (B : mat4) : vec4 :=
  V4 (dot4 r (col c0 B)) (dot4 r (col c1 B)) (dot4 r (col c2 B)) (dot4 r (col c3 B)).

(** Matrix product [A . B]. *)
Definition matmul (A B : mat4) : mat4 :=
  M4 (row_mul (row0 A) B) (row_mul (row1 A) B) (row_mul (row2 A) B) (row_mul (row3 A) B).

Definition identity : mat4 :=
  M4 (V4 1 0 0 0) (V4 0 1 0 0) (V4 0 0 1 0) (V4 0 0 0 1).

(** Pure translation by [t]. *)
Definition translation (t : vec3) : mat4 :=
  M4 (V4 1 0 0 (vx t)) (V4 0 1 0 (vy t)) (V4 0 0 1 (vz t)) (V4 0 0 0 1).

(** Determinant of the upper-left 3x3 block. *)
Definition det3 (M : mat4) : R :=
  c0 (row0 M) * (c1 (row1 M) * c2 (row2 M) - c2 (row1 M) * c1 (row2 M))
  - c1 (row0 M) * (c0 (row1 M) * c2 (row2 M) - c2 (row1 M) * c0 (row2 M))
  + c2 (row0 M) * (c0 (row1 M) * c1 (row2 M) - c1 (row1 M) * c0 (row2 M)).

(** Bottom row [[0, 0, 0, 1]]. *)
Definition affine_bottom (M : mat4) : Prop := row3 M = V4 0 0 0 1.

(** A well-formed affine: bottom row [[0,0,0,1]] and invertible 3x3
    block.  Entries of type [R] are finite by construction. *)
Definition valid_affine (M : mat4) : Prop := affine_bottom M /\ det3 M <> 0.

(** Column [j] of the 3x3 block dotted with column [k]. *)
Definition coldot (j k : vec4 -> R) (M : mat4) : R :=
  j (row0 M) * k (row0 M) + j (row1 M) * k (row1 M) + j (row2 M) * k (row2 M).

(** Rigid: orthonormal 3x3 block of determinant one, and an affine
    bottom row. *)
Definition rigid (M : mat4) : Prop :=
  affine_bottom M /\
  coldot c0 c0 M = 1 /\ coldot c1 c1 M = 1 /\ coldot c2 c2 M = 1 /\
  coldot c0 c1 M = 0 /\ coldot c0 c2 M = 0 /\ coldot c1 c2 M = 0 /\
  det3 M = 1.

(** [x > y] as numpy evaluates it, to a boolean. *)
Definition Rgtb (x y : R) : bool := if Rgt_dec x y then true else false.
(** [x < y], likewise. *)
Definition Rltb (x y : R) : bool := if Rlt_dec x y then true else false.

(** [np.max] of a non-empty array; [0] stands in for the empty one. *)
Definition Rlist_max (l : list R) : R :=
  match l with
  | [] => 0
  | x :: xs => fold_left Rmax xs x
  end.

End Affine.
Import Affine.

(* ================================================================== *)
(** * [compare_xforms] (registration.py, lines 873-913) *)
(* ================================================================== *)

Module Registration.
Local Open Scope R_scope.
Local Open Scope py_scope.

Section CompareXforms.

(** [niworkflows.interfaces.surf.load_transform]: reads the file named
    by its argument and returns the 4x4 array found there, or raises.
    The function is not part of the repository; it is a parameter. *)
Variable load_transform : string -> result mat4.

(** [nipype.algorithms.rapidart._calc_norm_affine], called as
    [_calc_norm_affine(affines, use_differences=...)]: returns the
    array of norms and a second value that [compare_xforms] drops.
    Not part of the repository; a parameter. *)
Variable D : Type.
Variable calc_norm_affine : list mat4 -> bool -> list R * D.

(** The value [norm[1]] that line 913 compares with the threshold. *)
Definition compare_xforms_norm (lta_list : list string) : result R :=
  f0 <- getitem lta_list 0 ;;
  bbr_affine <- load_transform f0 ;;
  f1 <- getitem lta_list 1 ;;
  fallback_affine <- load_transform f1 ;;
  let '(norm, _) := calc_norm_affine [fallback_affine; bbr_affine] true in
  getitem norm 1.

(** [compare_xforms(lta_list, norm_threshold=15)]; [None] is the call
    that leaves the keyword out. *)
Definition compare_xforms (lta_list : list string) (norm_threshold : option R)
  : result bool :=
  let norm_threshold := match norm_threshold with Some t => t | None => 15 end in
  f0 <- getitem lta_list 0 ;;
  bbr_affine <- load_transform f0 ;;
  f1 <- getitem lta_list 1 ;;
  fallback_affine <- load_transform f1 ;;
  let '(norm, _) := calc_norm_affine [fallback_affine; bbr_affine] true in
  n1 <- getitem norm 1 ;;
  Ok (Rgtb n1 norm_threshold).

End CompareXforms.

(** ** The displacement metric *)

Section CalcNormAffine.

(** The points the transforms are applied to. *)
Variable all_pts : list vec3.

(** Row [i] of [newpos]: the points moved by the [i]-th affine. *)
Definition newpos (affines : list mat4) : list (list vec3) :=
  map (fun A => map (apply_affine A) all_pts) affines.

(** Pointwise difference of two rows. *)
Fixpoint row_sub (r s : list vec3) : list vec3 :=
  match r, s with
  | u :: r', v :: s' => sub3 u v :: row_sub r' s'
  | _, _ => []
  end.

(** First differences along the list of affines: row [i+1] minus row [i]. *)
Fixpoint diff_rows (rows : list (list vec3)) : list (list vec3) :=
  match rows with
  | r0 :: ((r1 :: _) as rest) => row_sub r1 r0 :: diff_rows rest
  | _ => []
  end.

(** A row of zeros in front of the differences, so that entry [i]
    measures affine [i] against affine [i-1]. *)
Definition with_zero_row (rows : list (list vec3)) : list (list vec3) :=
  map (fun _ => zero3) all_pts :: diff_rows rows.

(** Modelled from the spec: nipype's [_calc_norm_affine], whose source
    is not in the repository.  Following the algorithm of the
    specification (steps 2 to 4) and the docstring of [compare_xforms]:
    both transforms are applied to every reference point, the per-point
    Euclidean displacement between consecutive transforms is taken, and
    the norm of a transform is the maximum of these displacements.  Only
    the difference mode that [compare_xforms] requests is described, so
    the flag is not inspected; the second result is not described and is
    [tt]. *)
Definition _calc_norm_affine (affines : list mat4) (use_differences : bool)
  : list R * unit :=
  (map (fun row => Rlist_max (map norm3 row)) (with_zero_row (newpos affines)), tt).

End CalcNormAffine.

(** Modelled from the spec: the reference points, "the midpoints of the
    six faces" of the cube "centered at the origin with side length 2",
    [{(+-1,0,0), (0,+-1,0), (0,0,+-1)}].  The points that nipype's helper
    uses when none are passed are fixed inside nipype, which is not in the
    repository; the docstring of [compare_xforms] speaks of "the midpoints
    of the faces of a cube" without giving its size. *)
Definition face_midpoints : list vec3 :=
  [ V3 1 0 0; V3 (-1) 0 0; V3 0 1 0; V3 0 (-1) 0; V3 0 0 1; V3 0 0 (-1) ].

End Registration.
Import Registration.

(* ================================================================== *)
(** * [_conditional_downsampling] (registration.py, lines 916-955) *)
(* ================================================================== *)

Module Downsample.
Local Open Scope R_scope.

(** ** Images and the file store *)

Definition index3 : Type := (Z * Z * Z)%type.

(** A 3D array: its shape and its values. *)
Record ndarray : Type := NdArray { arr_shape : index3; arr_val : index3 -> R }.

(** A NIfTI image: data array, affine, and the voxel sizes stored in the
    header ([img.header.get_zooms()[:3]]). *)
Record image : Type := Nifti { dataobj : ndarray; affine : mat4; zooms : vec3 }.

Definition img_shape (img : image) : index3 := arr_shape (dataobj img).

Record mat3 : Type := M3 { r0 : vec3; r1 : vec3; r2 : vec3 }.

(** [affine[:3, :3]]. *)
Definition block3 (M : mat4) : mat3 :=
  M3 (V3 (c0 (row0 M)) (c1 (row0 M)) (c2 (row0 M)))
     (V3 (c0 (row1 M)) (c1 (row1 M)) (c2 (row1 M)))
     (V3 (c0 (row2 M)) (c1 (row2 M)) (c2 (row2 M))).

Definition scale3 (s : R) (v : vec3) : vec3 := V3 (s * vx v) (s * vy v) (s * vz v).
Definition dot3 (u v : vec3) : R := vx u * vx v + vy u * vy v + vz u * vz v.

(** [np.diag(s).dot(B)]: row [i] of [B] multiplied by [s[i]]. *)
Definition diag_dot (s : vec3) (B : mat3) : mat3 :=
  M3 (scale3 (vx s) (r0 B)) (scale3 (vy s) (r1 B)) (scale3 (vz s) (r2 B)).

(** [B.dot(v)]. *)
Definition mat3_dot (B : mat3) (v : vec3) : vec3 :=
  V3 (dot3 (r0 B) v) (dot3 (r1 B) v) (dot3 (r2 B) v).

(** [nb.affines.from_matvec(B, t)]. *)
Definition from_matvec (B : mat3) (t : vec3) : mat4 :=
  M4 (V4 (vx (r0 B)) (vy (r0 B)) (vz (r0 B)) (vx t))
     (V4 (vx (r1 B)) (vy (r1 B)) (vz (r1 B)) (vy t))
     (V4 (vx (r2 B)) (vy (r2 B)) (vz (r2 B)) (vz t))
     (V4 0 0 0 1).

(** Voxel sizes of a grid: the Euclidean lengths of the columns of the
    3x3 block of its affine. *)
Definition voxel_sizes (M : mat4) : vec3 :=
  V3 (sqrt (coldot c0 c0 M)) (sqrt (coldot c1 c1 M)) (sqrt (coldot c2 c2 M)).

(** [nb.Nifti1Image(data, affine[, header])].  nibabel writes the given
    affine into the header, which sets the header's voxel sizes to the
    column lengths of that affine. *)
Definition Nifti1Image (data : ndarray) (aff : mat4) : image :=
  Nifti data aff (voxel_sizes aff).

(** [np.zeros(shape)]. *)
Definition zeros (shape : index3) : ndarray := NdArray shape (fun _ => 0).

(** [np.ceil(x).astype(int)]. *)
Definition Rceil (x : R) : Z := (1 - up (- x))%Z.

(** [(a > 0.5).astype(np.uint8)], element by element. *)
Definition binarize (a : ndarray) : ndarray :=
  NdArray (arr_shape a) (fun v => if Rgtb (arr_val a v) (5 / 10) then 1 else 0).

(** [np.any(z < th)]. *)
Definition any_lt (z : vec3) (th : R) : bool :=
  Rltb (vx z) th || Rltb (vy z) th || Rltb (vz z) th.

(** The files on disk, by path. *)
Definition store : Type := string -> option image.

Definition write (path : string) (img : image) (fs : store) : store :=
  fun p => if String.eqb p path then Some img else fs p.

(** Computations that read and write the store and may raise; what was
    written before an exception stays written. *)
Definition io (A : Type) : Type := store -> result A * store.

Definition ret {A : Type} (a : A) : io A := fun fs => (Ok a, fs).
Definition raise {A : Type} (e : exn) : io A := fun fs => (Err e, fs).
Definition iobind {A B : Type} (m : io A) (k : A -> io B) : io B :=
  fun fs => match m fs with
            | (Ok a, fs') => k a fs'
            | (Err e, fs') => (Err e, fs')
            end.

(** [nb.load(path)]. *)
Definition nb_load (path : string) : io image :=
  fun fs => match fs path with
            | Some img => (Ok img, fs)
            | None => (Err FileNotFoundError, fs)
            end.

(** [img.to_filename(path)]. *)
Definition to_filename (img : image) (path : string) : io unit :=
  fun fs => (Ok tt, write path img fs).

Declare Scope io_scope.
Delimit Scope io_scope with io.
Notation "x <~ m ;; k" := (iobind m (fun x => k))
  (at level 61, m at next level, right associativity) : io_scope.
Local Open Scope io_scope.

Section ConditionalDownsampling.

(** Working directory of the process, for [Path(...).absolute()]. *)
Variable cwd : string.

(** Voxel values that nitransforms computes when it resamples the
    second image at the voxels of the first (the reference).  The
    interpolation is not part of the repository; a parameter. *)
Variable resample_values : image -> image -> index3 -> R.

(** [scipy.ndimage.gaussian_filter(data, sigma)]; a parameter. *)
Variable gaussian_filter : ndarray -> vec3 -> ndarray.

Definition absolute (name : string) : string := (cwd ++ "/" ++ name)%string.

(** Modelled from the spec: [nt.Affine(reference=ref).apply(img)] of
    nitransforms, which is not in the repository.  The transform is the
    identity and the image is resampled "onto the new grid": the result
    has the shape and the affine of the reference. *)
Definition nt_apply (ref img : image) : image :=
  Nifti1Image (NdArray (img_shape ref) (resample_values ref img)) (affine ref).

Definition _conditional_downsampling
    (in_file in_mask : string) (zoom_th : option R) : io (string * string) :=
  let zoom_th := match zoom_th with Some t => t | None => 4 end in
  img <~ nb_load in_file ;;
  let zooms := zooms img in
  if negb (any_lt zooms zoom_th) then ret (in_file, in_mask) else
  let out_file := absolute "desc-resampled_input.nii.gz" in
  let out_mask := absolute "desc-resampled_mask.nii.gz" in
  let '(n0, n1, n2) := img_shape img in
  let scaling := V3 (zoom_th / vx zooms) (zoom_th / vy zooms) (zoom_th / vz zooms) in
  let newrot := diag_dot scaling (block3 (affine img)) in
  let newshape :=
    (Rceil (IZR n0 / vx scaling), Rceil (IZR n1 / vy scaling),
     Rceil (IZR n2 / vz scaling)) in
  let old_center :=
    apply_affine (affine img)
      (V3 (5 / 10 * (IZR n0 - 1)) (5 / 10 * (IZR n1 - 1)) (5 / 10 * (IZR n2 - 1))) in
  let '(m0, m1, m2) := newshape in
  let offset :=
    sub3 old_center
      (mat3_dot newrot
         (V3 ((IZR m0 - 1) * (5 / 10)) ((IZR m1 - 1) * (5 / 10))
             ((IZR m2 - 1) * (5 / 10)))) in
  let newaffine := from_matvec newrot offset in
  let newref := Nifti1Image (zeros newshape) newaffine in
  _ <~ to_filename (nt_apply newref img) out_file ;;
  mask <~ nb_load in_mask ;;
  let mdata := gaussian_filter (dataobj mask) scaling in
  let floatmask := Nifti1Image mdata (affine mask) in
  let newmask := nt_apply newref floatmask in
  let newmaskdata := binarize (dataobj newmask) in
  _ <~ to_filename (Nifti1Image newmaskdata (affine newmask)) out_mask ;;
  ret (out_file, out_mask).

End ConditionalDownsampling.

(** ** The new grid, named

    The reference grid that the resampling branch builds (lines 934-942),
    as a function of the threshold and the loaded image.  The program
    computes [scaling] in float32, the type of the header's voxel sizes;
    here the quotient is exact, so the shape and the voxel sizes below are
    those of the program only where its rounding does not move them. *)

Definition scaling_of (zoom_th : R) (z : vec3) : vec3 :=
  V3 (zoom_th / vx z) (zoom_th / vy z) (zoom_th / vz z).

Definition new_reference (zoom_th : R) (img : image) : image :=
  let zooms := zooms img in
  let '(n0, n1, n2) := img_shape img in
  let scaling := scaling_of zoom_th zooms in
  let newrot := diag_dot scaling (block3 (affine img)) in
  let newshape :=
    (Rceil (IZR n0 / vx scaling), Rceil (IZR n1 / vy scaling),
     Rceil (IZR n2 / vz scaling)) in
  let old_center :=
    apply_affine (affine img)
      (V3 (5 / 10 * (IZR n0 - 1)) (5 / 10 * (IZR n1 - 1)) (5 / 10 * (IZR n2 - 1))) in
  let '(m0, m1, m2) := newshape in
  let offset :=
    sub3 old_center
      (mat3_dot newrot
         (V3 ((IZR m0 - 1) * (5 / 10)) ((IZR m1 - 1) * (5 / 10))
             ((IZR m2 - 1) * (5 / 10)))) in
  Nifti1Image (zeros newshape) (from_matvec newrot offset).

(** The threshold in force: [zoom_th=4.0] when the caller gives none. *)
Definition threshold_of (zoom_th : option R) : R :=
  match zoom_th with Some t => t | None => 4 end.

Section Outputs.

Variable cwd : string.
Variable resample_values : image -> image -> index3 -> R.
Variable gaussian_filter : ndarray -> vec3 -> ndarray.

(** The two paths that the resampling branch writes (lines 931-932). *)
Definition out_file : string := absolute cwd "desc-resampled_input.nii.gz".
Definition out_mask : string := absolute cwd "desc-resampled_mask.nii.gz".

(** The image written to [out_file] (line 943). *)
Definition resampled_input (th : R) (img : image) : image :=
  nt_apply resample_values (new_reference th img) img.

(** The image written to [out_mask] (lines 945-953). *)
Definition resampled_mask (th : R) (img mask : image) : image :=
  let newmask :=
    nt_apply resample_values (new_reference th img)
      (Nifti1Image (gaussian_filter (dataobj mask) (scaling_of th (zooms img)))
                   (affine mask)) in
  Nifti1Image (binarize (dataobj newmask)) (affine newmask).

End Outputs.

(** Lengths of the columns of a 3x3 block. *)
Definition column_lengths (B : mat3) : vec3 :=
  V3 (sqrt (vx (r0 B) * vx (r0 B) + vx (r1 B) * vx (r1 B) + vx (r2 B) * vx (r2 B)))
     (sqrt (vy (r0 B) * vy (r0 B) + vy (r1 B) * vy (r1 B) + vy (r2 B) * vy (r2 B)))
     (sqrt (vz (r0 B) * vz (r0 B) + vz (r1 B) * vz (r1 B) + vz (r2 B) * vz (r2 B))).

(** World coordinates of the centre of a grid: the affine applied to
    [(shape - 1) / 2]. *)
Definition grid_centre (img : image) : vec3 :=
  let '(n0, n1, n2) := img_shape img in
  apply_affine (affine img)
    (V3 ((IZR n0 - 1) * (5 / 10)) ((IZR n1 - 1) * (5 / 10)) ((IZR n2 - 1) * (5 / 10))).

End Downsample.
Import Downsample.

(* ================================================================== *)
(** * Workflow graphs (nipype's [pe.Node], [Workflow.connect]) *)
(* ================================================================== *)

Module Engine.
Local Open Scope string_scope.
Local Open Scope py_scope.

(** Values that travel along the edges of a workflow. *)
#[warnings="-register-all"]
Inductive value : Type :=
| VUndef
| VBool (b : bool)
| VInt (z : Z)
| VReal (r : R)
| VStr (s : string)
| VList (l : list value).

(** The Python functions of this repository that a [niu.Function] node
    runs, and one from niworkflows. *)
Inductive pyfunction : Type :=
| fn_compare_xforms
| fn_conditional_downsampling
| fn_dseg_label.

Inductive interface : Type :=
| IdentityInterface (fields : list string)
| Merge (numinputs : nat)
| Select
| Function (f : pyfunction)
| Tool (cmd : string).

(** A [pe.Node] or, with [iterfield], a [pe.MapNode]; [node_inputs] holds
    what was set through the interface constructor or [node.inputs]. *)
Record node : Type := Node {
  node_iface : interface;
  node_inputs : list (string * value);
  node_iterfield : option string;
  node_name : string
}.

Definition edge : Type := (string * string * string * string)%type.

Record workflow : Type := Workflow {
  wf_name : string;
  wf_nodes : list node;
  wf_edges : list edge
}.

Definition pe_Node (i : interface) (inputs : list (string * value)) (name : string) : node :=
  Node i inputs None name.
Definition pe_MapNode (i : interface) (inputs : list (string * value))
    (iterfield : string) (name : string) : node :=
  Node i inputs (Some iterfield) name.

(** [node.inputs.field = v]. *)
Definition set_input (field : string) (v : value) (n : node) : node :=
  Node (node_iface n) ((field, v) :: node_inputs n) (node_iterfield n) (node_name n).

Definition has_node (name : string) (nodes : list node) : bool :=
  existsb (fun n => String.eqb (node_name n) name) nodes.

Definition add_node (n : node) (nodes : list node) : list node :=
  if has_node (node_name n) nodes then nodes else nodes ++ [n].

(** One item of the list given to [workflow.connect]:
    [(source, destination, [(out_field, in_field), ...])]. *)
Definition connection : Type := (node * node * list (string * string))%type.

Definition connect1 (wf : workflow) (c : connection) : workflow :=
  let '(src, dst, fields) := c in
  Workflow (wf_name wf)
    (add_node dst (add_node src (wf_nodes wf)))
    (wf_edges wf ++
     map (fun sd => (node_name src, fst sd, node_name dst, snd sd)) fields).

(** [workflow.connect([...])]. *)
Definition connect (cs : list connection) (wf : workflow) : workflow :=
  fold_left connect1 cs wf.

(** [node.inputs.field = v] on a node that the workflow already holds:
    the graph refers to the same object, so the graph sees the value. *)
Definition set_node_input (name field : string) (v : value) (wf : workflow) : workflow :=
  Workflow (wf_name wf)
    (map (fun n => if String.eqb (node_name n) name then set_input field v n else n)
         (wf_nodes wf))
    (wf_edges wf).

(** ** Running a graph *)

Fixpoint assoc {A : Type} (k : string) (l : list (string * A)) : option A :=
  match l with
  | [] => None
  | (k', a) :: l' => if String.eqb k k' then Some a else assoc k l'
  end.

Definition find_node (name : string) (wf : workflow) : option node :=
  find (fun n => String.eqb (node_name n) name) (wf_nodes wf).

(** The edge that ends at input [field] of node [name]. *)
Definition incoming (name field : string) (wf : workflow) : option (string * string) :=
  match find (fun e => let '(_, _, d, df) := e in
                       String.eqb d name && String.eqb df field) (wf_edges wf) with
  | Some (s, sf, _, _) => Some (s, sf)
  | None => None
  end.

(** [niu.Merge]: the defined inputs, in order, lists spliced in. *)
Definition merge_out (vals : list value) : value :=
  VList (flat_map (fun v => match v with
                            | VUndef => []
                            | VList l => l
                            | _ => [v]
                            end) vals).

(** An index as [Select] uses it; a Python [bool] is an [int]. *)
Definition as_index (v : value) : result Z :=
  match v with
  | VInt z => Ok z
  | VBool b => Ok (if b then 1 else 0)%Z
  | _ => Err TypeError
  end.

Definition as_list (v : value) : list value :=
  match v with
  | VList l => l
  | VUndef => []
  | _ => [v]
  end.

(** [l[i]], negative indices counting from the end. *)
Definition index_list (l : list value) (i : Z) : result value :=
  let n := Z.of_nat (List.length l) in
  if (0 <=? i)%Z then getitem l (Z.to_nat i)
  else if (- n <=? i)%Z then getitem l (Z.to_nat (n + i))
  else Err IndexError.

Fixpoint mapM {A B : Type} (f : A -> result B) (l : list A) : result (list B) :=
  match l with
  | [] => Ok []
  | a :: l' => b <- f a ;; bs <- mapM f l' ;; Ok (b :: bs)
  end.

(** A one-element output list is handed on as the element itself. *)
Definition simplify_list (l : list value) : value :=
  match l with
  | [v] => v
  | _ => VList l
  end.

(** [niu.Select]: [inlist] indexed by [index]. *)
Definition select_out (inlist index : value) : result value :=
  picked <- mapM (fun i => z <- as_index i ;; index_list (as_list inlist) z)
                 (as_list index) ;;
  Ok (simplify_list picked).

Definition as_str (v : value) : result string :=
  match v with
  | VStr s => Ok s
  | _ => Err TypeError
  end.

Section Run.

Variable load_transform : string -> result mat4.
Variable D : Type.
Variable calc_norm_affine : list mat4 -> bool -> list R * D.

(** What an external command-line tool leaves in output [field] of
    node [name]. *)
Variable tool_output : string -> string -> value.
(** The same for one item of a [MapNode]'s iterated input. *)
Variable map_tool_output : string -> string -> value -> value.
(** Outputs of [niu.Function] nodes other than [compare_xforms]. *)
Variable function_output : pyfunction -> string -> value.

(** Output [field] of node [name].  An input is the output at the other
    end of its incoming edge, or else the value set on the node. *)
Fixpoint eval_output (fuel : nat) (wf : workflow) (name field : string)
  : result value :=
  match fuel with
  | O => Err (External "graph too deep")
  | S fuel' =>
    match find_node name wf with
    | None => Err KeyError
    | Some n =>
      let input (f : string) : result value :=
        match incoming name f wf with
        | Some (s, sf) => eval_output fuel' wf s sf
        | None => Ok (match assoc f (node_inputs n) with
                      | Some v => v
                      | None => VUndef
                      end)
        end in
      match node_iface n with
      | IdentityInterface fields =>
        if existsb (String.eqb field) fields then input field else Err AttributeError
      | Merge k =>
        vals <- mapM (fun i => input ("in" ++ i)) (firstn k ["1"; "2"; "3"]) ;;
        Ok (merge_out vals)
      | Select =>
        inlist <- input "inlist" ;;
        index <- input "index" ;;
        select_out inlist index
      | Function fn_compare_xforms =>
        lta_list <- input "lta_list" ;;
        files <- mapM as_str (as_list lta_list) ;;
        b <- compare_xforms load_transform calc_norm_affine files None ;;
        Ok (VBool b)
      | Function f => Ok (function_output f field)
      | Tool _ =>
        match node_iterfield n with
        | None => Ok (tool_output name field)
        | Some it =>
          items <- input it ;;
          Ok (VList (map (map_tool_output name field) (as_list items)))
        end
      end
    end
  end.

(** Every path of a graph visits each node at most once. *)
Definition run (wf : workflow) (name field : string) : result value :=
  eval_output (List.length (wf_nodes wf)) wf name field.

End Run.

End Engine.
Import Engine.


(* ================================================================== *)
(** * [init_bbreg_wf] and [init_fsl_bbr_wf] (registration.py, 380-870) *)
(* ================================================================== *)

Module Workflows.
Local Open Scope string_scope.
Local Open Scope py_scope.

(** [RegistrationInit = ty.Literal['t1w', 't2w', 'header']]. *)
Definition RegistrationInit : list string := ["t1w"; "t2w"; "header"].

(** [{6: 'six', 9: 'nine', 12: 'twelve'}[bold2anat_dof]]. *)
Definition dof_word (dof : Z) : result string :=
  if (dof =? 6)%Z then Ok "six"
  else if (dof =? 9)%Z then Ok "nine"
  else if (dof =? 12)%Z then Ok "twelve"
  else Err KeyError.

Definition registration_fields : list string :=
  ["in_file"; "fsnative2anat_xfm"; "subjects_dir"; "subject_id";
   "t1w_preproc"; "t1w_mask"; "t1w_dseg"].

Definition fsl_registration_fields : list string :=
  ["in_file"; "fsnative2t1w_xfm"; "subjects_dir"; "subject_id";
   "t1w_preproc"; "t1w_mask"; "t1w_dseg"].

Definition output_fields : list string := ["itk_bold_to_t1"; "itk_t1_to_bold"; "fallback"].

Definition MRICoreg (dof : Z) : list (string * value) :=
  [("dof", VInt dof); ("sep", VList [VInt 4]);
   ("ftol", VReal (1 / 10000)%R); ("linmintol", VReal (1 / 100)%R)].

(** [init_bbreg_wf(use_bbr, bold2anat_dof, bold2anat_init, omp_nthreads,
    name)].  Resource hints ([n_procs], [mem_gb], [run_without_submitting])
    and the text of [__desc__] do not enter the graph and are left out. *)
Definition init_bbreg_wf (use_bbr : option bool) (bold2anat_dof : Z)
    (bold2anat_init : string) (name : string) : result workflow :=
  _ <- dof_word bold2anat_dof ;;
  let use_t2w := String.eqb bold2anat_init "t2w" in
  let inputnode := pe_Node (IdentityInterface registration_fields) [] "inputnode" in
  let outputnode := pe_Node (IdentityInterface output_fields) [] "outputnode" in
  if negb (existsb (String.eqb bold2anat_init) RegistrationInit) then Err ValueError else
  use_bbr <-
    (if String.eqb bold2anat_init "header" then
       match use_bbr with
       | Some false => Err ValueError
       | None => Ok (Some true)
       | Some true => Ok (Some true)
       end
     else Ok use_bbr) ;;
  let fssource := pe_Node (Tool "FreeSurferSource") [] "fssource" in
  let mri_coreg := pe_Node (Tool "MRICoreg") (MRICoreg bold2anat_dof) "mri_coreg" in
  let mri_coreg :=
    if use_t2w then set_input "reference_mask" (VBool false) mri_coreg else mri_coreg in
  let bbregister :=
    pe_Node (Tool "BBRegister")
      [("dof", VInt bold2anat_dof); ("contrast_type", VStr "t2");
       ("out_lta_file", VBool true)] "bbregister" in
  let bbregister :=
    if String.eqb bold2anat_init "header"
    then set_input "init" (VStr "header") bbregister else bbregister in
  let transforms := pe_Node (Merge 2) [] "transforms" in
  let select_transform := pe_Node Select [("index", VInt 0)] "select_transform" in
  let merge_ltas := pe_Node (Merge 2) [] "merge_ltas" in
  let concat_xfm := pe_Node (Tool "ConcatenateXFMs") [("inverse", VBool true)] "concat_xfm" in
  let wf := Workflow name [] [] in
  let wf :=
    connect
      [ (inputnode, merge_ltas, [("fsnative2anat_xfm", "in2")]);
        (transforms, select_transform, [("out", "inlist")]);
        (select_transform, merge_ltas, [("out", "in1")]);
        (merge_ltas, concat_xfm, [("out", "in_xfms")]);
        (concat_xfm, outputnode, [("out_xfm", "itk_bold_to_t1")]);
        (concat_xfm, outputnode, [("out_inv", "itk_t1_to_bold")]) ] wf in
  (* from "Use bbregister" to the end of the function *)
  let use_bbregister (wf : workflow) : workflow :=
    let wf :=
      connect
        [ (inputnode, bbregister, [("subjects_dir", "subjects_dir");
                                   ("subject_id", "subject_id");
                                   ("in_file", "source_file")]);
          (bbregister, transforms, [("out_lta_file", "in1")]) ] wf in
    match use_bbr with
    | Some true => set_node_input "outputnode" "fallback" (VBool false) wf
    | _ =>
      let compare_transforms :=
        pe_Node (Function fn_compare_xforms) [] "compare_transforms" in
      connect
        [ (transforms, compare_transforms, [("out", "lta_list")]);
          (compare_transforms, outputnode, [("out", "fallback")]);
          (compare_transforms, select_transform, [("out", "index")]) ] wf
    end in
  if negb (String.eqb bold2anat_init "header") then
    let wf :=
      connect
        [ (inputnode, mri_coreg, [("subjects_dir", "subjects_dir");
                                  ("subject_id", "subject_id");
                                  ("in_file", "source_file")]);
          (mri_coreg, transforms, [("out_lta_file", "in2")]) ] wf in
    let wf :=
      if use_t2w then
        connect
          [ (inputnode, fssource, [("subjects_dir", "subjects_dir");
                                   ("subject_id", "subject_id")]);
            (fssource, mri_coreg, [("T2", "reference_file")]) ] wf
      else wf in
    match use_bbr with
    | Some false => Ok (set_node_input "outputnode" "fallback" (VBool true) wf)
    | _ =>
      Ok (use_bbregister
            (connect [ (mri_coreg, bbregister, [("out_lta_file", "init_reg_file")]) ]
                     wf))
    end
  else Ok (use_bbregister wf).

Section FslBbr.

(** [$FSLDIR/etc/flirtsch/bbr.sch] when [FSLDIR] is set and the file
    exists; the schedule packaged with the repository otherwise. *)
Variable fsldir_schedule : option string.
Variable packaged_schedule : string.

(** [init_fsl_bbr_wf(use_bbr, bold2anat_dof, bold2anat_init, omp_nthreads,
    sloppy, name)], with the same omissions as [init_bbreg_wf]. *)
Definition init_fsl_bbr_wf (use_bbr : option bool) (bold2anat_dof : Z)
    (bold2anat_init : string) (sloppy : bool) (name : string) : result workflow :=
  _ <- dof_word bold2anat_dof ;;
  let inputnode := pe_Node (IdentityInterface fsl_registration_fields) [] "inputnode" in
  let outputnode := pe_Node (IdentityInterface output_fields) [] "outputnode" in
  let wm_mask := pe_Node (Function fn_dseg_label) [] "wm_mask" in
  let wm_mask := set_input "label" (VInt 2) wm_mask in
  if negb (existsb (String.eqb bold2anat_init) RegistrationInit) then Err ValueError else
  if String.eqb bold2anat_init "header" then Err NotImplementedError else
  let mask_t1w_brain := pe_Node (Tool "ApplyMask") [] "mask_t1w_brain" in
  let mri_coreg := pe_Node (Tool "MRICoreg") (MRICoreg bold2anat_dof) "mri_coreg" in
  let lta_to_fsl := pe_Node (Tool "LTAConvert") [("out_fsl", VBool true)] "lta_to_fsl" in
  let invt_bbr := pe_Node (Tool "ConvertXFM") [("invert_xfm", VBool true)] "invt_bbr" in
  let fsl2itk_fwd :=
    pe_Node (Tool "C3dAffineTool") [("fsl2ras", VBool true); ("itk_transform", VBool true)]
            "fsl2itk_fwd" in
  let fsl2itk_inv :=
    pe_Node (Tool "C3dAffineTool") [("fsl2ras", VBool true); ("itk_transform", VBool true)]
            "fsl2itk_inv" in
  let wf := Workflow name [] [] in
  let wf :=
    connect
      [ (inputnode, mask_t1w_brain, [("t1w_preproc", "in_file"); ("t1w_mask", "in_mask")]);
        (inputnode, mri_coreg, [("in_file", "source_file")]);
        (inputnode, fsl2itk_fwd, [("in_file", "source_file")]);
        (inputnode, fsl2itk_inv, [("in_file", "reference_file")]);
        (mask_t1w_brain, mri_coreg, [("out_file", "reference_file")]);
        (mask_t1w_brain, fsl2itk_fwd, [("out_file", "reference_file")]);
        (mask_t1w_brain, fsl2itk_inv, [("out_file", "source_file")]);
        (mri_coreg, lta_to_fsl, [("out_lta_file", "in_lta")]);
        (invt_bbr, fsl2itk_inv, [("out_file", "transform_file")]);
        (fsl2itk_fwd, outputnode, [("itk_transform", "itk_bold_to_t1")]);
        (fsl2itk_inv, outputnode, [("itk_transform", "itk_t1_to_bold")]) ] wf in
  match use_bbr with
  | Some false =>
    let wf :=
      connect
        [ (lta_to_fsl, invt_bbr, [("out_fsl", "in_file")]);
          (lta_to_fsl, fsl2itk_fwd, [("out_fsl", "transform_file")]) ] wf in
    Ok (set_node_input "outputnode" "fallback" (VBool true) wf)
  | _ =>
    let flt_bbr :=
      pe_Node (Tool "FLIRT")
        [("cost_func", VStr "bbr"); ("dof", VInt bold2anat_dof);
         ("args", VStr "-basescale 1")] "flt_bbr" in
    let flt_bbr :=
      match fsldir_schedule with
      | Some schedule => set_input "schedule" (VStr schedule) flt_bbr
      | None => set_input "schedule" (VStr packaged_schedule) flt_bbr
      end in
    let wf :=
      connect
        [ (inputnode, wm_mask, [("t1w_dseg", "in_seg")]);
          (inputnode, flt_bbr, [("in_file", "in_file")]);
          (lta_to_fsl, flt_bbr, [("out_fsl", "in_matrix_file")]) ] wf in
    let wf :=
      if sloppy then
        let downsample :=
          pe_Node (Function fn_conditional_downsampling) [] "downsample" in
        connect
          [ (mask_t1w_brain, downsample, [("out_file", "in_file")]);
            (wm_mask, downsample, [("out", "in_mask")]);
            (downsample, flt_bbr, [("out_file", "reference"); ("out_mask", "wm_seg")]) ]
          wf
      else
        connect
          [ (mask_t1w_brain, flt_bbr, [("out_file", "reference")]);
            (wm_mask, flt_bbr, [("out", "wm_seg")]) ] wf in
    match use_bbr with
    | Some true =>
      let wf :=
        connect
          [ (flt_bbr, invt_bbr, [("out_matrix_file", "in_file")]);
            (flt_bbr, fsl2itk_fwd, [("out_matrix_file", "transform_file")]) ] wf in
      Ok (set_node_input "outputnode" "fallback" (VBool false) wf)
    | _ =>
      let transforms := pe_Node (Merge 2) [] "transforms" in
      let compare_transforms :=
        pe_Node (Function fn_compare_xforms) [] "compare_transforms" in
      let select_transform := pe_Node Select [] "select_transform" in
      let fsl_to_lta :=
        pe_MapNode (Tool "LTAConvert") [("out_lta", VBool true)] "in_fsl" "fsl_to_lta" in
      Ok (connect
            [ (flt_bbr, transforms, [("out_matrix_file", "in1")]);
              (lta_to_fsl, transforms, [("out_fsl", "in2")]);
              (inputnode, fsl_to_lta, [("in_file", "source_file")]);
              (mask_t1w_brain, fsl_to_lta, [("out_file", "target_file")]);
              (transforms, fsl_to_lta, [("out", "in_fsl")]);
              (fsl_to_lta, compare_transforms, [("out_lta", "lta_list")]);
              (compare_transforms, outputnode, [("out", "fallback")]);
              (transforms, select_transform, [("out", "inlist")]);
              (compare_transforms, select_transform, [("out", "index")]);
              (select_transform, invt_bbr, [("out", "in_file")]);
              (select_transform, fsl2itk_fwd, [("out", "transform_file")]) ] wf)
    end
  end.

End FslBbr.

End Workflows.
Import Workflows.

(* ================================================================== *)
(** * [format_agg_rois] (alignment.py, lines 263-279) *)
(* ================================================================== *)

Module Alignment.
Local Open Scope string_scope.
Local Open Scope py_scope.

(** The Python objects that the return expression handles. *)
Inductive pyobj : Type :=
| PyInt (z : Z)
| PyStr (s : string).

Definition is_space (c : ascii) : bool :=
  let n := nat_of_ascii c in
  (Nat.eqb n 32 || (Nat.leb 9 n && Nat.leb n 13))%bool.

Fixpoint lstrip (s : string) : string :=
  match s with
  | String c s' => if is_space c then lstrip s' else s
  | EmptyString => EmptyString
  end.

Fixpoint rev_string (acc s : string) : string :=
  match s with
  | String c s' => rev_string (String c acc) s'
  | EmptyString => acc
  end.

(** [str.strip()]. *)
Definition strip (s : string) : string :=
  rev_string EmptyString (lstrip (rev_string EmptyString (lstrip s))).

(** [obj.strip()]: the attribute is looked up on the object, then
    called; an [int] has no such attribute. *)
Definition call_strip (obj : pyobj) : result pyobj :=
  match obj with
  | PyStr s => Ok (PyStr (strip s))
  | PyInt _ => Err AttributeError
  end.

Fixpoint repeat_string (s : string) (n : nat) : string :=
  match n with
  | O => EmptyString
  | S n' => s ++ repeat_string s n'
  end.

(** [a * b]. *)
Definition py_mul (a b : pyobj) : result pyobj :=
  match a, b with
  | PyInt x, PyInt y => Ok (PyInt (x * y))
  | PyStr s, PyInt n => Ok (PyStr (repeat_string s (Z.to_nat n)))
  | PyInt n, PyStr s => Ok (PyStr (repeat_string s (Z.to_nat n)))
  | PyStr _, PyStr _ => Err TypeError
  end.

(** [return rois[0], rois[1:], "-add %s " * (len(rois) - 1).strip()].
    The items of the tuple are evaluated from left to right; in the last
    one the method call binds tighter than [*], so [.strip()] is applied to
    [len(rois) - 1]. *)
Definition format_agg_rois (rois : list string)
  : result (string * list string * pyobj) :=
  first_image <- getitem rois 0 ;;
  let op_files := slice_from 1 rois in
  let lhs := PyStr "-add %s " in
  rhs <- call_strip (PyInt (Z.of_nat (List.length rois) - 1)) ;;
  op_string <- py_mul lhs rhs ;;
  Ok (first_image, op_files, op_string).

End Alignment.
Import Alignment.


(* ================================================================== *)
(** * Ports and connections of a graph *)
(* ================================================================== *)

Module Ports.
Local Open Scope string_scope.

Section InputValue.

Variable load_transform : string -> result mat4.
Variable D : Type.
Variable calc_norm_affine : list mat4 -> bool -> list R * D.
Variable tool_output : string -> string -> value.
Variable map_tool_output : string -> string -> value -> value.
Variable function_output : pyfunction -> string -> value.

(** What reaches input [field] of node [name] when the graph runs: the
    output at the other end of its edge, or else the value set on the
    node. *)
Definition input_value (wf : workflow) (name field : string) : result value :=
  match incoming name field wf with
  | Some (s, sf) =>
    run load_transform calc_norm_affine tool_output map_tool_output function_output
        wf s sf
  | None =>
    match find_node name wf with
    | Some n => Ok (match assoc field (node_inputs n) with Some v => v | None => VUndef end)
    | None => Err KeyError
    end
  end.

End InputValue.

(** Input names of a [niu.Function] node: the parameters of the function
    it wraps, as the repository declares them. *)
Definition function_inputs (f : pyfunction) : option (list string) :=
  match f with
  | fn_compare_xforms => Some ["lta_list"; "norm_threshold"]
  | fn_conditional_downsampling => Some ["in_file"; "in_mask"; "zoom_th"]
  | fn_dseg_label => None
  end.

(** Output names of a [niu.Function] node: [output_names], or [out]. *)
Definition function_outputs (f : pyfunction) : option (list string) :=
  match f with
  | fn_compare_xforms => Some ["out"]
  | fn_conditional_downsampling => Some ["out_file"; "out_mask"]
  | fn_dseg_label => None
  end.

Definition mem (x : string) (l : list string) : bool := existsb (String.eqb x) l.

Definition known (x : string) (names : option (list string)) : bool :=
  match names with
  | Some l => mem x l
  | None => true
  end.

(** Whether node [n] has an input called [field], as far as the
    repository says: the ports of command-line tools and of functions from
    other packages are declared elsewhere and are not questioned. *)
Definition has_input (n : node) (field : string) : bool :=
  match node_iface n with
  | IdentityInterface fields => mem field fields
  | Merge k => mem field (map (fun i => "in" ++ i) (firstn k ["1"; "2"; "3"]))
  | Select => mem field ["inlist"; "index"]
  | Function f => known field (function_inputs f)
  | Tool _ => true
  end.

(** Whether node [n] has an output called [field], likewise. *)
Definition has_output (n : node) (field : string) : bool :=
  match node_iface n with
  | IdentityInterface fields => mem field fields
  | Merge _ => String.eqb field "out"
  | Select => String.eqb field "out"
  | Function f => known field (function_outputs f)
  | Tool _ => true
  end.

(** An edge joins an output that its source has to an input that its
    destination has. *)
Definition edge_found (wf : workflow) (e : edge) : bool :=
  let '(s, sf, d, df) := e in
  match find_node s wf, find_node d wf with
  | Some sn, Some dn => has_output sn sf && has_input dn df
  | _, _ => false
  end.

Definition same_port (e1 e2 : edge) : bool :=
  let '(_, _, d1, f1) := e1 in
  let '(_, _, d2, f2) := e2 in
  String.eqb d1 d2 && String.eqb f1 f2.

(** No input is the destination of two edges. *)
Fixpoint single_drivers (es : list edge) : bool :=
  match es with
  | [] => true
  | e :: es' => negb (existsb (same_port e) es') && single_drivers es'
  end.

(** The inputs that output [field] of node [name] drives. *)
Definition outgoing (name field : string) (wf : workflow) : list (string * string) :=
  flat_map (fun e : edge =>
              let '(s, sf, d, df) := e in
              if String.eqb s name && String.eqb sf field then [(d, df)] else [])
           (wf_edges wf).

Definition well_connected (wf : workflow) : bool :=
  forallb (edge_found wf) (wf_edges wf) && single_drivers (wf_edges wf).

End Ports.
Import Ports.

(* ================================================================== *)
(** * [init_bold_reg_wf] (registration.py, lines 28-166) *)
(* ================================================================== *)

Module BoldReg.
Local Open Scope string_scope.
Local Open Scope py_scope.

(** The parameters of a function, each with whether it has a default. *)
Definition parameters : Type := list (string * bool).

(** [def init_bbreg_wf(use_bbr, bold2anat_dof, bold2anat_init,
    omp_nthreads, name='bbreg_wf')] (lines 380-386). *)
Definition init_bbreg_wf_parameters : parameters :=
  [("use_bbr", false); ("bold2anat_dof", false); ("bold2anat_init", false);
   ("omp_nthreads", false); ("name", true)].

(** [def init_fsl_bbr_wf(use_bbr, bold2anat_dof, bold2anat_init,
    omp_nthreads, sloppy=False, name='fsl_bbr_wf')] (lines 603-610). *)
Definition init_fsl_bbr_wf_parameters : parameters :=
  [("use_bbr", false); ("bold2anat_dof", false); ("bold2anat_init", false);
   ("omp_nthreads", false); ("sloppy", true); ("name", true)].

(** A call by keywords: Python raises [TypeError] before the body runs
    when a keyword is not a parameter or a parameter without default is
    not given. *)
Definition bind_keywords (ps : parameters) (given : list string) : result unit :=
  if forallb (fun k => mem k (map fst ps)) given
     && forallb (fun p => snd p || mem (fst p) given) ps
  then Ok tt else Err TypeError.

(** An end of a connection: a node, or a whole workflow whose ports are
    written ['node.field']. *)
Inductive endpoint : Type :=
| OfNode (n : node)
| OfWorkflow (w : workflow).

Definition dot : ascii := "."%char.

(** ['node.field'] cut at its last dot. *)
Fixpoint split_last_dot (s : string) : option (string * string) :=
  match s with
  | EmptyString => None
  | String c s' =>
    match split_last_dot s' with
    | Some (a, b) => Some (String c a, b)
    | None => if Ascii.eqb c dot then Some (EmptyString, s') else None
    end
  end.

Definition endpoint_name (e : endpoint) : string :=
  match e with
  | OfNode n => node_name n
  | OfWorkflow w => wf_name w
  end.

(** Name of the node behind a port, in the flat graph: the nodes of a
    nested workflow are called ['workflow.node']. *)
Definition port (e : endpoint) (field : string) : string * string :=
  match e with
  | OfNode n => (node_name n, field)
  | OfWorkflow w =>
    match split_last_dot field with
    | Some (n, f) => (wf_name w ++ "." ++ n, f)
    | None => (wf_name w, field)
    end
  end.

Definition endpoint_has (has : node -> string -> bool) (e : endpoint) (field : string)
  : bool :=
  match e with
  | OfNode n => has n field
  | OfWorkflow w =>
    match split_last_dot field with
    | Some (n, f) =>
      match find_node n w with
      | Some nd => has nd f
      | None => false
      end
    | None => false
    end
  end.

Definition nested_connection : Type := (endpoint * endpoint * list (string * string))%type.

(** Whether [Workflow.connect] looks up the ports of an endpoint.  It
    skips a node whose interface class, or one of its bases, comes from
    nipype's [io] module, and the identity, merge, select and function
    interfaces all derive from [IOBase] there; the ports of a nested
    workflow are looked up on its nodes. *)
Definition port_checked (e : endpoint) : bool :=
  match e with
  | OfWorkflow _ => true
  | OfNode n =>
    match node_iface n with
    | Tool _ => true
    | _ => false
    end
  end.

(** The ports that [Workflow.connect] reports as not found: ["out"] with
    the source and its field, ["in"] with the destination and its field. *)
Definition not_found (cs : list nested_connection) : list (string * string * string) :=
  flat_map
    (fun c : nested_connection =>
       let '(src, dst, fields) := c in
       flat_map
         (fun sd : string * string =>
            ((if negb (port_checked dst) || endpoint_has has_input dst (snd sd) then []
              else [("in", endpoint_name dst, snd sd)])
             ++
             (if negb (port_checked src) || endpoint_has has_output src (fst sd) then []
              else [("out", endpoint_name src, fst sd)]))%list)
         fields)
    cs.

Definition prefixed (p : string) (n : node) : node :=
  Node (node_iface n) (node_inputs n) (node_iterfield n) (p ++ "." ++ node_name n).

(** The nodes and edges that an endpoint brings into the graph. *)
Definition endpoint_nodes (e : endpoint) : list node :=
  match e with
  | OfNode n => [n]
  | OfWorkflow w => map (prefixed (wf_name w)) (wf_nodes w)
  end.

Definition endpoint_edges (e : endpoint) : list edge :=
  match e with
  | OfNode _ => []
  | OfWorkflow w =>
    map (fun ed : edge =>
           let '(s, sf, d, df) := ed in
           (wf_name w ++ "." ++ s, sf, wf_name w ++ "." ++ d, df))
        (wf_edges w)
  end.

Definition connect_nested1 (wf : workflow) (c : nested_connection) : workflow :=
  let '(src, dst, fields) := c in
  Workflow (wf_name wf)
    (fold_left (fun ns n => add_node n ns)
               (endpoint_nodes src ++ endpoint_nodes dst)%list (wf_nodes wf))
    (wf_edges wf
     ++ filter (fun ed => negb (existsb (same_port ed) (wf_edges wf)))
               (endpoint_edges src ++ endpoint_edges dst)
     ++ map (fun sd => (fst (port src (fst sd)), snd (port src (fst sd)),
                        fst (port dst (snd sd)), snd (port dst (snd sd)))) fields)%list.

(** [workflow.connect([...])] as nipype runs it: the connections are
    checked first, and a port that is looked up and not found, or an input
    that would be connected twice, raises a plain [Exception] and leaves
    the graph as it was. *)
Definition connect_checked (cs : list nested_connection) (wf : workflow)
  : result workflow :=
  match not_found cs with
  | [] =>
    let wf' := fold_left connect_nested1 cs wf in
    if single_drivers (wf_edges wf') then Ok wf' else Err (External "Exception")
  | _ :: _ => Err (External "Exception")
  end.

Section BoldRegWf.

Variable fsldir_schedule : option string.
Variable packaged_schedule : string.

Definition bold_reg_inputnode : node :=
  pe_Node (IdentityInterface
             ["ref_bold_brain"; "anat_preproc"; "anat_mask"; "anat_dseg";
              "subjects_dir"; "subject_id"; "fsnative2anat_xfm"]) [] "inputnode".

Definition bold_reg_outputnode : node :=
  pe_Node (IdentityInterface output_fields) [] "outputnode".

(** The list given to [workflow.connect] (lines 158-172). *)
Definition bold_reg_connections (bbr_wf : workflow) : list nested_connection :=
  [ (OfNode bold_reg_inputnode, OfWorkflow bbr_wf,
     [("ref_bold_brain", "inputnode.in_file");
      ("fsnative2anat_xfm", "inputnode.fsnative2anat_xfm");
      ("subjects_dir", "inputnode.subjects_dir");
      ("subject_id", "inputnode.subject_id");
      ("t1w_preproc", "inputnode.t1w_preproc");
      ("t1w_mask", "inputnode.t1w_mask");
      ("t1w_dseg", "inputnode.t1w_dseg")]);
    (OfWorkflow bbr_wf, OfNode bold_reg_outputnode,
     [("outputnode.itk_bold_to_t1", "itk_bold_to_t1");
      ("outputnode.itk_t1_to_bold", "itk_t1_to_bold");
      ("outputnode.fallback", "fallback")]) ].

(** [init_bold_reg_wf(freesurfer, use_bbr, bold2anat_dof, bold2anat_init,
    mem_gb, omp_nthreads, name, sloppy)].  The two builders are called by
    keywords, without [name]; [mem_gb] is not used. *)
Definition init_bold_reg_wf (freesurfer : bool) (use_bbr : option bool)
    (bold2anat_dof : Z) (bold2anat_init : string) (name : string) (sloppy : bool)
  : result workflow :=
  let workflow0 := Workflow name [] [] in
  bbr_wf <-
    (if freesurfer then
       _ <- bind_keywords init_bbreg_wf_parameters
              ["use_bbr"; "bold2anat_dof"; "bold2anat_init"; "omp_nthreads"] ;;
       init_bbreg_wf use_bbr bold2anat_dof bold2anat_init "bbreg_wf"
     else
       _ <- bind_keywords init_fsl_bbr_wf_parameters
              ["use_bbr"; "bold2anat_dof"; "bold2anat_init"; "sloppy"] ;;
       init_fsl_bbr_wf fsldir_schedule packaged_schedule
                       use_bbr bold2anat_dof bold2anat_init sloppy "fsl_bbr_wf") ;;
  connect_checked (bold_reg_connections bbr_wf) workflow0.

End BoldRegWf.

End BoldReg.
Import BoldReg.

(* ================================================================== *)
(** * [parse_roi_labels], [format_volume_rois] (alignment.py, 227-260) *)
(* ================================================================== *)

Module Labels.
Local Open Scope string_scope.

(** What a call of [parse_roi_labels] ends in. *)
Inductive label_result : Type :=
| Labels (structs label_ids : list string)
| Raised_RuntimeError
| Raised_FileNotFoundError.

(** [str.isspace] on one character.  A character of the model is a code
    point below 256; the white space among these is 9-13, 28-32, 133 and
    160. *)
Definition py_isspace (c : ascii) : bool :=
  let n := nat_of_ascii c in
  ((Nat.leb 9 n && Nat.leb n 13) || (Nat.leb 28 n && Nat.leb n 32)
   || Nat.eqb n 133 || Nat.eqb n 160)%bool.

Fixpoint py_lstrip (s : string) : string :=
  match s with
  | String c s' => if py_isspace c then py_lstrip s' else s
  | EmptyString => EmptyString
  end.

Fixpoint py_rstrip (s : string) : string :=
  match s with
  | String c s' =>
    match py_rstrip s' with
    | EmptyString => if py_isspace c then EmptyString else String c EmptyString
    | t => String c t
    end
  | EmptyString => EmptyString
  end.

(** [line.strip()]. *)
Definition py_strip (s : string) : string := py_rstrip (py_lstrip s).

Definition space : ascii := " "%char.

(** [line.split(' ', 1)[0]]: the text before the first space, the whole
    line when it has none. *)
Fixpoint before_space (s : string) : string :=
  match s with
  | String c s' => if Ascii.eqb c space then EmptyString else String c (before_space s')
  | EmptyString => EmptyString
  end.

(** [enumerate(lines)]. *)
Definition enumerate {A : Type} (l : list A) : list (nat * A) :=
  combine (seq 0 (List.length l)) l.

(** One turn of the loop of lines 250-254 on [(structs, label_ids)]. *)
Definition parse_step (acc : list string * list string) (il : nat * string)
  : list string * list string :=
  let '(structs, label_ids) := acc in
  let '(idx, line) := il in
  if Nat.eqb (idx mod 2) 0
  then ((structs ++ [py_strip line])%list, label_ids)
  else (structs, (label_ids ++ [before_space line])%list).

Section ParseRoiLabels.

(** The text files on disk, each as [readlines] returns it. *)
Variable label_files : string -> option (list string).

(** [parse_roi_labels(label_file)]. *)
Definition parse_roi_labels (label_file : string) : label_result :=
  match label_files label_file with
  | None => Raised_FileNotFoundError
  | Some lines =>
    if Nat.eqb (List.length lines mod 2) 1 then Raised_RuntimeError
    else
      let '(structs, label_ids) := fold_left parse_step (enumerate lines) ([], []) in
      Labels structs label_ids
  end.

End ParseRoiLabels.

(** [format_volume_rois(structs, rois)]: [zip] stops at the shorter list. *)
Definition format_volume_rois {A B : Type} (structs : list A) (rois : list B)
  : list (A * B) :=
  combine structs rois.

(** Every second item of a list, from the first; from the second. *)
Fixpoint evens {A : Type} (l : list A) : list A :=
  match l with
  | [] => []
  | a :: t => a :: match t with [] => [] | _ :: r => evens r end
  end.

Definition odds {A : Type} (l : list A) : list A := evens (tl l).

Definition newline : string := String (ascii_of_nat 10) EmptyString.

(** A label file in the format of the docstring: for each structure its
    name on one line and [<key> <red> <green> <blue> <alpha>] on the
    next. *)
Definition label_file_lines (entries : list (string * string * string)) : list string :=
  flat_map (fun e : string * string * string =>
              let '(name, key, colours) := e in
              [name ++ newline; key ++ " " ++ colours ++ newline]) entries.

End Labels.
Import Labels.

(* ================================================================== *)
(** * [MCRIBReconAll] (interfaces/mcribs.py, lines 100-188) *)
(* ================================================================== *)

Module Mcribs.
Local Open Scope string_scope.

(** ** The directory tree below the MCRIBS directory

    A path is the list of its components below the directory that
    [mcribs_dir] names; [[]] is that directory itself.  What lies above it
    is outside the model. *)

Definition path : Type := list string.

Inductive entry : Type :=
| Dir
| File (content : string)
| Symlink (target : path).

Definition tree : Type := path -> option entry.

Fixpoint path_eqb (p q : path) : bool :=
  match p, q with
  | [], [] => true
  | a :: p', b :: q' => String.eqb a b && path_eqb p' q'
  | _, _ => false
  end.

(** [p / a / b ...]. *)
Definition sub (p names : path) : path := (p ++ names)%list.

Definition put (p : path) (e : entry) (t : tree) : tree :=
  fun q => if path_eqb q p then Some e else t q.

(** Where a path leads: to an entry, to a free name in an existing
    directory, or nowhere. *)
Inductive found : Type :=
| Found (p : path) (e : entry)
| Missing (p : path)
| Broken.

(** Bound on the steps of one path resolution (the system gives up on
    links that loop). *)
Definition link_limit : nat := 64.

(** Resolution of the components [rest] from the directory [cur], as the
    system does it: [..] is the parent of the directory reached so far, a
    symbolic link is replaced by its target, relative to the directory
    that holds the link, also when it is the last component. *)
Fixpoint walk (fuel : nat) (t : tree) (cur rest : path) : found :=
  match fuel with
  | O => Broken
  | S fuel' =>
    match t cur with
    | Some Dir =>
      match rest with
      | [] => Found cur Dir
      | c :: rest' =>
        if String.eqb c "." then walk fuel' t cur rest'
        else if String.eqb c ".." then
          match cur with
          | [] => Broken
          | _ :: _ => walk fuel' t (removelast cur) rest'
          end
        else
          match t (cur ++ [c])%list with
          | None => match rest' with [] => Missing (cur ++ [c])%list | _ :: _ => Broken end
          | Some Dir => walk fuel' t (cur ++ [c])%list rest'
          | Some (File x) =>
            match rest' with [] => Found (cur ++ [c])%list (File x) | _ :: _ => Broken end
          | Some (Symlink target) => walk fuel' t cur (target ++ rest')%list
          end
      end
    | _ => Broken
    end
  end.

(** Operations on the tree; what was done before an exception stays
    done. *)
Definition fsop (A : Type) : Type := tree -> result A * tree.

Definition fs_ret {A : Type} (a : A) : fsop A := fun t => (Ok a, t).
Definition fs_raise {A : Type} (e : exn) : fsop A := fun t => (Err e, t).
Definition fs_bind {A B : Type} (m : fsop A) (k : A -> fsop B) : fsop B :=
  fun t => match m t with
           | (Ok a, t') => k a t'
           | (Err e, t') => (Err e, t')
           end.

(** [p.exists()]: follows links; a link to nothing does not exist. *)
Definition path_exists (p : path) (t : tree) : bool :=
  match walk link_limit t [] p with
  | Found _ _ => true
  | _ => false
  end.

(** The loop of [mkdir(parents=True, exist_ok=True)] over the components
    of a path made of plain names. *)
Fixpoint mkdirs (t : tree) (cur rest : path) : result unit * tree :=
  match rest with
  | [] => (Ok tt, t)
  | c :: rest' =>
    match t (cur ++ [c])%list with
    | None => mkdirs (put (cur ++ [c])%list Dir t) (cur ++ [c])%list rest'
    | Some Dir => mkdirs t (cur ++ [c])%list rest'
    | Some (File _) =>
      (Err (External match rest' with
                     | [] => "FileExistsError"
                     | _ :: _ => "NotADirectoryError"
                     end), t)
    | Some (Symlink target) =>
      match walk link_limit t cur target with
      | Found d Dir => mkdirs t d rest'
      | _ => (Err (External "FileExistsError"), t)
      end
    end
  end.

(** [p.mkdir(parents=True, exist_ok=True)]. *)
Definition mkdir_parents (p : path) : fsop unit :=
  fun t =>
    match t [] with
    | None => mkdirs (put [] Dir t) [] p
    | Some Dir => mkdirs t [] p
    | Some _ => (Err (External "FileExistsError"), t)
    end.

(** [p.symlink_to(target)]: refused when anything, even a link to
    nothing, is already called [p]. *)
Definition symlink_to (p : path) (target : path) : fsop unit :=
  fun t =>
    match walk link_limit t [] (removelast p) with
    | Found d Dir =>
      match t (d ++ [last p EmptyString])%list with
      | None => (Ok tt, put (d ++ [last p EmptyString])%list (Symlink target) t)
      | Some _ => (Err (External "FileExistsError"), t)
      end
    | _ => (Err FileNotFoundError, t)
    end.

Definition slash : ascii := "/"%char.

(** [os.path.basename]. *)
Fixpoint basename (s : string) : string :=
  match s with
  | EmptyString => EmptyString
  | String c s' =>
    if existsb (Ascii.eqb slash) (list_ascii_of_string s') then basename s'
    else if Ascii.eqb c slash then s' else s
  end.

(** A name that is one component of a path: not empty, neither [.] nor
    [..], and without a separator. *)
Definition plain_name (s : string) : bool :=
  negb (String.eqb s EmptyString) && negb (String.eqb s ".") && negb (String.eqb s "..")
  && negb (existsb (Ascii.eqb slash) (list_ascii_of_string s)).

Section Setup.

(** Contents of the input files, by the name the interface was given;
    they are only read. *)
Variable input_files : string -> option string.

(** [shutil.copy(src, str(dst))]; an undefined [src] is no file name. *)
Definition copy (src : option string) (dst : path) : fsop unit :=
  fun t =>
    match src with
    | None => (Err TypeError, t)
    | Some f =>
      match input_files f with
      | None => (Err FileNotFoundError, t)
      | Some content =>
        match walk link_limit t [] dst with
        | Found q (File _) => (Ok tt, put q (File content) t)
        | Found q _ => (Ok tt, put (q ++ [basename f])%list (File content) t)
        | Missing q => (Ok tt, put q (File content) t)
        | Broken => (Err FileNotFoundError, t)
        end
      end
    end.

(** The inputs of [MCRIBReconAllInputSpec] that the set-up reads; [None]
    is an input left undefined.  A subject name is one path component.
    [surfrecon] has a default and is always defined. *)
Record inputs : Type := Inputs {
  subject_id : option string;
  t2w_file : option string;
  conform : option bool;
  segmentation_file : option string;
  surfrecon : bool
}.

(** Truth value of an input: an undefined one is false, and so is an
    empty string. *)
Definition truthy_bool (b : option bool) : bool :=
  match b with Some true => true | _ => false end.
Definition truthy_str (s : option string) : bool :=
  match s with Some s => negb (String.eqb s EmptyString) | None => false end.

(** What [mcribs_dir] is: a [str] or a [Path]. *)
Inductive pathlike : Type :=
| AsStr (s : string)
| AsPath (s : string).

(** [a / name]: defined on a [Path], not on a [str]. *)
Definition truediv (a : pathlike) (name : string) : result pathlike :=
  match a with
  | AsPath p => Ok (AsPath (p ++ "/" ++ name))
  | AsStr _ => Err TypeError
  end.

Local Notation "x <~ m ;; k" := (fs_bind m (fun x => k))
  (at level 61, m at next level, right associativity).

Definition when (c : bool) (m : fsop unit) : fsop unit :=
  if c then m else fs_ret tt.

(** [_setup_directory_structure(self, mcribs_dir)] (lines 105-166). *)
Definition _setup_directory_structure (ins : inputs) (mcribs_dir : pathlike)
  : fsop unit :=
  match truediv mcribs_dir match subject_id ins with Some s => s | None => EmptyString end,
        subject_id ins with
  | Err e, _ => fs_raise e
  | Ok _, None => fs_raise TypeError
  | Ok _, Some sid =>
    let root := [sid] in
    _ <~ mkdir_parents root ;;
    (* T2w operations *)
    let t2w := sub root ["RawT2"; sid ++ ".nii.gz"] in
    _ <~ mkdir_parents (removelast t2w) ;;
    _ <~ (fun t => when (negb (path_exists t2w t)) (copy (t2w_file ins) t2w) t) ;;
    _ <~ when (negb (truthy_bool (conform ins)))
           (let t2wiso := sub root ["RawT2RadiologicalIsotropic"; sid ++ ".nii.gz"] in
            _ <~ mkdir_parents (removelast t2wiso) ;;
            _ <~ (fun t => when (negb (path_exists t2wiso t))
                             (symlink_to t2wiso [".."; ".."; "RawT2"; sid ++ ".nii.gz"]) t) ;;
            let n4 := sub root [sid; "N4"; sid ++ ".nii.gz"] in
            _ <~ mkdir_parents (removelast n4) ;;
            (fun t => when (negb (path_exists n4 t))
                        (symlink_to n4 [".."; ".."; ".."; "RawT2"; sid ++ ".nii.gz"]) t)) ;;
    (* Segmentation *)
    when (truthy_str (segmentation_file ins))
      (let tisseg := sub root ["TissueSeg"; sid ++ "_all_labels.nii.gz"] in
       _ <~ mkdir_parents (removelast tisseg) ;;
       (* [self.inputs.segmentation]: the input spec has no such trait *)
       _ <~ (fun t => when (negb (path_exists tisseg t)) (fs_raise AttributeError) t) ;;
       let manedit := sub (removelast tisseg) [sid ++ "_all_labels_manedit.nii.gz"] in
       _ <~ (fun t => when (negb (path_exists manedit t))
                        (symlink_to manedit [last tisseg EmptyString]) t) ;;
       when (surfrecon ins)
         (let surfrec :=
            sub root ["SurfReconDeformable"; sid; "temp"; "t2w-image.nii.gz"] in
          _ <~ mkdir_parents (removelast surfrec) ;;
          (fun t => when (negb (path_exists surfrec t))
                      (symlink_to surfrec
                         [".."; ".."; ".."; ".."; "RawT2"; sid ++ ".nii.gz"]) t)))
  end.

(** What the base class does once the tree is set up: it runs the
    command in the directory it is given.  Not part of the repository. *)
Variable run_command : path -> fsop unit.

(** [_run_interface(self, runtime)] (lines 168-177).  [getenv] is
    [os.getenv('MCRIBS_SUBJECTS')], [env_dir_exists] whether that path
    exists, [runtime_cwd] the working directory that nipype hands over. *)
Definition _run_interface (getenv : option string) (env_dir_exists : bool)
    (runtime_cwd : pathlike) (ins : inputs) : fsop pathlike :=
  let chosen : result pathlike :=
    match getenv with
    | Some d => if env_dir_exists then Ok (AsStr d) else truediv runtime_cwd "mcribs"
    | None => truediv runtime_cwd "mcribs"
    end in
  match chosen with
  | Err e => fs_raise e
  | Ok mcribs_dir =>
    _ <~ _setup_directory_structure ins mcribs_dir ;;
    match truediv mcribs_dir match subject_id ins with Some s => s | None => EmptyString end,
          subject_id ins with
    | Ok _, Some sid => _ <~ run_command [sid] ;; fs_ret mcribs_dir
    | Err e, _ => fs_raise e
    | Ok _, None => fs_raise TypeError
    end
  end.

End Setup.

End Mcribs.
Import Mcribs.

(* ================================================================== *)
(** * Concrete inputs *)
(* ================================================================== *)

Module Examples.
Local Open Scope string_scope.
Local Open Scope R_scope.

(** A quarter turn about the z axis followed by a shift: a rigid map. *)
Definition quarter_turn : mat4 :=
  M4 (V4 0 (-1) 0 5) (V4 1 0 0 (-2)) (V4 0 0 1 7) (V4 0 0 0 1).

(** A matrix of zeros: not an affine, and its 3x3 block is singular. *)
Definition zero_matrix : mat4 :=
  M4 (V4 0 0 0 0) (V4 0 0 0 0) (V4 0 0 0 0) (V4 0 0 0 0).

(** A directory of transform files. *)
Definition transform_files (f : string) : result mat4 :=
  if String.eqb f "bbr.lta" then Ok (translation (V3 3 4 0))
  else if String.eqb f "coreg.lta" then Ok identity
  else if String.eqb f "turned_bbr.lta" then Ok (matmul quarter_turn (translation (V3 3 4 0)))
  else if String.eqb f "turned_coreg.lta" then Ok (matmul quarter_turn identity)
  else if String.eqb f "zeros.lta" then Ok zero_matrix
  else Err FileNotFoundError.

(** A directory in which the BBR result has drifted by 20 mm from the
    initial registration. *)
Definition drifted_files (f : string) : result mat4 :=
  if String.eqb f "bbr.lta" then Ok (translation (V3 0 20 0))
  else if String.eqb f "coreg.lta" then Ok identity
  else Err FileNotFoundError.

(** An anatomical image stored with its first two voxel axes swapped
    with respect to the world axes, and voxels of 1 x 2 x 1 mm. *)
Definition swapped_affine : mat4 :=
  M4 (V4 0 2 0 0) (V4 1 0 0 0) (V4 0 0 1 0) (V4 0 0 0 1).

Definition swapped_t1w : image :=
  Nifti (NdArray (8, 8, 8)%Z (fun _ => 100)) swapped_affine (V3 1 2 1).

Definition swapped_mask : image :=
  Nifti (NdArray (8, 8, 8)%Z (fun _ => 1)) swapped_affine (V3 1 2 1).

(** An axis-aligned image with voxels of 1 x 2 x 5 mm, in LAS order. *)
Definition las_affine : mat4 :=
  M4 (V4 (-1) 0 0 90) (V4 0 2 0 (-126)) (V4 0 0 5 (-72)) (V4 0 0 0 1).

Definition las_t1w : image :=
  Nifti (NdArray (8, 8, 8)%Z (fun _ => 100)) las_affine (V3 1 2 5).

Definition las_mask : image :=
  Nifti (NdArray (8, 8, 8)%Z (fun _ => 1)) las_affine (V3 1 2 5).

(** A coarse image, 4 x 4 x 5 mm. *)
Definition coarse_t1w : image :=
  Nifti (NdArray (8, 8, 8)%Z (fun _ => 100))
        (M4 (V4 4 0 0 0) (V4 0 4 0 0) (V4 0 0 5 0) (V4 0 0 0 1)) (V3 4 4 5).

Definition scan_files : store :=
  fun p =>
    if String.eqb p "swapped_t1w.nii.gz" then Some swapped_t1w
    else if String.eqb p "swapped_mask.nii.gz" then Some swapped_mask
    else if String.eqb p "las_t1w.nii.gz" then Some las_t1w
    else if String.eqb p "las_mask.nii.gz" then Some las_mask
    else if String.eqb p "coarse_t1w.nii.gz" then Some coarse_t1w
    else None.

(** Nearest-voxel stand-ins for the resampler and the smoothing filter. *)
Definition moving_values (ref img : image) (v : index3) : R := arr_val (dataobj img) v.
Definition no_filter (a : ndarray) (sigma : vec3) : ndarray := a.

(** What the registration tools leave behind in one run. *)
Definition registration_outputs (node field : string) : value :=
  if String.eqb node "bbregister" then VStr "bbr.lta"
  else if String.eqb node "mri_coreg" then VStr "coreg.lta"
  else if String.eqb node "flt_bbr" then VStr "bbr.mat"
  else if String.eqb node "lta_to_fsl" then VStr "coreg.mat"
  else VUndef.

(** The LTA file that the conversion writes for an FSL matrix file. *)
Definition converted_outputs (node field : string) (item : value) : value :=
  match item with
  | VStr s =>
    if String.eqb s "bbr.mat" then VStr "bbr.lta"
    else if String.eqb s "coreg.mat" then VStr "coreg.lta"
    else VUndef
  | _ => VUndef
  end.

Definition other_functions (f : pyfunction) (field : string) : value := VUndef.

(** The label table of the docstring of [parse_roi_labels], and one cut
    short. *)
Definition docstring_entries : list (string * string * string) :=
  [("CEREBELLUM_LEFT", "8", "230 148 34 255"); ("THALAMUS_LEFT", "10", "0 118 14 255")].

Definition label_tables (f : string) : option (list string) :=
  if String.eqb f "labels.txt" then Some (label_file_lines docstring_entries)
  else if String.eqb f "cut.txt" then Some (firstn 3 (label_file_lines docstring_entries))
  else None.

(** A first run of MCRIBS for one subject, in a new working directory. *)
Definition empty_tree : tree := fun _ => None.

Definition mcribs_files (f : string) : option string :=
  if String.eqb f "/data/sub-01_T2w.nii.gz" then Some "T2w voxels" else None.

Definition mcribs_inputs : inputs :=
  Inputs (Some "sub-01") (Some "/data/sub-01_T2w.nii.gz") None None true.

Definition mcribs_inputs_conform : inputs :=
  Inputs (Some "sub-01") (Some "/data/sub-01_T2w.nii.gz") (Some true) None true.

Definition mcribs_inputs_seg : inputs :=
  Inputs (Some "sub-01") (Some "/data/sub-01_T2w.nii.gz") None
    (Some "/data/sub-01_dseg.nii.gz") true.

End Examples.
Import Examples.

(* ================================================================== *)
(** * Properties of [compare_xforms] *)
(* ================================================================== *)

Local Open Scope R_scope.

Lemma Rgtb_true (x y : R) : x > y -> Rgtb x y = true.
Proof. intros H. unfold Rgtb. destruct (Rgt_dec x y); [reflexivity | contradiction]. Qed.

Lemma Rgtb_false (x y : R) : x <= y -> Rgtb x y = false.
Proof. intros H. unfold Rgtb. destruct (Rgt_dec x y); [lra | reflexivity]. Qed.

Lemma Rltb_true (x y : R) : x < y -> Rltb x y = true.
Proof. intros H. unfold Rltb. destruct (Rlt_dec x y); [reflexivity | contradiction]. Qed.

Lemma Rltb_false (x y : R) : y <= x -> Rltb x y = false.
Proof. intros H. unfold Rltb. destruct (Rlt_dec x y); [lra | reflexivity]. Qed.

Section CompareXformsFacts.

Variable load_transform : string -> result mat4.
Variable D : Type.
Variable calc_norm_affine : list mat4 -> bool -> list R * D.

(** Line 913 is the comparison of [norm[1]] with the threshold. *)
Lemma compare_xforms_unfold (lta_list : list string) (th : option R) :
  compare_xforms load_transform calc_norm_affine lta_list th =
  bind (compare_xforms_norm load_transform calc_norm_affine lta_list)
       (fun d => Ok (Rgtb d (match th with Some t => t | None => 15 end))).
Proof.
  unfold compare_xforms, compare_xforms_norm, bind.
  destruct (getitem lta_list 0) as [f0|e]; [|reflexivity].
  destruct (load_transform f0) as [A|e]; [|reflexivity].
  destruct (getitem lta_list 1) as [f1|e]; [|reflexivity].
  destruct (load_transform f1) as [B|e]; [|reflexivity].
  destruct (calc_norm_affine [B; A] true) as [norm d]. reflexivity.
Qed.

(** With two loadable files the norm is entry 1 of what the helper
    returns for [[fallback_affine, bbr_affine]]. *)
Lemma compare_xforms_norm_loaded (f0 f1 : string) (rest : list string) (A B : mat4) :
  load_transform f0 = Ok A -> load_transform f1 = Ok B ->
  compare_xforms_norm load_transform calc_norm_affine (f0 :: f1 :: rest)
  = getitem (fst (calc_norm_affine [B; A] true)) 1.
Proof.
  intros H0 H1. unfold compare_xforms_norm. cbn [getitem nth_error bind].
  rewrite H0. cbn [bind]. rewrite H1. cbn [bind].
  destruct (calc_norm_affine [B; A] true); reflexivity.
Qed.

End CompareXformsFacts.

(** C1. For every list of transforms whose displacement [norm[1]] is [d],
    the decision of [compare_xforms] is [d > norm_threshold] with a strict
    comparison: [False] for a threshold above [d], [True] for one below,
    [False] at equality; without a threshold the call behaves as with 15. *)
Theorem compare_xforms_strict_threshold :
  forall (load_transform : string -> result mat4) (D : Type)
         (calc_norm_affine : list mat4 -> bool -> list R * D)
         (lta_list : list string) (d : R),
    compare_xforms_norm load_transform calc_norm_affine lta_list = Ok d ->
    (forall th, compare_xforms load_transform calc_norm_affine lta_list (Some th)
                = Ok (Rgtb d th)) /\
    (forall th, d < th ->
       compare_xforms load_transform calc_norm_affine lta_list (Some th) = Ok false) /\
    (forall th, th < d ->
       compare_xforms load_transform calc_norm_affine lta_list (Some th) = Ok true) /\
    compare_xforms load_transform calc_norm_affine lta_list (Some d) = Ok false /\
    compare_xforms load_transform calc_norm_affine lta_list None
    = compare_xforms load_transform calc_norm_affine lta_list (Some 15).
Proof.
  intros load D calc lta d Hd.
  assert (Hth : forall th, compare_xforms load calc lta (Some th) = Ok (Rgtb d th)).
  { intros th. rewrite compare_xforms_unfold, Hd. reflexivity. }
  split; [exact Hth|]. split; [|split; [|split]].
  - intros th Hlt. rewrite Hth, Rgtb_false by lra. reflexivity.
  - intros th Hlt. rewrite Hth, Rgtb_true by lra. reflexivity.
  - rewrite Hth, Rgtb_false by lra. reflexivity.
  - rewrite !compare_xforms_unfold. reflexivity.
Qed.

(** ** The maximum of an array *)

Lemma fold_left_Rmax_ge (xs : list R) (a : R) : a <= fold_left Rmax xs a.
Proof.
  revert a. induction xs as [|x xs IH]; intros a; simpl.
  - lra.
  - eapply Rle_trans; [apply (Rmax_l a x) | apply IH].
Qed.

Lemma fold_left_Rmax_upper (xs : list R) (a x : R) :
  In x xs -> x <= fold_left Rmax xs a.
Proof.
  revert a. induction xs as [|y xs IH]; intros a Hin; simpl in *.
  - contradiction.
  - destruct Hin as [->|Hin].
    + eapply Rle_trans; [apply (Rmax_r a x) | apply fold_left_Rmax_ge].
    + apply IH, Hin.
Qed.

Lemma fold_left_Rmax_attained (xs : list R) (a : R) :
  fold_left Rmax xs a = a \/ In (fold_left Rmax xs a) xs.
Proof.
  revert a. induction xs as [|y xs IH]; intros a; simpl.
  - left; reflexivity.
  - destruct (IH (Rmax a y)) as [H|H].
    + rewrite H. unfold Rmax. destruct (Rle_dec a y); [right; left|left]; reflexivity.
    + right; right; exact H.
Qed.

Lemma Rlist_max_upper (l : list R) (x : R) : In x l -> x <= Rlist_max l.
Proof.
  destruct l as [|a xs]; simpl; [contradiction|].
  intros [->|Hin]; [apply fold_left_Rmax_ge | apply fold_left_Rmax_upper, Hin].
Qed.

Lemma Rlist_max_attained (l : list R) : l <> [] -> In (Rlist_max l) l.
Proof.
  destruct l as [|a xs]; [congruence|]. intros _. simpl.
  destruct (fold_left_Rmax_attained xs a) as [H|H]; [left; symmetry; exact H | right; exact H].
Qed.

Lemma Rlist_max_const (A : Type) (f : A -> R) (c : R) (l : list A) :
  l <> [] -> (forall a, In a l -> f a = c) -> Rlist_max (map f l) = c.
Proof.
  intros Hne Hc.
  assert (Hin : In (Rlist_max (map f l)) (map f l)).
  { apply Rlist_max_attained. destruct l; [congruence | discriminate]. }
  apply in_map_iff in Hin. destruct Hin as [a [Ha Hal]].
  rewrite <- Ha. apply Hc, Hal.
Qed.

Lemma Rlist_max_ext (A : Type) (f g : A -> R) (l : list A) :
  (forall a, In a l -> f a = g a) -> Rlist_max (map f l) = Rlist_max (map g l).
Proof. intros H. f_equal. apply map_ext_in, H. Qed.

(** ** The modelled metric on two transforms *)

Lemma row_sub_map (f g : vec3 -> vec3) (pts : list vec3) :
  row_sub (map f pts) (map g pts) = map (fun p => sub3 (f p) (g p)) pts.
Proof. induction pts as [|p pts IH]; simpl; [reflexivity | rewrite IH; reflexivity]. Qed.

(** Entry 1 of the norms of [[B, A]] is the largest distance between
    [A p] and [B p] over the reference points [p]. *)
Lemma calc_norm_affine_pair (pts : list vec3) (A B : mat4) (flag : bool) :
  getitem (fst (_calc_norm_affine pts [B; A] flag)) 1
  = Ok (Rlist_max (map (fun p => dist3 (apply_affine A p) (apply_affine B p)) pts)).
Proof.
  unfold _calc_norm_affine, with_zero_row, newpos, getitem. simpl.
  rewrite row_sub_map, map_map. reflexivity.
Qed.

Lemma displacement_loaded (load_transform : string -> result mat4) (pts : list vec3)
    (f0 f1 : string) (rest : list string) (A B : mat4) :
  load_transform f0 = Ok A -> load_transform f1 = Ok B ->
  compare_xforms_norm load_transform (_calc_norm_affine pts) (f0 :: f1 :: rest)
  = Ok (Rlist_max (map (fun p => dist3 (apply_affine A p) (apply_affine B p)) pts)).
Proof.
  intros H0 H1.
  rewrite compare_xforms_norm_loaded with (A := A) (B := B) by assumption.
  apply calc_norm_affine_pair.
Qed.

Lemma dist3_sym (u v : vec3) : dist3 u v = dist3 v u.
Proof. unfold dist3, norm3, sub3; simpl. f_equal. ring. Qed.

Lemma norm3_zero : norm3 zero3 = 0.
Proof.
  unfold norm3, zero3; simpl.
  replace (0 * 0 + 0 * 0 + 0 * 0) with 0 by ring. apply sqrt_0.
Qed.

Lemma translation_shift (t p : vec3) :
  sub3 (apply_affine (translation t) p) (apply_affine identity p) = t.
Proof.
  destruct t as [tx ty tz], p as [x y z].
  unfold sub3, apply_affine, translation, identity, dot4, homog; simpl.
  f_equal; ring.
Qed.

(** Left composition with a rigid map moves [A p] and [B p] together. *)
Lemma rigid_dist3 (Rm A B : mat4) (p : vec3) :
  rigid Rm -> affine_bottom A -> affine_bottom B ->
  dist3 (apply_affine (matmul Rm A) p) (apply_affine (matmul Rm B) p)
  = dist3 (apply_affine A p) (apply_affine B p).
Proof.
  intros [_ [H00 [H11 [H22 [H01 [H02 [H12 _]]]]]]] HA HB.
  destruct Rm as [[q00 q01 q02 t0] [q10 q11 q12 t1] [q20 q21 q22 t2] rb].
  destruct A as [[a00 a01 a02 a03] [a10 a11 a12 a13] [a20 a21 a22 a23] ab].
  destruct B as [[b00 b01 b02 b03] [b10 b11 b12 b13] [b20 b21 b22 b23] bb].
  destruct p as [x y z].
  unfold affine_bottom in HA, HB; simpl in HA, HB; subst ab bb.
  unfold coldot in *; simpl in *.
  unfold dist3, norm3, sub3, apply_affine, matmul, row_mul, col, dot4, homog; simpl.
  f_equal.
  set (u0 := a00 * x + a01 * y + a02 * z + a03 * 1 - (b00 * x + b01 * y + b02 * z + b03 * 1)).
  set (u1 := a10 * x + a11 * y + a12 * z + a13 * 1 - (b10 * x + b11 * y + b12 * z + b13 * 1)).
  set (u2 := a20 * x + a21 * y + a22 * z + a23 * 1 - (b20 * x + b21 * y + b22 * z + b23 * 1)).
  transitivity
    (u0 * u0 * (q00 * q00 + q10 * q10 + q20 * q20)
     + u1 * u1 * (q01 * q01 + q11 * q11 + q21 * q21)
     + u2 * u2 * (q02 * q02 + q12 * q12 + q22 * q22)
     + 2 * u0 * u1 * (q00 * q01 + q10 * q11 + q20 * q21)
     + 2 * u0 * u2 * (q00 * q02 + q10 * q12 + q20 * q22)
     + 2 * u1 * u2 * (q01 * q02 + q11 * q12 + q21 * q22)).
  - unfold u0, u1, u2. ring.
  - rewrite H00, H11, H22, H01, H02, H12. ring.
Qed.

(** C2. With the six face midpoints of the cube of side 2 as reference
    points, the displacement that [compare_xforms] computes from a refined
    and a baseline transform is the maximum over these six points of the
    Euclidean distance between the point moved by the refined transform
    and the point moved by the baseline: it is attained at one of the
    points and bounds the distance at each of them. *)
Theorem compare_xforms_face_midpoint_maximum :
  forall (load_transform : string -> result mat4) (f0 f1 : string) (rest : list string)
         (refined baseline : mat4),
    load_transform f0 = Ok refined ->
    load_transform f1 = Ok baseline ->
    exists d : R,
      compare_xforms_norm load_transform (_calc_norm_affine face_midpoints)
                          (f0 :: f1 :: rest) = Ok d /\
      (exists p, In p face_midpoints /\
                 d = dist3 (apply_affine refined p) (apply_affine baseline p)) /\
      (forall p, In p face_midpoints ->
                 dist3 (apply_affine refined p) (apply_affine baseline p) <= d).
Proof.
  intros load f0 f1 rest A B H0 H1.
  eexists. split; [apply displacement_loaded; eassumption|]. split.
  - assert (Hin : In (Rlist_max (map (fun p => dist3 (apply_affine A p) (apply_affine B p))
                                     face_midpoints))
                     (map (fun p => dist3 (apply_affine A p) (apply_affine B p))
                          face_midpoints)).
    { apply Rlist_max_attained. discriminate. }
    apply in_map_iff in Hin. destruct Hin as [p [Hp Hin]].
    exists p. split; [exact Hin | symmetry; exact Hp].
  - intros p Hin. apply Rlist_max_upper.
    apply (in_map (fun p => dist3 (apply_affine A p) (apply_affine B p))), Hin.
Qed.

Lemma compare_xforms_face_midpoint_maximum_witness :
  exists d : R,
    compare_xforms_norm transform_files (_calc_norm_affine face_midpoints)
                        ["bbr.lta"; "coreg.lta"]%string = Ok d /\
    (exists p, In p face_midpoints /\
               d = dist3 (apply_affine (translation (V3 3 4 0)) p)
                         (apply_affine identity p)) /\
    (forall p, In p face_midpoints ->
               dist3 (apply_affine (translation (V3 3 4 0)) p)
                     (apply_affine identity p) <= d).
Proof.
  apply (@compare_xforms_face_midpoint_maximum transform_files
           "bbr.lta"%string "coreg.lta"%string []); reflexivity.
Defined.

(** The norm of a pure translation against the identity. *)
Lemma translation_norm (pts : list vec3) (load_transform : string -> result mat4)
    (f0 f1 : string) (rest : list string) (t : vec3) :
  pts <> [] ->
  load_transform f0 = Ok (translation t) ->
  load_transform f1 = Ok identity ->
  compare_xforms_norm load_transform (_calc_norm_affine pts) (f0 :: f1 :: rest)
  = Ok (norm3 t).
Proof.
  intros Hne H0 H1.
  rewrite displacement_loaded with (A := translation t) (B := identity) by assumption.
  f_equal. apply Rlist_max_const; [exact Hne|].
  intros p _. unfold dist3. rewrite translation_shift. reflexivity.
Qed.

(** C3. With the identity as baseline and a pure translation by [t] as
    refined transform, the displacement is the Euclidean norm of [t]; for
    the identity pair it is 0 and the decision is [False] for every
    positive threshold.  This holds for any non-empty set of reference
    points. *)
Theorem compare_xforms_translation :
  forall (pts : list vec3) (load_transform : string -> result mat4)
         (f0 f1 : string) (rest : list string),
    pts <> [] ->
    load_transform f1 = Ok identity ->
    (forall t : vec3,
        load_transform f0 = Ok (translation t) ->
        compare_xforms_norm load_transform (_calc_norm_affine pts) (f0 :: f1 :: rest)
        = Ok (norm3 t)) /\
    (load_transform f0 = Ok identity ->
     compare_xforms_norm load_transform (_calc_norm_affine pts) (f0 :: f1 :: rest) = Ok 0 /\
     forall th : R, 0 < th ->
       compare_xforms load_transform (_calc_norm_affine pts) (f0 :: f1 :: rest) (Some th)
       = Ok false).
Proof.
  intros pts load f0 f1 rest Hne H1.
  assert (Ht : forall t, load f0 = Ok (translation t) ->
                 compare_xforms_norm load (_calc_norm_affine pts) (f0 :: f1 :: rest)
                 = Ok (norm3 t)).
  { intros t H0. apply translation_norm; assumption. }
  split; [exact Ht|].
  intros H0.
  assert (Hd : compare_xforms_norm load (_calc_norm_affine pts) (f0 :: f1 :: rest) = Ok 0).
  { rewrite (Ht zero3 H0). f_equal. apply norm3_zero. }
  split; [exact Hd|].
  intros th Hth. rewrite compare_xforms_unfold, Hd. cbn [bind].
  rewrite Rgtb_false by lra. reflexivity.
Qed.

Lemma compare_xforms_translation_witness :
  compare_xforms_norm transform_files (_calc_norm_affine face_midpoints)
                      ["bbr.lta"; "coreg.lta"]%string = Ok (norm3 (V3 3 4 0)) /\
  (compare_xforms_norm transform_files (_calc_norm_affine face_midpoints)
                       ["coreg.lta"; "coreg.lta"]%string = Ok 0 /\
   forall th : R, 0 < th ->
     compare_xforms transform_files (_calc_norm_affine face_midpoints)
                    ["coreg.lta"; "coreg.lta"]%string (Some th) = Ok false).
Proof.
  split.
  - apply (proj1 (@compare_xforms_translation face_midpoints transform_files
                    "bbr.lta"%string "coreg.lta"%string []
                    ltac:(discriminate) eq_refl) (V3 3 4 0) eq_refl).
  - apply (proj2 (@compare_xforms_translation face_midpoints transform_files
                    "coreg.lta"%string "coreg.lta"%string []
                    ltac:(discriminate) eq_refl) eq_refl).
Defined.

Lemma compare_xforms_strict_threshold_witness :
  compare_xforms transform_files (_calc_norm_affine face_midpoints)
                 ["coreg.lta"; "coreg.lta"]%string (Some 15) = Ok (Rgtb (norm3 zero3) 15).
Proof.
  apply (proj1 (@compare_xforms_strict_threshold transform_files unit
                  (_calc_norm_affine face_midpoints) ["coreg.lta"; "coreg.lta"]%string
                  (norm3 zero3)
                  (@translation_norm face_midpoints transform_files
                     "coreg.lta"%string "coreg.lta"%string [] zero3
                     ltac:(discriminate) eq_refl eq_refl))).
Defined.

Lemma rigid_quarter_turn : rigid quarter_turn.
Proof.
  unfold rigid, affine_bottom, coldot, det3, quarter_turn; simpl.
  repeat split; ring.
Qed.

(** C4. For affine transforms [refined] and [baseline] and a rigid [Rm],
    comparing [(Rm . refined, Rm . baseline)] gives the same displacement
    and the same decision as comparing [(refined, baseline)], whatever the
    reference points. *)
Theorem compare_xforms_rigid_invariant :
  forall (pts : list vec3) (load_transform : string -> result mat4)
         (f0 f1 g0 g1 : string) (refined baseline Rm : mat4) (th : option R),
    rigid Rm -> affine_bottom refined -> affine_bottom baseline ->
    load_transform f0 = Ok refined ->
    load_transform f1 = Ok baseline ->
    load_transform g0 = Ok (matmul Rm refined) ->
    load_transform g1 = Ok (matmul Rm baseline) ->
    compare_xforms_norm load_transform (_calc_norm_affine pts) [g0; g1]
    = compare_xforms_norm load_transform (_calc_norm_affine pts) [f0; f1] /\
    compare_xforms load_transform (_calc_norm_affine pts) [g0; g1] th
    = compare_xforms load_transform (_calc_norm_affine pts) [f0; f1] th.
Proof.
  intros pts load f0 f1 g0 g1 A B Rm th HR HA HB Hf0 Hf1 Hg0 Hg1.
  assert (Hn : compare_xforms_norm load (_calc_norm_affine pts) [g0; g1]
               = compare_xforms_norm load (_calc_norm_affine pts) [f0; f1]).
  { rewrite displacement_loaded with (A := matmul Rm A) (B := matmul Rm B) by assumption.
    rewrite displacement_loaded with (A := A) (B := B) by assumption.
    f_equal. apply Rlist_max_ext. intros p _. apply rigid_dist3; assumption. }
  split; [exact Hn|].
  rewrite !compare_xforms_unfold, Hn. reflexivity.
Qed.

Lemma compare_xforms_rigid_invariant_witness :
  compare_xforms_norm transform_files (_calc_norm_affine face_midpoints)
                      ["turned_bbr.lta"; "turned_coreg.lta"]%string
  = compare_xforms_norm transform_files (_calc_norm_affine face_midpoints)
                        ["bbr.lta"; "coreg.lta"]%string /\
  compare_xforms transform_files (_calc_norm_affine face_midpoints)
                 ["turned_bbr.lta"; "turned_coreg.lta"]%string None
  = compare_xforms transform_files (_calc_norm_affine face_midpoints)
                   ["bbr.lta"; "coreg.lta"]%string None.
Proof.
  apply (@compare_xforms_rigid_invariant face_midpoints transform_files
           "bbr.lta"%string "coreg.lta"%string
           "turned_bbr.lta"%string "turned_coreg.lta"%string
           (translation (V3 3 4 0)) identity quarter_turn None
           rigid_quarter_turn eq_refl eq_refl eq_refl eq_refl eq_refl eq_refl).
Defined.

(** C9. Swapping the two entries of [lta_list] changes neither the
    displacement nor the decision of [compare_xforms], for every threshold
    and whatever the reference points: the metric is a maximum of norms of
    pointwise differences. *)
Theorem compare_xforms_symmetric :
  forall (pts : list vec3) (load_transform : string -> result mat4)
         (f0 f1 : string) (A B : mat4) (th : option R),
    load_transform f0 = Ok A ->
    load_transform f1 = Ok B ->
    compare_xforms_norm load_transform (_calc_norm_affine pts) [f1; f0]
    = compare_xforms_norm load_transform (_calc_norm_affine pts) [f0; f1] /\
    compare_xforms load_transform (_calc_norm_affine pts) [f1; f0] th
    = compare_xforms load_transform (_calc_norm_affine pts) [f0; f1] th.
Proof.
  intros pts load f0 f1 A B th H0 H1.
  assert (Hn : compare_xforms_norm load (_calc_norm_affine pts) [f1; f0]
               = compare_xforms_norm load (_calc_norm_affine pts) [f0; f1]).
  { rewrite displacement_loaded with (A := B) (B := A) by assumption.
    rewrite displacement_loaded with (A := A) (B := B) by assumption.
    f_equal. apply Rlist_max_ext. intros p _. apply dist3_sym. }
  split; [exact Hn|].
  rewrite !compare_xforms_unfold, Hn. reflexivity.
Qed.

Lemma compare_xforms_symmetric_witness :
  compare_xforms_norm transform_files (_calc_norm_affine face_midpoints)
                      ["coreg.lta"; "bbr.lta"]%string
  = compare_xforms_norm transform_files (_calc_norm_affine face_midpoints)
                        ["bbr.lta"; "coreg.lta"]%string /\
  compare_xforms transform_files (_calc_norm_affine face_midpoints)
                 ["coreg.lta"; "bbr.lta"]%string (Some 4)
  = compare_xforms transform_files (_calc_norm_affine face_midpoints)
                   ["bbr.lta"; "coreg.lta"]%string (Some 4).
Proof.
  apply (@compare_xforms_symmetric face_midpoints transform_files
           "bbr.lta"%string "coreg.lta"%string
           (translation (V3 3 4 0)) identity (Some 4) eq_refl eq_refl).
Defined.

(** ** Invalid matrices *)

Lemma zero_matrix_invalid : ~ valid_affine zero_matrix.
Proof. intros [H _]. unfold affine_bottom, zero_matrix in H; simpl in H.
  injection H as H. lra. Qed.

Lemma zero_matrix_singular : det3 zero_matrix = 0.
Proof. unfold det3, zero_matrix; simpl. ring. Qed.

(** Two equal transforms, whatever they are, move every reference point
    to the same place: the displacement is 0. *)
Lemma same_transform_entry (pts : list vec3) (A : mat4) (flag : bool) :
  pts <> [] ->
  getitem (fst (_calc_norm_affine pts [A; A] flag)) 1 = Ok 0.
Proof.
  intros Hne. rewrite calc_norm_affine_pair. f_equal.
  apply Rlist_max_const; [exact Hne|].
  intros p _. unfold dist3, norm3, sub3; simpl.
  transitivity (sqrt 0); [f_equal; ring | apply sqrt_0].
Qed.

(** C5, counterexample.  The file ["zeros.lta"] holds a matrix of zeros,
    which is not a valid affine (wrong bottom row, singular block).
    Compared with the identity, [compare_xforms] does not raise
    [InvalidTransformError], whatever the norm helper is; it returns the
    comparison of the helper's [norm[1]] with the threshold. *)
Lemma compare_xforms_accepts_singular :
  ~ valid_affine zero_matrix /\
  det3 zero_matrix = 0 /\
  transform_files "zeros.lta"%string = Ok zero_matrix /\
  (forall (D : Type) (calc_norm_affine : list mat4 -> bool -> list R * D),
      compare_xforms transform_files calc_norm_affine
                     ["zeros.lta"; "coreg.lta"]%string None
      <> Err InvalidTransformError) /\
  (forall (D : Type) (calc_norm_affine : list mat4 -> bool -> list R * D) (n1 : R),
      getitem (fst (calc_norm_affine [identity; zero_matrix] true)) 1 = Ok n1 ->
      compare_xforms transform_files calc_norm_affine
                     ["zeros.lta"; "coreg.lta"]%string None
      = Ok (Rgtb n1 15)).
Proof.
  split; [exact zero_matrix_invalid|]. split; [exact zero_matrix_singular|].
  split; [reflexivity|].
  assert (H : forall (D : Type) (calc : list mat4 -> bool -> list R * D),
             compare_xforms transform_files calc ["zeros.lta"; "coreg.lta"]%string None
             = bind (getitem (fst (calc [identity; zero_matrix] true)) 1)
                    (fun d => Ok (Rgtb d 15))).
  { intros D calc. rewrite compare_xforms_unfold.
    rewrite compare_xforms_norm_loaded with (A := zero_matrix) (B := identity)
      by reflexivity.
    reflexivity. }
  split.
  - intros D calc. rewrite H. unfold getitem.
    destruct (nth_error (fst (calc [identity; zero_matrix] true)) 1);
      cbn [bind]; discriminate.
  - intros D calc n1 Hn. rewrite H, Hn. reflexivity.
Qed.

(** C5, amended.  [compare_xforms] validates nothing and raises no error
    of its own making.  Whenever the first two entries of [lta_list] load,
    as whatever 4x4 arrays, and the helper has a norm for the second
    transform, the call returns [norm[1] > norm_threshold].  When it
    fails, either [lta_list] has fewer than two entries and the error is
    [IndexError], or the error is the one the loader raised on one of the
    two entries, or the helper returned fewer than two norms and the error
    is [IndexError].  Its result depends on nothing but its arguments and
    what the loader and the helper return. *)
Theorem compare_xforms_no_validation :
  forall (load_transform : string -> result mat4) (D : Type)
         (calc_norm_affine : list mat4 -> bool -> list R * D)
         (lta_list : list string) (th : option R),
    (forall f0 f1 rest A B n1,
        lta_list = f0 :: f1 :: rest ->
        load_transform f0 = Ok A -> load_transform f1 = Ok B ->
        getitem (fst (calc_norm_affine [B; A] true)) 1 = Ok n1 ->
        compare_xforms load_transform calc_norm_affine lta_list th
        = Ok (Rgtb n1 (match th with Some t => t | None => 15 end))) /\
    (forall e,
        compare_xforms load_transform calc_norm_affine lta_list th = Err e ->
        (e = IndexError /\ (List.length lta_list < 2)%nat) \/
        (exists f, In f (firstn 2 lta_list) /\ load_transform f = Err e) \/
        (e = IndexError /\
         exists f0 f1 rest A B,
           lta_list = f0 :: f1 :: rest /\
           load_transform f0 = Ok A /\ load_transform f1 = Ok B /\
           (List.length (fst (calc_norm_affine [B; A] true)) < 2)%nat)).
Proof.
  intros load D calc lta th. split.
  - intros f0 f1 rest A B n1 -> H0 H1 Hn.
    rewrite compare_xforms_unfold.
    rewrite compare_xforms_norm_loaded with (A := A) (B := B) by assumption.
    rewrite Hn. reflexivity.
  - intros e. rewrite compare_xforms_unfold.
    destruct lta as [|f0 lta].
    { unfold compare_xforms_norm; cbn [getitem nth_error bind].
      intros H; injection H as <-. left. split; [reflexivity | simpl; lia]. }
    destruct (load f0) as [A|e0] eqn:H0.
    2:{ unfold compare_xforms_norm; cbn [getitem nth_error bind].
        rewrite H0; cbn [bind].
        intros H; injection H as <-. right; left.
        exists f0. split; [left; reflexivity | exact H0]. }
    destruct lta as [|f1 lta].
    { unfold compare_xforms_norm; cbn [getitem nth_error bind].
      rewrite H0; cbn [bind].
      intros H; injection H as <-. left. split; [reflexivity | simpl; lia]. }
    destruct (load f1) as [B|e1] eqn:H1.
    2:{ unfold compare_xforms_norm; cbn [getitem nth_error bind].
        rewrite H0; cbn [bind]. rewrite H1; cbn [bind].
        intros H; injection H as <-. right; left.
        exists f1. split; [right; left; reflexivity | exact H1]. }
    rewrite compare_xforms_norm_loaded with (A := A) (B := B) by assumption.
    unfold getitem.
    destruct (nth_error (fst (calc [B; A] true)) 1) as [n1|] eqn:Hn; cbn [bind].
    { discriminate. }
    intros H; injection H as <-. right; right. split; [reflexivity|].
    exists f0, f1, lta, A, B. repeat split; try assumption.
    apply nth_error_None in Hn. lia.
Qed.

Lemma compare_xforms_no_validation_witness :
  compare_xforms transform_files (_calc_norm_affine face_midpoints)
                 ["zeros.lta"; "zeros.lta"]%string None = Ok (Rgtb 0 15).
Proof.
  apply (proj1 (@compare_xforms_no_validation transform_files unit
                  (_calc_norm_affine face_midpoints)
                  ["zeros.lta"; "zeros.lta"]%string None)
               "zeros.lta"%string "zeros.lta"%string [] zero_matrix zero_matrix 0
               eq_refl eq_refl eq_refl).
  apply same_transform_entry. discriminate.
Defined.

(* ================================================================== *)
(** * Properties of [format_agg_rois] *)
(* ================================================================== *)

(** C10. For every non-empty list of file names [format_agg_rois] raises
    (an [AttributeError], from [.strip()] on the integer
    [len(rois) - 1]) and returns no triple. *)
Theorem format_agg_rois_raises :
  forall rois : list string,
    rois <> [] ->
    format_agg_rois rois = Err AttributeError /\
    forall t, format_agg_rois rois <> Ok t.
Proof.
  intros rois Hne. destruct rois as [|r rois]; [congruence|].
  assert (H : format_agg_rois (r :: rois) = Err AttributeError) by reflexivity.
  split; [exact H|]. intros t. rewrite H. discriminate.
Qed.

Lemma format_agg_rois_raises_witness :
  format_agg_rois ["roi1.nii.gz"; "roi2.nii.gz"]%string = Err AttributeError /\
  forall t, format_agg_rois ["roi1.nii.gz"; "roi2.nii.gz"]%string <> Ok t.
Proof.
  apply (@format_agg_rois_raises ["roi1.nii.gz"; "roi2.nii.gz"]%string).
  discriminate.
Defined.

(** On the empty list the first item of the tuple already fails. *)
Lemma format_agg_rois_empty : format_agg_rois [] = Err IndexError.
Proof. reflexivity. Qed.

(* ================================================================== *)
(** * Properties of [_conditional_downsampling] *)
(* ================================================================== *)

Lemma append_inj_l (p a b : string) : (p ++ a = p ++ b)%string -> a = b.
Proof.
  induction p as [|c p IH]; simpl; intros H; [exact H|].
  injection H as H. apply IH, H.
Qed.

Lemma out_mask_not_out_file (cwd : string) :
  String.eqb (absolute cwd "desc-resampled_input.nii.gz")
             (absolute cwd "desc-resampled_mask.nii.gz") = false.
Proof.
  apply String.eqb_neq. unfold absolute. intros H.
  apply append_inj_l in H. discriminate H.
Qed.

Section DownsamplingFacts.

Variable cwd : string.
Variable resample_values : image -> image -> index3 -> R.
Variable gaussian_filter : ndarray -> vec3 -> ndarray.

(** No voxel size under the threshold: the paths come back as given and
    nothing is written. *)
Lemma downsample_unchanged (in_file in_mask : string) (zoom_th : option R)
    (fs : store) (img : image) :
  fs in_file = Some img ->
  any_lt (zooms img) (threshold_of zoom_th) = false ->
  _conditional_downsampling cwd resample_values gaussian_filter in_file in_mask zoom_th fs
  = (Ok (in_file, in_mask), fs).
Proof.
  intros Hload Hany.
  unfold _conditional_downsampling, iobind, nb_load. rewrite Hload.
  unfold threshold_of in Hany. rewrite Hany. reflexivity.
Qed.

(** Some voxel size under the threshold: both outputs are written. *)
Lemma downsample_resamples (in_file in_mask : string) (zoom_th : option R)
    (fs : store) (img mask : image) :
  fs in_file = Some img ->
  any_lt (zooms img) (threshold_of zoom_th) = true ->
  write (out_file cwd) (resampled_input resample_values (threshold_of zoom_th) img) fs
        in_mask = Some mask ->
  _conditional_downsampling cwd resample_values gaussian_filter in_file in_mask zoom_th fs
  = (Ok (out_file cwd, out_mask cwd),
     write (out_mask cwd)
       (resampled_mask resample_values gaussian_filter (threshold_of zoom_th) img mask)
       (write (out_file cwd)
          (resampled_input resample_values (threshold_of zoom_th) img) fs)).
Proof.
  intros Hload Hany Hmask.
  unfold _conditional_downsampling, iobind, nb_load at 1. rewrite Hload.
  unfold threshold_of in *. rewrite Hany. cbn [negb].
  unfold resampled_input, resampled_mask, new_reference, scaling_of, out_file, out_mask in *.
  destruct (img_shape img) as [[n0 n1] n2].
  cbv beta iota zeta in *. unfold to_filename at 1. unfold nb_load.
  cbv beta iota zeta. rewrite Hmask. reflexivity.
Qed.

End DownsamplingFacts.

Lemma write_same (path : string) (img : image) (fs : store) :
  write path img fs path = Some img.
Proof. unfold write. rewrite String.eqb_refl. reflexivity. Qed.

Lemma write_other (path p : string) (img : image) (fs : store) :
  String.eqb p path = false -> write path img fs p = fs p.
Proof. intros H. unfold write. rewrite H. reflexivity. Qed.

Lemma binarize_binary (a : ndarray) (v : index3) :
  arr_val (binarize a) v = 0 \/ arr_val (binarize a) v = 1.
Proof. unfold binarize; simpl. destruct (Rgtb (arr_val a v) (5 / 10)); [right|left]; reflexivity. Qed.

(** C7. When the downsampler resamples, it writes two images that share
    one grid (same shape, same affine), and every voxel of the written
    mask is 0 or 1. *)
Theorem downsample_outputs_share_grid :
  forall (cwd : string) (resample_values : image -> image -> index3 -> R)
         (gaussian_filter : ndarray -> vec3 -> ndarray)
         (in_file in_mask : string) (zoom_th : option R) (fs : store) (img mask : image),
    fs in_file = Some img ->
    fs in_mask = Some mask ->
    any_lt (zooms img) (threshold_of zoom_th) = true ->
    exists (fs' : store) (ref_out mask_out : image),
      _conditional_downsampling cwd resample_values gaussian_filter
                                in_file in_mask zoom_th fs
      = (Ok (out_file cwd, out_mask cwd), fs') /\
      fs' (out_file cwd) = Some ref_out /\
      fs' (out_mask cwd) = Some mask_out /\
      img_shape ref_out = img_shape mask_out /\
      affine ref_out = affine mask_out /\
      forall v : index3,
        arr_val (dataobj mask_out) v = 0 \/ arr_val (dataobj mask_out) v = 1.
Proof.
  intros cwd rv gf in_file in_mask th fs img mask Hload Hmask Hany.
  assert (Hm : exists mask',
             write (out_file cwd) (resampled_input rv (threshold_of th) img) fs in_mask
             = Some mask').
  { unfold write. destruct (String.eqb in_mask (out_file cwd)); eauto. }
  destruct Hm as [mask' Hm].
  exists (write (out_mask cwd) (resampled_mask rv gf (threshold_of th) img mask')
            (write (out_file cwd) (resampled_input rv (threshold_of th) img) fs)).
  exists (resampled_input rv (threshold_of th) img).
  exists (resampled_mask rv gf (threshold_of th) img mask').
  split; [apply downsample_resamples; assumption|].
  split.
  { rewrite write_other by apply out_mask_not_out_file. apply write_same. }
  split; [apply write_same|].
  split; [reflexivity|]. split; [reflexivity|].
  intros v. unfold resampled_mask. cbv zeta. apply binarize_binary.
Qed.

Lemma downsample_outputs_share_grid_witness :
  exists (fs' : store) (ref_out mask_out : image),
    _conditional_downsampling "/work" moving_values no_filter
                              "las_t1w.nii.gz" "las_mask.nii.gz" None scan_files
    = (Ok (out_file "/work", out_mask "/work"), fs') /\
    fs' (out_file "/work") = Some ref_out /\
    fs' (out_mask "/work") = Some mask_out /\
    img_shape ref_out = img_shape mask_out /\
    affine ref_out = affine mask_out /\
    forall v : index3,
      arr_val (dataobj mask_out) v = 0 \/ arr_val (dataobj mask_out) v = 1.
Proof.
  apply (@downsample_outputs_share_grid "/work"%string moving_values no_filter
           "las_t1w.nii.gz"%string "las_mask.nii.gz"%string None scan_files
           las_t1w las_mask eq_refl eq_refl).
  unfold any_lt, threshold_of, las_t1w; simpl.
  rewrite (@Rltb_true 1 4) by lra. reflexivity.
Defined.

(** ** Voxel sizes of the resampled grid *)

Lemma zooms_resampled_input (rv : image -> image -> index3 -> R) (th : R) (img : image) :
  zooms (resampled_input rv th img)
  = column_lengths (diag_dot (scaling_of th (zooms img)) (block3 (affine img))).
Proof.
  unfold resampled_input, nt_apply, new_reference.
  destruct (img_shape img) as [[n0 n1] n2]. reflexivity.
Qed.

Lemma block3_resampled_input (rv : image -> image -> index3 -> R) (th : R) (img : image) :
  block3 (affine (resampled_input rv th img))
  = diag_dot (scaling_of th (zooms img)) (block3 (affine img)).
Proof.
  unfold resampled_input, nt_apply, new_reference.
  destruct (img_shape img) as [[n0 n1] n2]. reflexivity.
Qed.

Ltac sqrt_is c :=
  match goal with
  | |- sqrt ?e = _ => replace e with (c * c) by (simpl; field; lra); apply sqrt_square; lra
  end.

(** C6, on an image whose first two voxel axes are swapped (voxels of
    1 x 2 x 1 mm, default threshold 4 mm).  The first run writes a grid
    with voxels of 2 x 8 x 4 mm, not of 4 mm; the second run, on the
    output of the first, resamples again and replaces the file by one
    with voxels of 1 x 16 x 4 mm. *)
Theorem downsample_swapped_axes_not_idempotent :
  forall (rv : image -> image -> index3 -> R) (gf : ndarray -> vec3 -> ndarray),
  exists (fs1 fs2 : store) (im1 im2 : image),
    _conditional_downsampling "/work" rv gf
        "swapped_t1w.nii.gz" "swapped_mask.nii.gz" None scan_files
    = (Ok (out_file "/work", out_mask "/work"), fs1) /\
    fs1 (out_file "/work") = Some im1 /\
    zooms im1 = V3 2 8 4 /\
    _conditional_downsampling "/work" rv gf (out_file "/work") (out_mask "/work") None fs1
    = (Ok (out_file "/work", out_mask "/work"), fs2) /\
    fs2 (out_file "/work") = Some im2 /\
    zooms im2 = V3 1 16 4 /\
    fs2 <> fs1.
Proof.
  intros rv gf.
  set (im1 := resampled_input rv 4 swapped_t1w).
  set (m1 := resampled_mask rv gf 4 swapped_t1w swapped_mask).
  set (fs1 := write (out_mask "/work") m1 (write (out_file "/work") im1 scan_files)).
  set (im2 := resampled_input rv 4 im1).
  set (m2 := resampled_mask rv gf 4 im1 m1).
  set (fs2 := write (out_mask "/work") m2 (write (out_file "/work") im2 fs1)).
  assert (Hz1 : zooms im1 = V3 2 8 4).
  { unfold im1. rewrite zooms_resampled_input.
    unfold column_lengths, diag_dot, scaling_of, scale3, swapped_t1w, swapped_affine; simpl.
    f_equal; [sqrt_is 2 | sqrt_is 8 | sqrt_is 4]. }
  assert (Hz2 : zooms im2 = V3 1 16 4).
  { unfold im2. rewrite zooms_resampled_input, Hz1.
    unfold im1. rewrite block3_resampled_input.
    unfold column_lengths, diag_dot, scaling_of, scale3, swapped_t1w, swapped_affine; simpl.
    f_equal; [sqrt_is 1 | sqrt_is 16 | sqrt_is 4]. }
  assert (Hf1 : fs1 (out_file "/work") = Some im1).
  { unfold fs1. rewrite write_other by apply out_mask_not_out_file. apply write_same. }
  assert (Hf2 : fs2 (out_file "/work") = Some im2).
  { unfold fs2. rewrite write_other by apply out_mask_not_out_file. apply write_same. }
  exists fs1, fs2, im1, im2.
  split.
  { apply (@downsample_resamples "/work"%string rv gf
             "swapped_t1w.nii.gz"%string "swapped_mask.nii.gz"%string None
             scan_files swapped_t1w swapped_mask); [reflexivity | | reflexivity].
    unfold any_lt, threshold_of, swapped_t1w; simpl.
    rewrite (@Rltb_true 1 4) by lra. reflexivity. }
  split; [exact Hf1|]. split; [exact Hz1|].
  split.
  { apply (@downsample_resamples "/work"%string rv gf
             (out_file "/work") (out_mask "/work") None fs1 im1 m1); [exact Hf1 | | ].
    - rewrite Hz1. unfold any_lt, threshold_of; simpl.
      rewrite (@Rltb_true 2 4) by lra. reflexivity.
    - rewrite write_other by (rewrite String.eqb_sym; apply out_mask_not_out_file).
      unfold fs1. apply write_same. }
  split; [exact Hf2|]. split; [exact Hz2|].
  intros Heq.
  assert (E : Some im2 = Some im1) by (rewrite <- Hf2, Heq; exact Hf1).
  apply (f_equal (fun o => match o with Some i => vx (zooms i) | None => 0 end)) in E.
  change (vx (zooms im2) = vx (zooms im1)) in E.
  rewrite Hz1, Hz2 in E. simpl in E. lra.
Qed.

(* ================================================================== *)
(** * The transform that the workflows hand on *)
(* ================================================================== *)

Local Open Scope string_scope.

Ltac run_graph :=
  lazy -[compare_xforms];
  repeat (match goal with
          | H : _ = VStr _ |- _ => rewrite H
          | H : compare_xforms _ _ _ _ = Ok _ |- _ => rewrite H
          end; lazy -[compare_xforms]).

(** The displacement of the shift by (3, 4, 0) is 5, under the default
    threshold. *)
Lemma shifted_registration_accepted :
  compare_xforms transform_files (_calc_norm_affine face_midpoints)
                 ["bbr.lta"; "coreg.lta"] None = Ok false.
Proof.
  rewrite compare_xforms_unfold.
  rewrite translation_norm with (t := V3 3 4 0) by (reflexivity || discriminate).
  cbn [bind]. rewrite Rgtb_false; [reflexivity|].
  unfold norm3; simpl. replace (3 * 3 + 4 * 4 + 0 * 0)%R with (5 * 5)%R by ring.
  rewrite sqrt_square; lra.
Qed.

(** The displacement of the shift by (0, 20, 0) is 20, over the default
    threshold. *)
Lemma drifted_registration_rejected :
  compare_xforms drifted_files (_calc_norm_affine face_midpoints)
                 ["bbr.lta"; "coreg.lta"] None = Ok true.
Proof.
  rewrite compare_xforms_unfold.
  rewrite translation_norm with (t := V3 0 20 0) by (reflexivity || discriminate).
  cbn [bind]. rewrite Rgtb_true; [reflexivity|].
  unfold norm3; simpl. replace (0 * 0 + 20 * 20 + 0 * 0)%R with (20 * 20)%R by ring.
  rewrite sqrt_square; lra.
Qed.

(** C8, counterexample.  With header initialisation and [use_bbr = None]
    [init_bbreg_wf] builds no comparison: there is no
    [compare_transforms] node, nothing drives the index of
    [select_transform] or the second entry of the transform list, and
    whatever the transforms are the list holds the BBR result alone,
    [fallback] is [False] and the BBR result is handed on. *)
Lemma header_init_builds_no_comparison :
  exists wf : workflow,
    init_bbreg_wf None 6 "header" "bbreg_wf" = Ok wf /\
    has_node "compare_transforms" (wf_nodes wf) = false /\
    incoming "select_transform" "index" wf = None /\
    incoming "transforms" "in2" wf = None /\
    incoming "outputnode" "fallback" wf = None /\
    (forall (load_transform : string -> result mat4) (D : Type)
            (calc_norm_affine : list mat4 -> bool -> list R * D)
            (tool_output : string -> string -> value)
            (map_tool_output : string -> string -> value -> value)
            (function_output : pyfunction -> string -> value) (bbr : string),
        tool_output "bbregister" "out_lta_file" = VStr bbr ->
        run load_transform calc_norm_affine tool_output map_tool_output
            function_output wf "transforms" "out" = Ok (VList [VStr bbr]) /\
        run load_transform calc_norm_affine tool_output map_tool_output
            function_output wf "outputnode" "fallback" = Ok (VBool false) /\
        run load_transform calc_norm_affine tool_output map_tool_output
            function_output wf "select_transform" "out" = Ok (VStr bbr)).
Proof.
  eexists. split; [reflexivity|].
  split; [reflexivity|]. split; [reflexivity|]. split; [reflexivity|].
  split; [reflexivity|].
  intros load D calc tool_output map_tool_output function_output bbr Hbbr.
  split; [|split]; run_graph; reflexivity.
Qed.

(** C8. In the workflows built with [use_bbr = None], the transform that
    [select_transform] hands on is the baseline registration exactly when
    the [fallback] output is [True], and the BBR registration exactly when
    it is [False]: the boolean of [compare_xforms] is both the [fallback]
    output and the index into [[BBR, baseline]].  (With header
    initialisation [init_bbreg_wf] turns [None] into [True]: [fallback] is
    [False] and the BBR registration is handed on.) *)
Theorem use_bbr_none_selects_by_fallback :
  forall (load_transform : string -> result mat4) (D : Type)
         (calc_norm_affine : list mat4 -> bool -> list R * D)
         (tool_output : string -> string -> value)
         (map_tool_output : string -> string -> value -> value)
         (function_output : pyfunction -> string -> value)
         (fsldir_schedule : option string) (packaged_schedule : string)
         (dof : Z) (init name : string) (sloppy : bool),
    (dof = 6 \/ dof = 9 \/ dof = 12)%Z ->
    (forall bbr base : string,
        In init RegistrationInit ->
        tool_output "bbregister" "out_lta_file" = VStr bbr ->
        tool_output "mri_coreg" "out_lta_file" = VStr base ->
        exists wf : workflow,
          init_bbreg_wf None dof init name = Ok wf /\
          incoming "merge_ltas" "in1" wf = Some ("select_transform", "out") /\
          (init = "header" ->
           run load_transform calc_norm_affine tool_output map_tool_output
               function_output wf "outputnode" "fallback" = Ok (VBool false) /\
           run load_transform calc_norm_affine tool_output map_tool_output
               function_output wf "select_transform" "out" = Ok (VStr bbr)) /\
          (init <> "header" ->
           forall b : bool,
             compare_xforms load_transform calc_norm_affine [bbr; base] None = Ok b ->
             run load_transform calc_norm_affine tool_output map_tool_output
                 function_output wf "outputnode" "fallback" = Ok (VBool b) /\
             run load_transform calc_norm_affine tool_output map_tool_output
                 function_output wf "select_transform" "out"
             = Ok (VStr (if b then base else bbr)))) /\
    (forall (bbr base bbr_lta base_lta : string) (b : bool),
        init = "t1w" \/ init = "t2w" ->
        tool_output "flt_bbr" "out_matrix_file" = VStr bbr ->
        tool_output "lta_to_fsl" "out_fsl" = VStr base ->
        map_tool_output "fsl_to_lta" "out_lta" (VStr bbr) = VStr bbr_lta ->
        map_tool_output "fsl_to_lta" "out_lta" (VStr base) = VStr base_lta ->
        compare_xforms load_transform calc_norm_affine [bbr_lta; base_lta] None = Ok b ->
        exists wf : workflow,
          init_fsl_bbr_wf fsldir_schedule packaged_schedule None dof init sloppy name
          = Ok wf /\
          incoming "invt_bbr" "in_file" wf = Some ("select_transform", "out") /\
          incoming "fsl2itk_fwd" "transform_file" wf = Some ("select_transform", "out") /\
          run load_transform calc_norm_affine tool_output map_tool_output
              function_output wf "outputnode" "fallback" = Ok (VBool b) /\
          run load_transform calc_norm_affine tool_output map_tool_output
              function_output wf "select_transform" "out"
          = Ok (VStr (if b then base else bbr))).
Proof.
  intros load D calc tool_output map_tool_output function_output sched pack
         dof init name sloppy Hdof.
  split.
  - intros bbr base Hinit Hbbr Hbase.
    simpl in Hinit.
    destruct Hinit as [ <- | [ <- | [ <- | Hf ] ] ]; try contradiction;
      destruct Hdof as [ -> | [ -> | -> ] ];
      (eexists; split; [reflexivity|]; split; [reflexivity|]; split;
       [ intros Hh; try discriminate Hh; split; run_graph; reflexivity
       | intros Hh; try (exfalso; apply Hh; reflexivity);
         intros b Hb; split; run_graph; destruct b; reflexivity ]).
  - intros bbr base bbr_lta base_lta b Hinit Hbbr Hbase Hcb Hcbase Hb.
    destruct Hinit as [ -> | -> ];
      destruct Hdof as [ -> | [ -> | -> ] ];
      destruct sloppy; destruct sched;
      (eexists; split; [reflexivity|]; split; [reflexivity|]; split; [reflexivity|];
       split; run_graph; destruct b; reflexivity).
Qed.

Lemma use_bbr_none_selects_by_fallback_witness :
  (exists wf : workflow,
      init_bbreg_wf None 6 "t1w" "bbr_wf" = Ok wf /\
      (run transform_files (_calc_norm_affine face_midpoints) registration_outputs
           converted_outputs other_functions wf "outputnode" "fallback"
       = Ok (VBool false) /\
       run transform_files (_calc_norm_affine face_midpoints) registration_outputs
           converted_outputs other_functions wf "select_transform" "out"
       = Ok (VStr "bbr.lta")) /\
      (run drifted_files (_calc_norm_affine face_midpoints) registration_outputs
           converted_outputs other_functions wf "outputnode" "fallback"
       = Ok (VBool true) /\
       run drifted_files (_calc_norm_affine face_midpoints) registration_outputs
           converted_outputs other_functions wf "select_transform" "out"
       = Ok (VStr "coreg.lta"))) /\
  (exists wf : workflow,
      init_fsl_bbr_wf None "bbr.sch" None 6 "t1w" false "bbr_wf" = Ok wf /\
      run transform_files (_calc_norm_affine face_midpoints) registration_outputs
          converted_outputs other_functions wf "outputnode" "fallback" = Ok (VBool false) /\
      run transform_files (_calc_norm_affine face_midpoints) registration_outputs
          converted_outputs other_functions wf "select_transform" "out"
      = Ok (VStr "bbr.mat")) /\
  (exists wf : workflow,
      init_fsl_bbr_wf None "bbr.sch" None 6 "t1w" false "bbr_wf" = Ok wf /\
      run drifted_files (_calc_norm_affine face_midpoints) registration_outputs
          converted_outputs other_functions wf "outputnode" "fallback" = Ok (VBool true) /\
      run drifted_files (_calc_norm_affine face_midpoints) registration_outputs
          converted_outputs other_functions wf "select_transform" "out"
      = Ok (VStr "coreg.mat")).
Proof.
  destruct (@use_bbr_none_selects_by_fallback transform_files unit
              (_calc_norm_affine face_midpoints) registration_outputs
              converted_outputs other_functions None "bbr.sch" 6%Z "t1w" "bbr_wf" false
              (or_introl eq_refl)) as [HA HB].
  destruct (@use_bbr_none_selects_by_fallback drifted_files unit
              (_calc_norm_affine face_midpoints) registration_outputs
              converted_outputs other_functions None "bbr.sch" 6%Z "t1w" "bbr_wf" false
              (or_introl eq_refl)) as [HA' HB'].
  split; [|split].
  - destruct (HA "bbr.lta" "coreg.lta" (or_introl eq_refl) eq_refl eq_refl)
      as [wf [Hwf [_ [_ Hrun]]]].
    destruct (HA' "bbr.lta" "coreg.lta" (or_introl eq_refl) eq_refl eq_refl)
      as [wf' [Hwf' [_ [_ Hrun']]]].
    assert (E : wf' = wf) by congruence. subst wf'.
    exists wf. split; [exact Hwf|]. split.
    + apply (Hrun ltac:(discriminate) false shifted_registration_accepted).
    + apply (Hrun' ltac:(discriminate) true drifted_registration_rejected).
  - destruct (HB "bbr.mat" "coreg.mat" "bbr.lta" "coreg.lta" false
                 (or_introl eq_refl) eq_refl eq_refl eq_refl eq_refl
                 shifted_registration_accepted)
      as [wf [Hwf [_ [_ Hrun]]]].
    exists wf. split; [exact Hwf | exact Hrun].
  - destruct (HB' "bbr.mat" "coreg.mat" "bbr.lta" "coreg.lta" true
                  (or_introl eq_refl) eq_refl eq_refl eq_refl eq_refl
                  drifted_registration_rejected)
      as [wf [Hwf [_ [_ Hrun]]]].
    exists wf. split; [exact Hwf | exact Hrun].
Defined.

(* ================================================================== *)
(** * Further properties of [compare_xforms] *)
(* ================================================================== *)

Local Open Scope R_scope.

(** X1. Order of failures in [compare_xforms] (lines 908-909).  An empty
    list fails with [IndexError] before anything is loaded; a failure of
    the loader on the first entry is raised whatever follows it in the
    list; a list of one loadable entry fails with [IndexError]; entries
    after the second are never looked at. *)
Theorem compare_xforms_failure_order :
  forall (load_transform : string -> result mat4) (D : Type)
         (calc_norm_affine : list mat4 -> bool -> list R * D) (th : option R),
    compare_xforms load_transform calc_norm_affine [] th = Err IndexError /\
    (forall f0 rest e,
        load_transform f0 = Err e ->
        compare_xforms load_transform calc_norm_affine (f0 :: rest) th = Err e) /\
    (forall f0 A,
        load_transform f0 = Ok A ->
        compare_xforms load_transform calc_norm_affine [f0] th = Err IndexError) /\
    (forall f0 f1 rest,
        compare_xforms load_transform calc_norm_affine (f0 :: f1 :: rest) th
        = compare_xforms load_transform calc_norm_affine [f0; f1] th).
Proof.
  intros load D calc th. split; [reflexivity|]. split; [|split].
  - intros f0 rest e H. unfold compare_xforms. cbn [getitem nth_error bind].
    rewrite H. reflexivity.
  - intros f0 A H. unfold compare_xforms. cbn [getitem nth_error bind].
    rewrite H. reflexivity.
  - intros f0 f1 rest. reflexivity.
Qed.

Lemma compare_xforms_failure_order_witness :
  compare_xforms transform_files (_calc_norm_affine face_midpoints)
                 ["missing.lta"; "coreg.lta"]%string None = Err FileNotFoundError /\
  compare_xforms transform_files (_calc_norm_affine face_midpoints)
                 ["coreg.lta"]%string None = Err IndexError.
Proof.
  destruct (@compare_xforms_failure_order transform_files unit
              (_calc_norm_affine face_midpoints) None) as [_ [H1 [H2 _]]].
  split.
  - apply (H1 "missing.lta"%string ["coreg.lta"%string] FileNotFoundError eq_refl).
  - apply (H2 "coreg.lta"%string identity eq_refl).
Defined.

(* ================================================================== *)
(** * Further properties of [_conditional_downsampling] *)
(* ================================================================== *)

(** X2. Early exits of [_conditional_downsampling] (lines 925-929).  When
    the input image cannot be loaded the call fails and writes nothing;
    when no voxel size is under the threshold it hands back the two paths
    it was given and writes nothing, without ever opening the mask: the
    mask path comes back even if no such file exists. *)
Theorem downsample_early_exits :
  forall (cwd : string) (resample_values : image -> image -> index3 -> R)
         (gaussian_filter : ndarray -> vec3 -> ndarray)
         (in_file in_mask : string) (zoom_th : option R) (fs : store),
    (fs in_file = None ->
     _conditional_downsampling cwd resample_values gaussian_filter
                               in_file in_mask zoom_th fs
     = (Err FileNotFoundError, fs)) /\
    (forall img,
        fs in_file = Some img ->
        any_lt (zooms img) (threshold_of zoom_th) = false ->
        _conditional_downsampling cwd resample_values gaussian_filter
                                  in_file in_mask zoom_th fs
        = (Ok (in_file, in_mask), fs)).
Proof.
  intros cwd rv gf in_file in_mask th fs. split.
  - intros H. unfold _conditional_downsampling, iobind, nb_load. rewrite H. reflexivity.
  - intros img Hload Hany. apply downsample_unchanged with (img := img); assumption.
Qed.

Lemma downsample_early_exits_witness :
  _conditional_downsampling "/work" moving_values no_filter
      "nowhere.nii.gz" "las_mask.nii.gz" None scan_files
  = (Err FileNotFoundError, scan_files) /\
  _conditional_downsampling "/work" moving_values no_filter
      "coarse_t1w.nii.gz" "no_such_mask.nii.gz" None scan_files
  = (Ok ("coarse_t1w.nii.gz", "no_such_mask.nii.gz")%string, scan_files).
Proof.
  split.
  - apply (proj1 (@downsample_early_exits "/work"%string moving_values no_filter
                    "nowhere.nii.gz"%string "las_mask.nii.gz"%string None scan_files)
                 eq_refl).
  - apply (proj2 (@downsample_early_exits "/work"%string moving_values no_filter
                    "coarse_t1w.nii.gz"%string "no_such_mask.nii.gz"%string None
                    scan_files) coarse_t1w eq_refl).
    unfold any_lt, threshold_of, coarse_t1w; simpl.
    rewrite (@Rltb_false 4 4), (@Rltb_false 5 4) by lra. reflexivity.
Defined.

(** X3. [_conditional_downsampling] is not atomic (lines 943-945).  When
    it has to resample and the mask cannot be loaded, the call fails, but
    the resampled input has already been written to [out_file]; no mask
    is written. *)
Theorem downsample_partial_write :
  forall (cwd : string) (resample_values : image -> image -> index3 -> R)
         (gaussian_filter : ndarray -> vec3 -> ndarray)
         (in_file in_mask : string) (zoom_th : option R) (fs : store) (img : image),
    fs in_file = Some img ->
    any_lt (zooms img) (threshold_of zoom_th) = true ->
    fs in_mask = None ->
    in_mask <> out_file cwd ->
    _conditional_downsampling cwd resample_values gaussian_filter
                              in_file in_mask zoom_th fs
    = (Err FileNotFoundError,
       write (out_file cwd) (resampled_input resample_values (threshold_of zoom_th) img)
             fs).
Proof.
  intros cwd rv gf in_file in_mask th fs img Hload Hany Hmask Hne.
  unfold _conditional_downsampling, iobind, nb_load at 1. rewrite Hload.
  unfold threshold_of in *. rewrite Hany. cbn [negb].
  unfold resampled_input, new_reference, scaling_of, out_file in *.
  destruct (img_shape img) as [[n0 n1] n2].
  cbv beta iota zeta in *. unfold to_filename at 1. unfold nb_load.
  cbv beta iota zeta.
  rewrite write_other by (apply String.eqb_neq; exact Hne).
  rewrite Hmask. reflexivity.
Qed.

Lemma downsample_partial_write_witness :
  _conditional_downsampling "/work" moving_values no_filter
      "las_t1w.nii.gz" "no_such_mask.nii.gz" None scan_files
  = (Err FileNotFoundError,
     write (out_file "/work") (resampled_input moving_values 4 las_t1w) scan_files).
Proof.
  apply (@downsample_partial_write "/work"%string moving_values no_filter
           "las_t1w.nii.gz"%string "no_such_mask.nii.gz"%string None scan_files las_t1w
           eq_refl).
  - unfold any_lt, threshold_of, las_t1w; simpl.
    rewrite (@Rltb_true 1 4) by lra. reflexivity.
  - reflexivity.
  - discriminate.
Defined.

(** X4. The new grid is centred on the old one (lines 938-940): for every
    image and threshold, the centre of the reference grid that the
    resampling branch builds, and so of the image written to [out_file],
    has the world coordinates of the centre of the input grid. *)
Theorem new_reference_keeps_centre :
  forall (resample_values : image -> image -> index3 -> R) (th : R) (img : image),
    grid_centre (new_reference th img) = grid_centre img /\
    grid_centre (resampled_input resample_values th img) = grid_centre img.
Proof.
  intros rv th img.
  assert (H : grid_centre (new_reference th img) = grid_centre img).
  { unfold grid_centre, new_reference, img_shape.
    destruct (arr_shape (dataobj img)) as [[n0 n1] n2]. cbv zeta.
    destruct (affine img) as [[a00 a01 a02 a03] [a10 a11 a12 a13] [a20 a21 a22 a23] ab].
    unfold apply_affine, from_matvec, Nifti1Image, sub3, mat3_dot, dot3, dot4, homog,
           diag_dot, scale3, block3, zeros; simpl.
    f_equal; ring. }
  split; [exact H|].
  rewrite <- H. unfold resampled_input, nt_apply, grid_centre, Nifti1Image, img_shape.
  reflexivity.
Qed.

(* ================================================================== *)
(** * Further properties of [init_bbreg_wf] and [init_fsl_bbr_wf] *)
(* ================================================================== *)

Local Open Scope string_scope.

Lemma dof_word_ok (dof : Z) :
  (dof = 6 \/ dof = 9 \/ dof = 12)%Z -> exists w, dof_word dof = Ok w.
Proof. intros [ -> | [ -> | -> ] ]; eexists; reflexivity. Qed.

Lemma dof_word_bad (dof : Z) :
  ~ (dof = 6 \/ dof = 9 \/ dof = 12)%Z -> dof_word dof = Err KeyError.
Proof.
  intros H. unfold dof_word.
  destruct (Z.eqb_spec dof 6); [tauto|].
  destruct (Z.eqb_spec dof 9); [tauto|].
  destruct (Z.eqb_spec dof 12); [tauto|]. reflexivity.
Qed.

Lemma not_registration_init (init : string) :
  ~ In init RegistrationInit -> existsb (String.eqb init) RegistrationInit = false.
Proof.
  intros H. destruct (existsb (String.eqb init) RegistrationInit) eqn:E; [|reflexivity].
  apply existsb_exists in E. destruct E as [x [Hin Hx]].
  apply String.eqb_eq in Hx. subst x. contradiction.
Qed.

(** X8. When [init_bbreg_wf] builds a workflow (lines 466-508).  A
    [bold2anat_dof] other than 6, 9 or 12 fails with [KeyError], whatever
    the other arguments; with a valid one, an initialisation outside
    ['t1w', 't2w', 'header'] fails with [ValueError], and so does header
    initialisation with [use_bbr = False]; every other call returns a
    workflow. *)
Theorem init_bbreg_wf_builds :
  forall (use_bbr : option bool) (dof : Z) (init name : string),
    (~ (dof = 6 \/ dof = 9 \/ dof = 12)%Z ->
     init_bbreg_wf use_bbr dof init name = Err KeyError) /\
    ((dof = 6 \/ dof = 9 \/ dof = 12)%Z ->
     (~ In init RegistrationInit ->
      init_bbreg_wf use_bbr dof init name = Err ValueError) /\
     (init = "header" -> use_bbr = Some false ->
      init_bbreg_wf use_bbr dof init name = Err ValueError) /\
     (In init RegistrationInit -> ~ (init = "header" /\ use_bbr = Some false) ->
      exists wf, init_bbreg_wf use_bbr dof init name = Ok wf /\ wf_name wf = name)).
Proof.
  intros use_bbr dof init name. split.
  - intros H. unfold init_bbreg_wf. rewrite (dof_word_bad H). reflexivity.
  - intros Hdof. split; [|split].
    + intros Hinit. unfold init_bbreg_wf.
      destruct (dof_word_ok Hdof) as [w ->]. cbn [bind].
      rewrite (not_registration_init Hinit). reflexivity.
    + intros -> ->. destruct Hdof as [ -> | [ -> | -> ] ]; reflexivity.
    + intros Hinit Hnot. simpl in Hinit.
      destruct Hinit as [ <- | [ <- | [ <- | Hf ] ] ]; try contradiction;
        destruct Hdof as [ -> | [ -> | -> ] ];
        destruct use_bbr as [[|]|];
        try (exfalso; apply Hnot; split; reflexivity);
        (eexists; split; reflexivity).
Qed.

Lemma init_bbreg_wf_builds_witness :
  init_bbreg_wf None 7 "t1w" "bbreg_wf" = Err KeyError /\
  init_bbreg_wf None 6 "register" "bbreg_wf" = Err ValueError /\
  init_bbreg_wf (Some false) 6 "header" "bbreg_wf" = Err ValueError /\
  exists wf, init_bbreg_wf None 6 "header" "bbreg_wf" = Ok wf /\ wf_name wf = "bbreg_wf".
Proof.
  split; [|split; [|split]].
  - apply (proj1 (init_bbreg_wf_builds None 7 "t1w" "bbreg_wf")). lia.
  - apply (proj1 (proj2 (init_bbreg_wf_builds None 6 "register" "bbreg_wf")
                        (or_introl eq_refl))).
    simpl. intros [H|[H|[H|[]]]]; discriminate H.
  - apply (proj1 (proj2 (proj2 (init_bbreg_wf_builds (Some false) 6 "header" "bbreg_wf")
                               (or_introl eq_refl))) eq_refl eq_refl).
  - apply (proj2 (proj2 (proj2 (init_bbreg_wf_builds None 6 "header" "bbreg_wf")
                               (or_introl eq_refl)))).
    + simpl. tauto.
    + intros [_ H]. discriminate H.
Defined.

(** X9. When [init_fsl_bbr_wf] builds a workflow (lines 692-732).  A
    [bold2anat_dof] other than 6, 9 or 12 fails with [KeyError]; with a
    valid one, an unknown initialisation fails with [ValueError] and
    ['header'] with [NotImplementedError], whatever [use_bbr] and
    [sloppy]; ['t1w'] and ['t2w'] always build, and build the same graph:
    the T2w option changes nothing. *)
Theorem init_fsl_bbr_wf_builds :
  forall (fsldir_schedule : option string) (packaged_schedule : string)
         (use_bbr : option bool) (dof : Z) (init : string) (sloppy : bool)
         (name : string),
    (~ (dof = 6 \/ dof = 9 \/ dof = 12)%Z ->
     init_fsl_bbr_wf fsldir_schedule packaged_schedule use_bbr dof init sloppy name
     = Err KeyError) /\
    ((dof = 6 \/ dof = 9 \/ dof = 12)%Z ->
     (~ In init RegistrationInit ->
      init_fsl_bbr_wf fsldir_schedule packaged_schedule use_bbr dof init sloppy name
      = Err ValueError) /\
     (init = "header" ->
      init_fsl_bbr_wf fsldir_schedule packaged_schedule use_bbr dof init sloppy name
      = Err NotImplementedError) /\
     (init = "t1w" \/ init = "t2w" ->
      exists wf,
        init_fsl_bbr_wf fsldir_schedule packaged_schedule use_bbr dof init sloppy name
        = Ok wf /\
        init_fsl_bbr_wf fsldir_schedule packaged_schedule use_bbr dof "t1w" sloppy name
        = Ok wf /\
        init_fsl_bbr_wf fsldir_schedule packaged_schedule use_bbr dof "t2w" sloppy name
        = Ok wf)).
Proof.
  intros sched pack use_bbr dof init sloppy name. split.
  - intros H. unfold init_fsl_bbr_wf. rewrite (dof_word_bad H). reflexivity.
  - intros Hdof. split; [|split].
    + intros Hinit. unfold init_fsl_bbr_wf.
      destruct (dof_word_ok Hdof) as [w ->]. cbn [bind].
      rewrite (not_registration_init Hinit). reflexivity.
    + intros ->. destruct Hdof as [ -> | [ -> | -> ] ]; reflexivity.
    + intros Hinit.
      destruct Hinit as [ -> | -> ];
        destruct Hdof as [ -> | [ -> | -> ] ];
        destruct use_bbr as [[|]|];
        (eexists; split; [reflexivity | split; reflexivity]).
Qed.

Lemma init_fsl_bbr_wf_builds_witness :
  init_fsl_bbr_wf None "bbr.sch" None 7 "t1w" false "fsl_bbr_wf" = Err KeyError /\
  init_fsl_bbr_wf None "bbr.sch" None 6 "register" false "fsl_bbr_wf" = Err ValueError /\
  init_fsl_bbr_wf None "bbr.sch" None 6 "header" false "fsl_bbr_wf"
  = Err NotImplementedError /\
  exists wf,
    init_fsl_bbr_wf None "bbr.sch" None 6 "t2w" false "fsl_bbr_wf" = Ok wf /\
    init_fsl_bbr_wf None "bbr.sch" None 6 "t1w" false "fsl_bbr_wf" = Ok wf /\
    init_fsl_bbr_wf None "bbr.sch" None 6 "t2w" false "fsl_bbr_wf" = Ok wf.
Proof.
  split; [|split; [|split]].
  - apply (proj1 (init_fsl_bbr_wf_builds None "bbr.sch" None 7 "t1w" false "fsl_bbr_wf")).
    lia.
  - apply (proj1 (proj2 (init_fsl_bbr_wf_builds None "bbr.sch" None 6 "register" false
                           "fsl_bbr_wf") (or_introl eq_refl))).
    simpl. intros [H|[H|[H|[]]]]; discriminate H.
  - apply (proj1 (proj2 (proj2 (init_fsl_bbr_wf_builds None "bbr.sch" None 6 "header"
                                  false "fsl_bbr_wf") (or_introl eq_refl))) eq_refl).
  - apply (proj2 (proj2 (proj2 (init_fsl_bbr_wf_builds None "bbr.sch" None 6 "t2w"
                                  false "fsl_bbr_wf") (or_introl eq_refl)))
                 (or_intror eq_refl)).
Defined.

(** X10. [init_bbreg_wf] with [use_bbr] fixed (lines 552-589).  With
    [use_bbr = False] the workflow hands on the [mri_coreg] transform,
    reports [fallback = True], and holds no [bbregister] node: BBR is not
    run.  With [use_bbr = True] it hands on the [bbregister] transform and
    reports [fallback = False], and no comparison node exists: the result
    of BBR is never tested. *)
Theorem init_bbreg_wf_fixed_use_bbr :
  forall (load_transform : string -> result mat4) (D : Type)
         (calc_norm_affine : list mat4 -> bool -> list R * D)
         (tool_output : string -> string -> value)
         (map_tool_output : string -> string -> value -> value)
         (function_output : pyfunction -> string -> value)
         (dof : Z) (init name bbr base : string),
    (dof = 6 \/ dof = 9 \/ dof = 12)%Z ->
    tool_output "bbregister" "out_lta_file" = VStr bbr ->
    tool_output "mri_coreg" "out_lta_file" = VStr base ->
    (init = "t1w" \/ init = "t2w" ->
     exists wf,
       init_bbreg_wf (Some false) dof init name = Ok wf /\
       run load_transform calc_norm_affine tool_output map_tool_output
           function_output wf "outputnode" "fallback" = Ok (VBool true) /\
       input_value load_transform calc_norm_affine tool_output map_tool_output
           function_output wf "merge_ltas" "in1" = Ok (VStr base) /\
       has_node "bbregister" (wf_nodes wf) = false) /\
    (In init RegistrationInit ->
     exists wf,
       init_bbreg_wf (Some true) dof init name = Ok wf /\
       run load_transform calc_norm_affine tool_output map_tool_output
           function_output wf "outputnode" "fallback" = Ok (VBool false) /\
       input_value load_transform calc_norm_affine tool_output map_tool_output
           function_output wf "merge_ltas" "in1" = Ok (VStr bbr) /\
       has_node "compare_transforms" (wf_nodes wf) = false).
Proof.
  intros load D calc tool_output map_tool_output function_output
         dof init name bbr base Hdof Hbbr Hbase.
  split.
  - intros Hinit.
    destruct Hinit as [ -> | -> ]; destruct Hdof as [ -> | [ -> | -> ] ];
      (eexists; split; [reflexivity|]; split; [run_graph; reflexivity|];
       split; [unfold input_value; run_graph; reflexivity | reflexivity]).
  - intros Hinit. simpl in Hinit.
    destruct Hinit as [ <- | [ <- | [ <- | Hf ] ] ]; try contradiction;
      destruct Hdof as [ -> | [ -> | -> ] ];
      (eexists; split; [reflexivity|]; split; [run_graph; reflexivity|];
       split; [unfold input_value; run_graph; reflexivity | reflexivity]).
Qed.

Lemma init_bbreg_wf_fixed_use_bbr_witness :
  exists wf,
    init_bbreg_wf (Some false) 6 "t1w" "bbr_wf" = Ok wf /\
    run transform_files (_calc_norm_affine face_midpoints) registration_outputs
        converted_outputs other_functions wf "outputnode" "fallback" = Ok (VBool true) /\
    input_value transform_files (_calc_norm_affine face_midpoints) registration_outputs
        converted_outputs other_functions wf "merge_ltas" "in1" = Ok (VStr "coreg.lta") /\
    has_node "bbregister" (wf_nodes wf) = false.
Proof.
  apply (proj1 (@init_bbreg_wf_fixed_use_bbr transform_files unit
                  (_calc_norm_affine face_midpoints) registration_outputs
                  converted_outputs other_functions 6%Z "t1w" "bbr_wf"
                  "bbr.lta" "coreg.lta" (or_introl eq_refl) eq_refl eq_refl)
               (or_introl eq_refl)).
Defined.

(** X11. [init_fsl_bbr_wf] with [use_bbr] fixed (lines 779-843).  With
    [use_bbr = False] the rigid transform of [lta_to_fsl] reaches both ITK
    conversions ([fsl2itk_fwd] directly, [fsl2itk_inv] through
    [invt_bbr]), [fallback] is [True], there is no FLIRT-BBR node, and
    [sloppy] changes nothing.  With [use_bbr = True] the FLIRT-BBR matrix
    reaches both and [fallback] is [False]. *)
Theorem init_fsl_bbr_wf_fixed_use_bbr :
  forall (load_transform : string -> result mat4) (D : Type)
         (calc_norm_affine : list mat4 -> bool -> list R * D)
         (tool_output : string -> string -> value)
         (map_tool_output : string -> string -> value -> value)
         (function_output : pyfunction -> string -> value)
         (fsldir_schedule : option string) (packaged_schedule : string)
         (dof : Z) (init name bbr base : string) (sloppy : bool),
    (dof = 6 \/ dof = 9 \/ dof = 12)%Z ->
    init = "t1w" \/ init = "t2w" ->
    tool_output "flt_bbr" "out_matrix_file" = VStr bbr ->
    tool_output "lta_to_fsl" "out_fsl" = VStr base ->
    (exists wf,
        init_fsl_bbr_wf fsldir_schedule packaged_schedule (Some false) dof init
                        sloppy name = Ok wf /\
        init_fsl_bbr_wf fsldir_schedule packaged_schedule (Some false) dof init
                        (negb sloppy) name = Ok wf /\
        run load_transform calc_norm_affine tool_output map_tool_output
            function_output wf "outputnode" "fallback" = Ok (VBool true) /\
        input_value load_transform calc_norm_affine tool_output map_tool_output
            function_output wf "fsl2itk_fwd" "transform_file" = Ok (VStr base) /\
        input_value load_transform calc_norm_affine tool_output map_tool_output
            function_output wf "invt_bbr" "in_file" = Ok (VStr base) /\
        incoming "fsl2itk_inv" "transform_file" wf = Some ("invt_bbr", "out_file") /\
        has_node "flt_bbr" (wf_nodes wf) = false) /\
    (exists wf,
        init_fsl_bbr_wf fsldir_schedule packaged_schedule (Some true) dof init
                        sloppy name = Ok wf /\
        run load_transform calc_norm_affine tool_output map_tool_output
            function_output wf "outputnode" "fallback" = Ok (VBool false) /\
        input_value load_transform calc_norm_affine tool_output map_tool_output
            function_output wf "fsl2itk_fwd" "transform_file" = Ok (VStr bbr) /\
        input_value load_transform calc_norm_affine tool_output map_tool_output
            function_output wf "invt_bbr" "in_file" = Ok (VStr bbr) /\
        incoming "fsl2itk_inv" "transform_file" wf = Some ("invt_bbr", "out_file") /\
        has_node "compare_transforms" (wf_nodes wf) = false).
Proof.
  intros load D calc tool_output map_tool_output function_output sched pack
         dof init name bbr base sloppy Hdof Hinit Hbbr Hbase.
  split.
  - destruct Hinit as [ -> | -> ]; destruct Hdof as [ -> | [ -> | -> ] ];
      destruct sloppy;
      (eexists; split; [reflexivity|]; split; [reflexivity|];
       split; [run_graph; reflexivity|];
       split; [unfold input_value; run_graph; reflexivity|];
       split; [unfold input_value; run_graph; reflexivity|];
       split; reflexivity).
  - destruct Hinit as [ -> | -> ]; destruct Hdof as [ -> | [ -> | -> ] ];
      destruct sloppy; destruct sched;
      (eexists; split; [reflexivity|];
       split; [run_graph; reflexivity|];
       split; [unfold input_value; run_graph; reflexivity|];
       split; [unfold input_value; run_graph; reflexivity|];
       split; reflexivity).
Qed.

Lemma init_fsl_bbr_wf_fixed_use_bbr_witness :
  exists wf,
    init_fsl_bbr_wf None "bbr.sch" (Some true) 6 "t1w" true "bbr_wf" = Ok wf /\
    run transform_files (_calc_norm_affine face_midpoints) registration_outputs
        converted_outputs other_functions wf "outputnode" "fallback" = Ok (VBool false) /\
    input_value transform_files (_calc_norm_affine face_midpoints) registration_outputs
        converted_outputs other_functions wf "fsl2itk_fwd" "transform_file"
    = Ok (VStr "bbr.mat") /\
    input_value transform_files (_calc_norm_affine face_midpoints) registration_outputs
        converted_outputs other_functions wf "invt_bbr" "in_file" = Ok (VStr "bbr.mat") /\
    incoming "fsl2itk_inv" "transform_file" wf = Some ("invt_bbr", "out_file") /\
    has_node "compare_transforms" (wf_nodes wf) = false.
Proof.
  apply (proj2 (@init_fsl_bbr_wf_fixed_use_bbr transform_files unit
                  (_calc_norm_affine face_midpoints) registration_outputs
                  converted_outputs other_functions None "bbr.sch" 6%Z "t1w" "bbr_wf"
                  "bbr.mat" "coreg.mat" true (or_introl eq_refl) (or_introl eq_refl)
                  eq_refl eq_refl)).
Defined.

(** X12. What [sloppy] changes in [init_fsl_bbr_wf] (lines 810-831), when
    BBR runs ([use_bbr] not [False]).  In sloppy mode the downsampler
    takes the masked T1w and the white-matter mask, and its two outputs
    are FLIRT-BBR's [reference] and [wm_seg]; otherwise these come straight
    from [mask_t1w_brain] and [wm_mask] and there is no downsampler.  In
    both modes the ITK conversions keep the full-resolution masked T1w as
    their reference. *)
Theorem init_fsl_bbr_wf_sloppy_wiring :
  forall (fsldir_schedule : option string) (packaged_schedule : string)
         (use_bbr : option bool) (dof : Z) (init name : string),
    (dof = 6 \/ dof = 9 \/ dof = 12)%Z ->
    init = "t1w" \/ init = "t2w" ->
    use_bbr <> Some false ->
    (exists wf,
        init_fsl_bbr_wf fsldir_schedule packaged_schedule use_bbr dof init true name
        = Ok wf /\
        incoming "downsample" "in_file" wf = Some ("mask_t1w_brain", "out_file") /\
        incoming "downsample" "in_mask" wf = Some ("wm_mask", "out") /\
        incoming "flt_bbr" "reference" wf = Some ("downsample", "out_file") /\
        incoming "flt_bbr" "wm_seg" wf = Some ("downsample", "out_mask") /\
        incoming "fsl2itk_fwd" "reference_file" wf = Some ("mask_t1w_brain", "out_file") /\
        incoming "fsl2itk_inv" "source_file" wf = Some ("mask_t1w_brain", "out_file")) /\
    (exists wf,
        init_fsl_bbr_wf fsldir_schedule packaged_schedule use_bbr dof init false name
        = Ok wf /\
        has_node "downsample" (wf_nodes wf) = false /\
        incoming "flt_bbr" "reference" wf = Some ("mask_t1w_brain", "out_file") /\
        incoming "flt_bbr" "wm_seg" wf = Some ("wm_mask", "out") /\
        incoming "fsl2itk_fwd" "reference_file" wf = Some ("mask_t1w_brain", "out_file") /\
        incoming "fsl2itk_inv" "source_file" wf = Some ("mask_t1w_brain", "out_file")).
Proof.
  intros sched pack use_bbr dof init name Hdof Hinit Hbbr.
  split;
    destruct Hinit as [ -> | -> ]; destruct Hdof as [ -> | [ -> | -> ] ];
    destruct use_bbr as [[|]|]; try congruence; destruct sched;
    (eexists; split; [reflexivity|]; repeat split; reflexivity).
Qed.

Lemma init_fsl_bbr_wf_sloppy_wiring_witness :
  exists wf,
    init_fsl_bbr_wf None "bbr.sch" None 6 "t1w" true "fsl_bbr_wf" = Ok wf /\
    incoming "downsample" "in_file" wf = Some ("mask_t1w_brain", "out_file") /\
    incoming "downsample" "in_mask" wf = Some ("wm_mask", "out") /\
    incoming "flt_bbr" "reference" wf = Some ("downsample", "out_file") /\
    incoming "flt_bbr" "wm_seg" wf = Some ("downsample", "out_mask") /\
    incoming "fsl2itk_fwd" "reference_file" wf = Some ("mask_t1w_brain", "out_file") /\
    incoming "fsl2itk_inv" "source_file" wf = Some ("mask_t1w_brain", "out_file").
Proof.
  apply (proj1 (@init_fsl_bbr_wf_sloppy_wiring None "bbr.sch" None 6%Z "t1w" "fsl_bbr_wf"
                  (or_introl eq_refl) (or_introl eq_refl) ltac:(discriminate))).
Defined.

Lemma dof_cases (dof : Z) :
  (dof = 6 \/ dof = 9 \/ dof = 12)%Z \/ ~ (dof = 6 \/ dof = 9 \/ dof = 12)%Z.
Proof. lia. Qed.

Lemma init_cases (init : string) :
  In init RegistrationInit \/ ~ In init RegistrationInit.
Proof. destruct (in_dec string_dec init RegistrationInit); [left|right]; assumption. Qed.

(** X13. Every workflow that [init_bbreg_wf] or [init_fsl_bbr_wf] returns
    is consistently wired: each edge leaves an output that its source node
    has and enters an input that its destination node has (for identity,
    merge, select and function nodes, whose ports the repository fixes),
    and no input is driven by two edges. *)
Theorem built_workflows_well_connected :
  forall (fsldir_schedule : option string) (packaged_schedule : string)
         (use_bbr : option bool) (dof : Z) (init name : string) (sloppy : bool)
         (wf : workflow),
    (init_bbreg_wf use_bbr dof init name = Ok wf -> well_connected wf = true) /\
    (init_fsl_bbr_wf fsldir_schedule packaged_schedule use_bbr dof init sloppy name = Ok wf ->
     well_connected wf = true).
Proof.
  intros sched pack use_bbr dof init name sloppy wf.
  destruct (dof_cases dof) as [Hdof|Hdof].
  2:{ split; intros H.
      - unfold init_bbreg_wf in H. rewrite (dof_word_bad Hdof) in H. discriminate H.
      - unfold init_fsl_bbr_wf in H. rewrite (dof_word_bad Hdof) in H. discriminate H. }
  destruct (init_cases init) as [Hinit|Hinit].
  2:{ destruct (dof_word_ok Hdof) as [w Hw]. split; intros H.
      - unfold init_bbreg_wf in H. rewrite Hw in H. cbn [bind] in H.
        rewrite (not_registration_init Hinit) in H. discriminate H.
      - unfold init_fsl_bbr_wf in H. rewrite Hw in H. cbn [bind] in H.
        rewrite (not_registration_init Hinit) in H. discriminate H. }
  simpl in Hinit.
  split; intros H;
    destruct Hinit as [ <- | [ <- | [ <- | Hf ] ] ]; try contradiction;
    destruct Hdof as [ -> | [ -> | -> ] ];
    destruct use_bbr as [[|]|]; try destruct sloppy; try destruct sched;
    try discriminate H;
    (injection H as <-; reflexivity).
Qed.

Lemma built_workflows_well_connected_witness :
  exists wf : workflow,
    init_bbreg_wf None 6 "t1w" "bbreg_wf" = Ok wf /\ well_connected wf = true.
Proof.
  eexists. split; [reflexivity|].
  apply (proj1 (@built_workflows_well_connected None "bbr.sch" None 6%Z "t1w" "bbreg_wf"
                  false _)).
  reflexivity.
Defined.

(* ================================================================== *)
(** * Properties of [init_bold_reg_wf] *)
(* ================================================================== *)

(** X14. What [init_bold_reg_wf] returns.  Without FreeSurfer it calls
    [init_fsl_bbr_wf] without the required [omp_nthreads] and fails with
    [TypeError], whatever the other arguments.  With FreeSurfer it fails
    as [init_bbreg_wf] does, and otherwise returns a workflow: no port is
    reported missing, since the ports of an identity node are not looked
    up.  In that workflow the three anatomical inputs of the registration
    workflow are driven by outputs [t1w_preproc], [t1w_mask] and
    [t1w_dseg] of the input node, which declares none of them; the
    outputs [anat_preproc], [anat_mask] and [anat_dseg] that it does
    declare drive nothing. *)
Theorem init_bold_reg_wf_unfed_anatomy :
  forall (fsldir_schedule : option string) (packaged_schedule : string)
         (freesurfer : bool) (use_bbr : option bool) (dof : Z) (init name : string)
         (sloppy : bool),
    (freesurfer = false ->
     init_bold_reg_wf fsldir_schedule packaged_schedule
                      freesurfer use_bbr dof init name sloppy = Err TypeError) /\
    (freesurfer = true ->
     (forall e,
         init_bbreg_wf use_bbr dof init "bbreg_wf" = Err e ->
         init_bold_reg_wf fsldir_schedule packaged_schedule
                          freesurfer use_bbr dof init name sloppy = Err e) /\
     (forall bbr_wf,
         init_bbreg_wf use_bbr dof init "bbreg_wf" = Ok bbr_wf ->
         not_found (bold_reg_connections bbr_wf) = [] /\
         exists wf,
           init_bold_reg_wf fsldir_schedule packaged_schedule
                            freesurfer use_bbr dof init name sloppy = Ok wf /\
           wf_name wf = name /\
           incoming "bbreg_wf.inputnode" "t1w_preproc" wf = Some ("inputnode", "t1w_preproc") /\
           incoming "bbreg_wf.inputnode" "t1w_mask" wf = Some ("inputnode", "t1w_mask") /\
           incoming "bbreg_wf.inputnode" "t1w_dseg" wf = Some ("inputnode", "t1w_dseg") /\
           find_node "inputnode" wf = Some bold_reg_inputnode /\
           has_output bold_reg_inputnode "t1w_preproc" = false /\
           has_output bold_reg_inputnode "t1w_mask" = false /\
           has_output bold_reg_inputnode "t1w_dseg" = false /\
           outgoing "inputnode" "anat_preproc" wf = [] /\
           outgoing "inputnode" "anat_mask" wf = [] /\
           outgoing "inputnode" "anat_dseg" wf = [])).
Proof.
  intros sched pack freesurfer use_bbr dof init name sloppy.
  split; [intros ->; reflexivity|].
  intros ->.
  assert (Hcall : init_bold_reg_wf sched pack true use_bbr dof init name sloppy
                  = bind (init_bbreg_wf use_bbr dof init "bbreg_wf")
                         (fun bbr_wf =>
                            connect_checked (bold_reg_connections bbr_wf)
                                            (Workflow name [] []))).
  { reflexivity. }
  split.
  - intros e He. rewrite Hcall, He. reflexivity.
  - intros bbr_wf Hb. rewrite Hcall, Hb. cbn [bind].
    destruct (dof_cases dof) as [Hdof|Hdof].
    2:{ unfold init_bbreg_wf in Hb. rewrite (dof_word_bad Hdof) in Hb. discriminate Hb. }
    destruct (init_cases init) as [Hinit|Hinit].
    2:{ destruct (dof_word_ok Hdof) as [w Hw].
        unfold init_bbreg_wf in Hb. rewrite Hw in Hb. cbn [bind] in Hb.
        rewrite (not_registration_init Hinit) in Hb. discriminate Hb. }
    simpl in Hinit.
    destruct Hinit as [ <- | [ <- | [ <- | Hf ] ] ]; try contradiction;
      destruct Hdof as [ -> | [ -> | -> ] ];
      destruct use_bbr as [[|]|]; try discriminate Hb;
      (injection Hb as <-;
       split; [lazy; reflexivity|];
       eexists; split; [lazy; reflexivity|];
       repeat split; lazy; reflexivity).
Qed.

Lemma init_bold_reg_wf_unfed_anatomy_witness :
  init_bold_reg_wf None "bbr.sch" false None 6 "t1w" "bold_reg_wf" false = Err TypeError /\
  init_bold_reg_wf None "bbr.sch" true None 7 "t1w" "bold_reg_wf" false = Err KeyError /\
  exists wf,
    init_bold_reg_wf None "bbr.sch" true None 6 "t1w" "bold_reg_wf" false = Ok wf /\
    incoming "bbreg_wf.inputnode" "t1w_preproc" wf = Some ("inputnode", "t1w_preproc") /\
    has_output bold_reg_inputnode "t1w_preproc" = false /\
    outgoing "inputnode" "anat_preproc" wf = [].
Proof.
  destruct (@init_bold_reg_wf_unfed_anatomy None "bbr.sch" false None 6%Z "t1w"
              "bold_reg_wf" false) as [H1 _].
  destruct (@init_bold_reg_wf_unfed_anatomy None "bbr.sch" true None 7%Z "t1w"
              "bold_reg_wf" false) as [_ H2].
  destruct (@init_bold_reg_wf_unfed_anatomy None "bbr.sch" true None 6%Z "t1w"
              "bold_reg_wf" false) as [_ H3].
  split; [exact (H1 eq_refl)|].
  split; [exact (proj1 (H2 eq_refl) KeyError eq_refl)|].
  destruct (init_bbreg_wf None 6 "t1w" "bbreg_wf") as [w|e] eqn:E; [|discriminate E].
  destruct (proj2 (H3 eq_refl) w eq_refl)
    as [_ [wf [Hwf [_ [Hin [_ [_ [_ [Hout [_ [_ [Hanat _]]]]]]]]]]]].
  exists wf. split; [exact Hwf|]. split; [exact Hin|]. split; [exact Hout | exact Hanat].
Defined.

(* ================================================================== *)
(** * Properties of [parse_roi_labels] and [format_volume_rois] *)
(* ================================================================== *)

Lemma pairs_ind (A : Type) (P : list A -> Prop) :
  P [] -> (forall a, P [a]) -> (forall a b l, P l -> P (a :: b :: l)) ->
  forall l, P l.
Proof.
  intros H0 H1 H2.
  assert (H : forall l, P l /\ forall a, P (a :: l)).
  { induction l as [|b l [IH1 IH2]]; split; auto. }
  intros l. apply H.
Qed.

Lemma parse_loop (lines : list string) :
  forall (k : nat) (structs ids : list string),
    Nat.even k = true ->
    fold_left parse_step (combine (seq k (List.length lines)) lines) (structs, ids)
    = ((structs ++ map py_strip (evens lines))%list,
       (ids ++ map before_space (odds lines))%list).
Proof.
  induction lines as [|a|a b lines IH] using pairs_ind; intros k structs ids Hk.
  - simpl. rewrite !app_nil_r. reflexivity.
  - assert (Hm : k mod 2 = 0%nat).
    { apply Nat.even_spec in Hk. destruct Hk as [m ->].
      rewrite Nat.mul_comm. apply Nat.Div0.mod_mul. }
    cbn [List.length seq combine fold_left]. unfold parse_step.
    rewrite Hm. cbn [Nat.eqb]. unfold odds. cbn [evens tl map].
    rewrite app_nil_r. reflexivity.
  - assert (Hm : k mod 2 = 0%nat).
    { apply Nat.even_spec in Hk. destruct Hk as [m ->].
      rewrite Nat.mul_comm. apply Nat.Div0.mod_mul. }
    assert (Hm1 : S k mod 2 = 1%nat).
    { apply Nat.even_spec in Hk. destruct Hk as [m ->].
      replace (S (2 * m)) with (1 + m * 2)%nat by lia.
      rewrite Nat.Div0.mod_add. reflexivity. }
    cbn [List.length seq combine fold_left]. unfold parse_step at 2 3.
    rewrite Hm, Hm1. cbn [Nat.eqb].
    rewrite IH by (rewrite !Nat.even_succ, <- Nat.negb_even, Nat.even_succ,
                     <- Nat.negb_even, Hk; reflexivity).
    unfold odds. cbn [evens tl map]. rewrite <- !app_assoc.
    destruct lines; reflexivity.
Qed.

Lemma evens_odds_length (A : Type) (l : list A) :
  Nat.even (List.length l) = true ->
  List.length (evens l) = Nat.div2 (List.length l) /\
  List.length (odds l) = Nat.div2 (List.length l).
Proof.
  induction l as [|a|a b l IH] using pairs_ind; intros H.
  - split; reflexivity.
  - discriminate H.
  - destruct (IH H) as [H1 H2].
    unfold odds in *. cbn [evens tl List.length Nat.div2] in *.
    split; f_equal; [exact H1|].
    destruct l as [|c l]; [reflexivity|]. cbn [tl] in H2. exact H2.
Qed.

Lemma before_space_no_space (s : string) (c : ascii) :
  In c (list_ascii_of_string (before_space s)) -> c <> space.
Proof.
  induction s as [|d s IH]; simpl; [contradiction|].
  destruct (Ascii.eqb d space) eqn:E; simpl; [contradiction|].
  intros [<-|H]; [|apply IH, H].
  apply Ascii.eqb_neq, E.
Qed.

(** X15. What [parse_roi_labels] returns.  A missing file and a file
    with an odd number of lines are refused ([RuntimeError] for the
    latter); a file with an even number of lines gives the stripped lines
    at even positions as structure names and, as label ids, the text
    before the first space of the lines at odd positions: as many ids as
    names, half the number of lines each, and no id contains a space. *)
Theorem parse_roi_labels_result :
  forall (label_files : string -> option (list string)) (label_file : string),
    (label_files label_file = None ->
     parse_roi_labels label_files label_file = Raised_FileNotFoundError) /\
    (forall lines,
        label_files label_file = Some lines ->
        Nat.odd (List.length lines) = true ->
        parse_roi_labels label_files label_file = Raised_RuntimeError) /\
    (forall lines,
        label_files label_file = Some lines ->
        Nat.even (List.length lines) = true ->
        parse_roi_labels label_files label_file
        = Labels (map py_strip (evens lines)) (map before_space (odds lines)) /\
        List.length (map py_strip (evens lines)) = Nat.div2 (List.length lines) /\
        List.length (map before_space (odds lines)) = Nat.div2 (List.length lines) /\
        forall id c, In id (map before_space (odds lines)) ->
                     In c (list_ascii_of_string id) -> c <> space).
Proof.
  intros files f. split; [|split].
  - intros H. unfold parse_roi_labels. rewrite H. reflexivity.
  - intros lines H Hodd. unfold parse_roi_labels. rewrite H.
    apply Nat.odd_spec in Hodd. destruct Hodd as [m Hm].
    rewrite Hm. replace (2 * m + 1)%nat with (1 + m * 2)%nat by lia.
    rewrite Nat.Div0.mod_add. reflexivity.
  - intros lines H Heven. unfold parse_roi_labels. rewrite H.
    assert (Hmod : List.length lines mod 2 = 0%nat).
    { apply Nat.even_spec in Heven. destruct Heven as [m ->].
      rewrite Nat.mul_comm. apply Nat.Div0.mod_mul. }
    rewrite Hmod. cbn [Nat.eqb]. unfold enumerate.
    rewrite parse_loop by reflexivity. cbn [app].
    split; [reflexivity|].
    rewrite !length_map.
    destruct (evens_odds_length lines Heven) as [H1 H2].
    split; [exact H1|]. split; [exact H2|].
    intros id c Hid Hc. apply in_map_iff in Hid. destruct Hid as [line [<- _]].
    eapply before_space_no_space, Hc.
Qed.

Lemma parse_roi_labels_result_witness :
  parse_roi_labels label_tables "missing.txt" = Raised_FileNotFoundError /\
  parse_roi_labels label_tables "cut.txt" = Raised_RuntimeError /\
  parse_roi_labels label_tables "labels.txt"
  = Labels ["CEREBELLUM_LEFT"; "THALAMUS_LEFT"] ["8"; "10"].
Proof.
  destruct (parse_roi_labels_result label_tables "missing.txt") as [H1 _].
  destruct (parse_roi_labels_result label_tables "cut.txt") as [_ [H2 _]].
  destruct (parse_roi_labels_result label_tables "labels.txt") as [_ [_ H3]].
  split; [exact (H1 eq_refl)|]. split; [exact (H2 _ eq_refl eq_refl)|].
  exact (proj1 (H3 _ eq_refl eq_refl)).
Defined.

Lemma py_rstrip_newline (s : string) : py_rstrip (s ++ newline) = py_rstrip s.
Proof.
  induction s as [|c s IH]; [reflexivity|].
  cbn [append py_rstrip]. rewrite IH. reflexivity.
Qed.

Lemma py_strip_newline (s : string) : py_strip (s ++ newline) = py_strip s.
Proof.
  unfold py_strip. induction s as [|c s IH]; [reflexivity|].
  cbn [append py_lstrip]. destruct (py_isspace c); [exact IH|].
  change (String c (s ++ newline)) with (String c s ++ newline).
  apply py_rstrip_newline.
Qed.

Lemma before_space_key (key rest : string) :
  before_space key = key -> before_space (key ++ String space rest) = key.
Proof.
  induction key as [|c key IH]; intros H.
  - cbn [append before_space]. rewrite Ascii.eqb_refl. reflexivity.
  - cbn [append before_space] in *. destruct (Ascii.eqb c space); [discriminate H|].
    injection H as H. rewrite IH by exact H. reflexivity.
Qed.

Lemma label_file_lines_evens_odds (entries : list (string * string * string)) :
  evens (label_file_lines entries)
  = map (fun e : string * string * string => fst (fst e) ++ newline) entries /\
  odds (label_file_lines entries)
  = map (fun e : string * string * string =>
           snd (fst e) ++ String space (snd e ++ newline)) entries /\
  Nat.even (List.length (label_file_lines entries)) = true.
Proof.
  induction entries as [|[[name key] colours] entries [IH1 [IH2 IH3]]].
  - repeat split.
  - unfold odds in *. cbn [label_file_lines flat_map app evens tl map fst snd List.length].
    fold (label_file_lines entries).
    split; [f_equal; exact IH1|]. split; [|exact IH3].
    f_equal. destruct (label_file_lines entries) eqn:E.
    + destruct entries as [|[[n k] c] es]; [reflexivity | discriminate E].
    + exact IH2.
Qed.

(** X16. On a label table in the format of the docstring, whose names
    have no white space at either end and whose keys hold no space,
    [parse_roi_labels] returns the names and the keys, in the order of the
    table. *)
Theorem parse_roi_labels_documented_format :
  forall (label_files : string -> option (list string)) (label_file : string)
         (entries : list (string * string * string)),
    label_files label_file = Some (label_file_lines entries) ->
    (forall name key colours,
        In (name, key, colours) entries ->
        py_strip name = name /\ before_space key = key) ->
    parse_roi_labels label_files label_file
    = Labels (map (fun e : string * string * string => fst (fst e)) entries)
             (map (fun e : string * string * string => snd (fst e)) entries).
Proof.
  intros files f entries Hfile Hclean.
  destruct (label_file_lines_evens_odds entries) as [He [Ho Hlen]].
  unfold parse_roi_labels. rewrite Hfile.
  assert (Hmod : List.length (label_file_lines entries) mod 2 = 0%nat).
  { apply Nat.even_spec in Hlen. destruct Hlen as [m ->].
    rewrite Nat.mul_comm. apply Nat.Div0.mod_mul. }
  rewrite Hmod. cbn [Nat.eqb]. unfold enumerate.
  rewrite parse_loop by reflexivity. cbn [app].
  rewrite He, Ho, !map_map. f_equal.
  - apply map_ext_in. intros [[name key] colours] Hin. cbn [fst snd].
    rewrite py_strip_newline. apply (Hclean name key colours Hin).
  - apply map_ext_in. intros [[name key] colours] Hin. cbn [fst snd].
    apply before_space_key. apply (Hclean name key colours Hin).
Qed.

Lemma parse_roi_labels_documented_format_witness :
  parse_roi_labels label_tables "labels.txt"
  = Labels ["CEREBELLUM_LEFT"; "THALAMUS_LEFT"] ["8"; "10"].
Proof.
  apply (@parse_roi_labels_documented_format label_tables "labels.txt"
           docstring_entries eq_refl).
  intros name key colours Hin. simpl in Hin.
  destruct Hin as [H|[H|[]]]; injection H as <- <- <-; split; reflexivity.
Defined.

(** X17. [format_volume_rois] pairs the structures with the ROI files in
    order and stops at the shorter list without any error: the names of
    the result are the first [len(rois)] structures, its files the first
    [len(structs)] ROI files, and what is left over of the longer list is
    dropped. *)
Theorem format_volume_rois_truncates :
  forall (A B : Type) (structs : list A) (rois : list B),
    map fst (format_volume_rois structs rois) = firstn (List.length rois) structs /\
    map snd (format_volume_rois structs rois) = firstn (List.length structs) rois /\
    List.length (format_volume_rois structs rois)
    = Nat.min (List.length structs) (List.length rois).
Proof.
  intros A B structs. unfold format_volume_rois.
  induction structs as [|a structs IH]; intros rois.
  - destruct rois; repeat split; reflexivity.
  - destruct rois as [|b rois]; [repeat split; reflexivity|].
    destruct (IH rois) as [H1 [H2 H3]].
    cbn [combine map fst snd List.length firstn Nat.min].
    rewrite H1, H2, H3. repeat split; reflexivity.
Qed.

(* ================================================================== *)
(** * Properties of [MCRIBReconAll] *)
(* ================================================================== *)

Lemma path_eqb_refl (p : path) : path_eqb p p = true.
Proof. induction p as [|a p IH]; simpl; [reflexivity|]. rewrite String.eqb_refl. exact IH. Qed.

Lemma eqb_length_neq (a b : string) :
  String.length a <> String.length b -> String.eqb a b = false.
Proof. intros H. apply String.eqb_neq. intros ->. apply H. reflexivity. Qed.

Lemma length_append (a b : string) :
  String.length (a ++ b) = (String.length a + String.length b)%nat.
Proof. induction a as [|c a IH]; simpl; [reflexivity | rewrite IH; reflexivity]. Qed.

Lemma suffixed_not_dot (sid suffix dots : string) :
  (String.length dots < String.length suffix)%nat ->
  String.eqb (sid ++ suffix) dots = false.
Proof. intros H. apply eqb_length_neq. rewrite length_append. lia. Qed.

Lemma put_lookup (p q : path) (e : entry) (t : tree) :
  put p e t q = if path_eqb q p then Some e else t q.
Proof. reflexivity. Qed.

Lemma bind_ok (A B : Type) (m : fsop A) (k : A -> fsop B) (t t' : tree) (a : A) :
  m t = (Ok a, t') -> fs_bind m k t = k a t'.
Proof. intros H. unfold fs_bind. rewrite H. reflexivity. Qed.

Lemma bind_err (A B : Type) (m : fsop A) (k : A -> fsop B) (t t' : tree) (e : exn) :
  m t = (Err e, t') -> fs_bind m k t = (Err e, t').
Proof. intros H. unfold fs_bind. rewrite H. reflexivity. Qed.

(** ** Rules of the tree operations *)

Lemma walk_here (n : nat) (t : tree) (cur : path) :
  t cur = Some Dir -> walk (S n) t cur [] = Found cur Dir.
Proof. intros H. cbn [walk]. rewrite H. reflexivity. Qed.

Lemma walk_up (n : nat) (t : tree) (cur rest : path) :
  t cur = Some Dir -> cur <> [] ->
  walk (S n) t cur (".." :: rest) = walk n t (removelast cur) rest.
Proof.
  intros H Hc. cbn [walk]. rewrite H.
  destruct cur; [contradiction|reflexivity].
Qed.

Lemma walk_name (n : nat) (t : tree) (cur rest : path) (c : string) :
  t cur = Some Dir -> String.eqb c "." = false -> String.eqb c ".." = false ->
  walk (S n) t cur (c :: rest) =
  match t (cur ++ [c])%list with
  | None => match rest with [] => Missing (cur ++ [c])%list | _ :: _ => Broken end
  | Some Dir => walk n t (cur ++ [c])%list rest
  | Some (File x) =>
    match rest with [] => Found (cur ++ [c])%list (File x) | _ :: _ => Broken end
  | Some (Symlink target) => walk n t cur (target ++ rest)%list
  end.
Proof. intros H H1 H2. cbn [walk]. rewrite H, H1, H2. reflexivity. Qed.

Lemma mkdirs_nil (t : tree) (cur : path) : mkdirs t cur [] = (Ok tt, t).
Proof. reflexivity. Qed.

Lemma mkdirs_new (t : tree) (cur rest : path) (c : string) :
  t (cur ++ [c])%list = None ->
  mkdirs t cur (c :: rest) = mkdirs (put (cur ++ [c])%list Dir t) (cur ++ [c])%list rest.
Proof. intros H. cbn [mkdirs]. rewrite H. reflexivity. Qed.

Lemma mkdirs_old (t : tree) (cur rest : path) (c : string) :
  t (cur ++ [c])%list = Some Dir ->
  mkdirs t cur (c :: rest) = mkdirs t (cur ++ [c])%list rest.
Proof. intros H. cbn [mkdirs]. rewrite H. reflexivity. Qed.

Lemma mkdir_parents_dir (p : path) (t : tree) :
  t [] = Some Dir -> mkdir_parents p t = mkdirs t [] p.
Proof. intros H. unfold mkdir_parents. rewrite H. reflexivity. Qed.

Lemma mkdir_parents_absent (p : path) (t : tree) :
  t [] = None -> mkdir_parents p t = mkdirs (put [] Dir t) [] p.
Proof. intros H. unfold mkdir_parents. rewrite H. reflexivity. Qed.

Lemma symlink_new (p target d : path) (t : tree) :
  walk link_limit t [] (removelast p) = Found d Dir ->
  t (d ++ [last p EmptyString])%list = None ->
  symlink_to p target t =
  (Ok tt, put (d ++ [last p EmptyString])%list (Symlink target) t).
Proof. intros Hw H. unfold symlink_to. rewrite Hw, H. reflexivity. Qed.

Lemma symlink_taken (p target d : path) (t : tree) (e : entry) :
  walk link_limit t [] (removelast p) = Found d Dir ->
  t (d ++ [last p EmptyString])%list = Some e ->
  symlink_to p target t = (Err (External "FileExistsError"), t).
Proof. intros Hw H. unfold symlink_to. rewrite Hw, H. reflexivity. Qed.

Lemma copy_new (input_files : string -> option string) (f content : string)
    (dst q : path) (t : tree) :
  input_files f = Some content ->
  walk link_limit t [] dst = Missing q ->
  copy input_files (Some f) dst t = (Ok tt, put q (File content) t).
Proof. intros Hf Hw. unfold copy. rewrite Hf, Hw. reflexivity. Qed.

Lemma exists_found (p q : path) (e : entry) (t : tree) :
  walk link_limit t [] p = Found q e -> path_exists p t = true.
Proof. intros H. unfold path_exists. rewrite H. reflexivity. Qed.

Lemma exists_missing (p q : path) (t : tree) :
  walk link_limit t [] p = Missing q -> path_exists p t = false.
Proof. intros H. unfold path_exists. rewrite H. reflexivity. Qed.

Lemma exists_broken (p : path) (t : tree) :
  walk link_limit t [] p = Broken -> path_exists p t = false.
Proof. intros H. unfold path_exists. rewrite H. reflexivity. Qed.

Lemma when_true (m : fsop unit) (t : tree) : when true m t = m t.
Proof. reflexivity. Qed.

Lemma when_false (m : fsop unit) (t : tree) : when false m t = (Ok tt, t).
Proof. reflexivity. Qed.

Lemma plain_name_not_dots (s : string) :
  plain_name s = true -> String.eqb s "." = false /\ String.eqb s ".." = false.
Proof.
  unfold plain_name. intros H.
  apply andb_prop in H. destruct H as [H _].
  apply andb_prop in H. destruct H as [H H2].
  apply andb_prop in H. destruct H as [_ H1].
  apply negb_true_iff in H1, H2. split; assumption.
Qed.

(** ** Evaluation of the operations on a tree given by its look-ups *)

(** Comparisons of names. *)
Ltac names :=
  repeat first
    [ rewrite String.eqb_refl
    | match goal with
      | H : String.eqb ?a ?b = false |- context [String.eqb ?a ?b] => rewrite H
      | H : String.eqb ?a ?b = false |- context [String.eqb ?b ?a] =>
        rewrite (String.eqb_sym b a), H
      end
    | progress cbn [andb negb String.eqb Ascii.eqb Bool.eqb String.append] ].

(** Neither [.] nor [..]. *)
Ltac name_ok :=
  first [ assumption | reflexivity | apply suffixed_not_dot; simpl; lia ].

(** [T q = ?] for a tree [T] made of [put]s over one known by hypotheses. *)
Ltac lookup :=
  cbn [app removelast last];
  lazymatch goal with
  | |- put _ _ _ _ = _ => rewrite put_lookup; cbn [path_eqb]; names; lookup
  | |- Some _ = _ => reflexivity
  | |- None = _ => reflexivity
  | |- _ =>
    match goal with
    | H : ?l = _ |- ?l = _ => exact H
    | H : forall p, ?t (_ :: p) = None |- ?t (_ :: _) = _ => apply H
    end
  end.

(** [walk n T cur rest = ?]. *)
Ltac walk_eval :=
  cbn [app removelast last];
  lazymatch goal with
  | |- walk (S _) _ _ [] = _ => apply walk_here; lookup
  | |- walk (S _) _ _ (".." :: _) = _ =>
    rewrite walk_up by first [ lookup | discriminate ]; walk_eval
  | |- walk (S _) _ _ (_ :: _) = _ =>
    rewrite walk_name by first [ lookup | name_ok ];
    lazymatch goal with
    | |- match ?X with _ => _ end = _ =>
      let H := fresh "Hlook" in
      eassert (H : X = _) by lookup; rewrite H; clear H
    end;
    cbv beta iota;
    lazymatch goal with
    | |- walk _ _ _ _ = _ => walk_eval
    | |- _ => reflexivity
    end
  end.

(** [path_exists p T = ?]. *)
Ltac exists_eval :=
  lazymatch goal with
  | |- path_exists ?p ?T = _ =>
    let H := fresh "Hwalk" in
    eassert (H : walk link_limit T [] p = _) by (unfold link_limit; walk_eval);
    lazymatch type of H with
    | _ = Found _ _ => rewrite (@exists_found p _ _ T H)
    | _ = Missing _ => rewrite (@exists_missing p _ T H)
    | _ = Broken => rewrite (@exists_broken p T H)
    end;
    clear H; reflexivity
  end.

(** [mkdirs T cur rest = ?]. *)
Ltac mkdirs_eval :=
  lazymatch goal with
  | |- mkdirs _ _ [] = _ => rewrite mkdirs_nil; reflexivity
  | |- mkdirs ?T ?cur (?c :: _) = _ =>
    let H := fresh "Hlook" in
    eassert (H : T (cur ++ [c])%list = _) by lookup;
    lazymatch type of H with
    | _ = None => rewrite (@mkdirs_new T cur _ c H)
    | _ = Some Dir => rewrite (@mkdirs_old T cur _ c H)
    end;
    clear H; cbn [app]; mkdirs_eval
  end.

(** [m T = ?] for an operation [m]. *)
Ltac fs_run :=
  cbv beta;
  lazymatch goal with
  | |- fs_bind ?m ?k ?T = _ =>
    let H := fresh "Hstep" in
    eassert (H : m T = _) by fs_run;
    lazymatch type of H with
    | _ = (Ok _, _) => rewrite (@bind_ok _ _ _ k _ _ _ H); clear H; fs_run
    | _ = (Err _, _) => rewrite (@bind_err _ _ _ k _ _ _ H); clear H; reflexivity
    end
  | |- when true _ _ = _ => rewrite when_true; fs_run
  | |- when false _ _ = _ => rewrite when_false; reflexivity
  | |- when (negb (path_exists ?p ?T)) _ _ = _ =>
    let H := fresh "Hcond" in
    eassert (H : path_exists p T = _) by exists_eval;
    rewrite H; clear H; cbn [negb]; fs_run
  | |- fs_ret _ _ = _ => unfold fs_ret; reflexivity
  | |- fs_raise _ _ = _ => unfold fs_raise; reflexivity
  | |- mkdir_parents ?p ?T = _ =>
    let H := fresh "Hlook" in
    eassert (H : T [] = _) by lookup;
    lazymatch type of H with
    | _ = None => rewrite (@mkdir_parents_absent p T H)
    | _ = Some Dir => rewrite (@mkdir_parents_dir p T H)
    end;
    clear H; mkdirs_eval
  | |- symlink_to ?p ?target ?T = _ =>
    let Hw := fresh "Hwalk" in
    let H := fresh "Hlook" in
    eassert (Hw : walk link_limit T [] (removelast p) = _)
      by (unfold link_limit; walk_eval);
    lazymatch type of Hw with
    | _ = Found ?d Dir =>
      eassert (H : T (d ++ [last p EmptyString])%list = _) by lookup;
      lazymatch type of H with
      | _ = None => rewrite (@symlink_new p target _ T Hw H)
      | _ = Some _ => rewrite (@symlink_taken p target _ T _ Hw H)
      end
    end;
    clear Hw H; cbn [app last]; reflexivity
  | |- copy ?files (Some ?f) ?dst ?T = _ =>
    let Hw := fresh "Hwalk" in
    eassert (Hw : walk link_limit T [] dst = _) by (unfold link_limit; walk_eval);
    lazymatch goal with
    | Hf : files f = Some _ |- _ => rewrite (@copy_new files f _ dst _ T Hf Hw)
    end;
    clear Hw; cbn [app]; reflexivity
  end.

(** The cases of a subject named like one of the directories. *)
Ltac name_cases sid names :=
  lazymatch names with
  | nil => idtac
  | cons ?n ?rest =>
    let E := fresh "E" in
    destruct (String.eqb sid n) eqn:E;
    [ apply String.eqb_eq in E; subst sid | name_cases sid rest ]
  end.

(** X18: on a tree with nothing of the subject in it, and with no
    [RawT2] next to the subject directories, the set-up without [conform]
    and without a segmentation succeeds and copies the T2w image, but both
    links it makes lead nowhere: their targets climb one directory too far,
    to [RawT2] in the MCRIBS directory itself. *)
Theorem setup_links_dangle (input_files : string -> option string) (ins : inputs)
    (sid t2w content d : string) (t : tree) :
  subject_id ins = Some sid -> t2w_file ins = Some t2w ->
  truthy_bool (conform ins) = false ->
  truthy_str (segmentation_file ins) = false ->
  input_files t2w = Some content ->
  plain_name sid = true ->
  (t [] = None \/ t [] = Some Dir) ->
  (forall p, t (sid :: p) = None) ->
  t ["RawT2"] = None ->
  exists t',
    _setup_directory_structure input_files ins (AsPath d) t = (Ok tt, t') /\
    t' [sid; "RawT2"; sid ++ ".nii.gz"] = Some (File content) /\
    t' [sid; "RawT2RadiologicalIsotropic"; sid ++ ".nii.gz"] =
      Some (Symlink [".."; ".."; "RawT2"; sid ++ ".nii.gz"]) /\
    t' [sid; sid; "N4"; sid ++ ".nii.gz"] =
      Some (Symlink [".."; ".."; ".."; "RawT2"; sid ++ ".nii.gz"]) /\
    path_exists [sid; "RawT2"; sid ++ ".nii.gz"] t' = true /\
    path_exists [sid; "RawT2RadiologicalIsotropic"; sid ++ ".nii.gz"] t' = false /\
    path_exists [sid; sid; "N4"; sid ++ ".nii.gz"] t' = false.
Proof.
  intros Hsid Ht2w Hconform Hseg Hin Hname Hroot Hfresh Hraw.
  destruct (plain_name_not_dots _ Hname) as [Hdot Hdotdot].
  unfold _setup_directory_structure.
  rewrite Hsid, Ht2w, Hconform, Hseg.
  cbn [truediv negb sub app removelast last].
  clear Hsid Ht2w Hconform Hseg Hname.
  destruct Hroot as [Hroot|Hroot];
    name_cases sid ["RawT2"; "RawT2RadiologicalIsotropic"];
    (eexists; split; [ fs_run | repeat split; first [ lookup | exists_eval ] ]).
Qed.

Lemma setup_links_dangle_witness :
  exists t',
    _setup_directory_structure mcribs_files mcribs_inputs (AsPath "/work/mcribs")
      empty_tree = (Ok tt, t') /\
    t' ["sub-01"; "RawT2"; "sub-01" ++ ".nii.gz"] = Some (File "T2w voxels") /\
    t' ["sub-01"; "RawT2RadiologicalIsotropic"; "sub-01" ++ ".nii.gz"] =
      Some (Symlink [".."; ".."; "RawT2"; "sub-01" ++ ".nii.gz"]) /\
    t' ["sub-01"; "sub-01"; "N4"; "sub-01" ++ ".nii.gz"] =
      Some (Symlink [".."; ".."; ".."; "RawT2"; "sub-01" ++ ".nii.gz"]) /\
    path_exists ["sub-01"; "RawT2"; "sub-01" ++ ".nii.gz"] t' = true /\
    path_exists ["sub-01"; "RawT2RadiologicalIsotropic"; "sub-01" ++ ".nii.gz"] t'
      = false /\
    path_exists ["sub-01"; "sub-01"; "N4"; "sub-01" ++ ".nii.gz"] t' = false.
Proof.
  apply (@setup_links_dangle mcribs_files mcribs_inputs "sub-01"
           "/data/sub-01_T2w.nii.gz" "T2w voxels" "/work/mcribs" empty_tree);
    first [ reflexivity | left; reflexivity | intros; reflexivity ].
Defined.

(** X19: under the same conditions a second set-up on the tree that the
    first one left raises [FileExistsError] and changes nothing: the link
    to nothing does not [exists()], so it is made again. *)
Theorem setup_rerun_fails (input_files : string -> option string) (ins : inputs)
    (sid t2w content d : string) (t : tree) :
  subject_id ins = Some sid -> t2w_file ins = Some t2w ->
  truthy_bool (conform ins) = false ->
  truthy_str (segmentation_file ins) = false ->
  input_files t2w = Some content ->
  plain_name sid = true ->
  (t [] = None \/ t [] = Some Dir) ->
  (forall p, t (sid :: p) = None) ->
  t ["RawT2"] = None ->
  exists t',
    _setup_directory_structure input_files ins (AsPath d) t = (Ok tt, t') /\
    _setup_directory_structure input_files ins (AsPath d) t' =
      (Err (External "FileExistsError"), t').
Proof.
  intros Hsid Ht2w Hconform Hseg Hin Hname Hroot Hfresh Hraw.
  destruct (plain_name_not_dots _ Hname) as [Hdot Hdotdot].
  unfold _setup_directory_structure.
  rewrite Hsid, Ht2w, Hconform, Hseg.
  cbn [truediv negb sub app removelast last].
  clear Hsid Ht2w Hconform Hseg Hname.
  destruct Hroot as [Hroot|Hroot];
    name_cases sid ["RawT2"; "RawT2RadiologicalIsotropic"];
    (eexists; split; fs_run).
Qed.

Lemma setup_rerun_fails_witness :
  exists t',
    _setup_directory_structure mcribs_files mcribs_inputs (AsPath "/work/mcribs")
      empty_tree = (Ok tt, t') /\
    _setup_directory_structure mcribs_files mcribs_inputs (AsPath "/work/mcribs")
      t' = (Err (External "FileExistsError"), t').
Proof.
  apply (@setup_rerun_fails mcribs_files mcribs_inputs "sub-01"
           "/data/sub-01_T2w.nii.gz" "T2w voxels" "/work/mcribs" empty_tree);
    first [ reflexivity | left; reflexivity | intros; reflexivity ].
Defined.

(** X20: with [conform] set and no segmentation the set-up only makes
    [RawT2] and copies the T2w image into it, and any later set-up for the
    same subject, whatever T2w image it is given, leaves the tree as it
    is: the first copy is never replaced. *)
Theorem setup_conform_keeps_first_copy (input_files : string -> option string)
    (ins : inputs) (sid t2w content d : string) (t : tree) :
  subject_id ins = Some sid -> t2w_file ins = Some t2w ->
  truthy_bool (conform ins) = true ->
  truthy_str (segmentation_file ins) = false ->
  input_files t2w = Some content ->
  plain_name sid = true ->
  (t [] = None \/ t [] = Some Dir) ->
  (forall p, t (sid :: p) = None) ->
  exists t',
    _setup_directory_structure input_files ins (AsPath d) t = (Ok tt, t') /\
    t' [sid; "RawT2"; sid ++ ".nii.gz"] = Some (File content) /\
    t' [sid; "RawT2RadiologicalIsotropic"] = None /\
    forall (input_files' : string -> option string) (ins' : inputs) (d' : string),
      subject_id ins' = Some sid ->
      truthy_bool (conform ins') = true ->
      truthy_str (segmentation_file ins') = false ->
      _setup_directory_structure input_files' ins' (AsPath d') t' = (Ok tt, t').
Proof.
  intros Hsid Ht2w Hconform Hseg Hin Hname Hroot Hfresh.
  destruct (plain_name_not_dots _ Hname) as [Hdot Hdotdot].
  unfold _setup_directory_structure.
  rewrite Hsid, Ht2w, Hconform, Hseg.
  cbn [truediv negb sub app removelast last].
  clear Hsid Ht2w Hconform Hseg Hname.
  destruct Hroot as [Hroot|Hroot];
    (eexists; split; [ fs_run | split; [ lookup | split; [ lookup | ] ] ];
     intros input_files' ins' d' Hsid' Hconform' Hseg';
     rewrite Hsid', Hconform', Hseg';
     cbn [truediv negb sub app removelast last];
     fs_run).
Qed.

Lemma setup_conform_keeps_first_copy_witness :
  exists t',
    _setup_directory_structure mcribs_files mcribs_inputs_conform
      (AsPath "/work/mcribs") empty_tree = (Ok tt, t') /\
    t' ["sub-01"; "RawT2"; "sub-01" ++ ".nii.gz"] = Some (File "T2w voxels") /\
    t' ["sub-01"; "RawT2RadiologicalIsotropic"] = None /\
    _setup_directory_structure (fun _ => Some "other voxels") mcribs_inputs_conform
      (AsPath "/work/mcribs") t' = (Ok tt, t').
Proof.
  destruct (@setup_conform_keeps_first_copy mcribs_files mcribs_inputs_conform
              "sub-01" "/data/sub-01_T2w.nii.gz" "T2w voxels" "/work/mcribs"
              empty_tree)
    as [t' [H1 [H2 [H3 H4]]]];
    try first [ reflexivity | left; reflexivity | intros; reflexivity ].
  exists t'. split; [exact H1|]. split; [exact H2|]. split; [exact H3|].
  apply H4; reflexivity.
Defined.

(** X21: with a segmentation file given, the set-up on a tree with
    nothing of the subject in it raises [AttributeError], whatever
    [conform] and [surfrecon] are: the copy reads the input
    [segmentation], which the interface does not have.  The T2w copy and
    the [TissueSeg] directory made before stay. *)
Theorem setup_segmentation_raises (input_files : string -> option string)
    (ins : inputs) (sid t2w content d : string) (t : tree) :
  subject_id ins = Some sid -> t2w_file ins = Some t2w ->
  truthy_str (segmentation_file ins) = true ->
  input_files t2w = Some content ->
  plain_name sid = true ->
  (t [] = None \/ t [] = Some Dir) ->
  (forall p, t (sid :: p) = None) ->
  t ["RawT2"] = None ->
  exists t',
    _setup_directory_structure input_files ins (AsPath d) t =
      (Err AttributeError, t') /\
    t' [sid; "RawT2"; sid ++ ".nii.gz"] = Some (File content) /\
    t' [sid; "TissueSeg"] = Some Dir /\
    t' [sid; "TissueSeg"; sid ++ "_all_labels.nii.gz"] = None.
Proof.
  intros Hsid Ht2w Hseg Hin Hname Hroot Hfresh Hraw.
  destruct (plain_name_not_dots _ Hname) as [Hdot Hdotdot].
  unfold _setup_directory_structure.
  rewrite Hsid, Ht2w, Hseg.
  destruct (truthy_bool (conform ins));
    cbn [truediv negb sub app removelast last];
    clear Hsid Ht2w Hseg Hname;
    destruct Hroot as [Hroot|Hroot];
    name_cases sid ["RawT2"; "RawT2RadiologicalIsotropic"; "TissueSeg"];
    (eexists; split; [ fs_run | repeat split; lookup ]).
Qed.

Lemma setup_segmentation_raises_witness :
  exists t',
    _setup_directory_structure mcribs_files mcribs_inputs_seg
      (AsPath "/work/mcribs") empty_tree = (Err AttributeError, t') /\
    t' ["sub-01"; "RawT2"; "sub-01" ++ ".nii.gz"] = Some (File "T2w voxels") /\
    t' ["sub-01"; "TissueSeg"] = Some Dir /\
    t' ["sub-01"; "TissueSeg"; "sub-01" ++ "_all_labels.nii.gz"] = None.
Proof.
  apply (@setup_segmentation_raises mcribs_files mcribs_inputs_seg "sub-01"
           "/data/sub-01_T2w.nii.gz" "T2w voxels" "/work/mcribs" empty_tree);
    first [ reflexivity | left; reflexivity | intros; reflexivity ].
Defined.

(** X22: [_run_interface] raises [TypeError] before anything is made or
    run when [MCRIBS_SUBJECTS] names an existing directory, because
    [os.getenv] gives a [str] and [str / str] is not defined; and also,
    whatever the environment, when the working directory it is handed is a
    [str]. *)
Theorem run_interface_str_directory (input_files : string -> option string)
    (run_command : path -> fsop unit) (getenv : option string)
    (env_dir_exists : bool) (runtime_cwd : pathlike) (ins : inputs) (t : tree) :
  (exists dir, getenv = Some dir /\ env_dir_exists = true) \/
  (exists s, runtime_cwd = AsStr s) ->
  _run_interface input_files run_command getenv env_dir_exists runtime_cwd ins t
  = (Err TypeError, t).
Proof.
  intros [[dir [-> ->]] | [s ->]]; unfold _run_interface.
  - reflexivity.
  - destruct getenv as [dir|]; [destruct env_dir_exists|]; reflexivity.
Qed.

Lemma run_interface_str_directory_witness :
  _run_interface mcribs_files (fun _ => fs_ret tt) (Some "/data/mcribs") true
    (AsPath "/work") mcribs_inputs empty_tree = (Err TypeError, empty_tree).
Proof.
  apply (@run_interface_str_directory mcribs_files (fun _ => fs_ret tt)
           (Some "/data/mcribs") true (AsPath "/work") mcribs_inputs empty_tree).
  left. exists "/data/mcribs". split; reflexivity.
Defined.
